(** * KisanAI backend: a shallow embedding of the farm tools and their checked properties

    The development follows the layout of [backend/]:
    - [Py]: the fragment of Python's values and built-ins that the tools use
      (JSON-shaped values, [dict.get], [in], [float()], [int()], text methods,
      [datetime.strptime]/[strftime], [sorted]);
    - [Config]: the environment, the network and the data directory;
    - [FarmManager]: [tools/farm_manager.py] (crops and expenses);
    - [InfoService]: [tools/info_service.py] (weather, market price, soil);
    - [AiService]: [tools/ai_service.py] (model client, mock, chatbot);
    followed by the properties, one section per topic. *)

From Stdlib Require Import ZArith List Bool Lia Ascii String DecimalString.
From Stdlib Require Import Floats.PrimFloat Floats.FloatOps Floats.SpecFloat.
From Stdlib Require Import QArith Qabs Lqa Permutation Sorted.
Import ListNotations.

Set Warnings "-register-all".

Local Open Scope string_scope.
Local Open Scope Z_scope.
Local Open Scope list_scope.

Infix "+++" := String.append (at level 60, right associativity).

(* ================================================================== *)
(** * Python values and built-ins *)
(* ================================================================== *)

Module Py.

(** ** Exceptions *)

Inductive exn_class : Set :=
| KeyError | TypeError | AttributeError | ValueError | IndexError
| OverflowError | OSError | RequestException.

(** An exception object: its class and the text [str(e)] gives. *)
Record exn : Set := mkExn { exn_cls : exn_class; exn_msg : string }.

(** The outcome of evaluating Python code: a value, or a raised exception. *)
Inductive result (A : Type) : Type :=
| Ret (a : A)
| Raise (e : exn).

Arguments Ret {A} a.
Arguments Raise {A} e.

Definition bind {A B : Type} (c : result A) (k : A -> result B) : result B :=
  match c with
  | Ret a => k a
  | Raise e => Raise e
  end.

Notation "x <- c ;; k" := (bind c (fun x => k))
  (at level 61, c at next level, right associativity).

Definition raise {A : Type} (c : exn_class) (msg : string) : result A :=
  Raise (mkExn c msg).

(** ** Values

    What [json.load] produces and what the tools build: [None], booleans,
    integers, binary64 floats, text, lists, and dictionaries. A dictionary is
    an association list in insertion order (Python dictionaries keep it, and
    [json.dump] writes the keys in that order); a lookup takes the first
    binding of a key. *)

Inductive pyval : Type :=
| PNone
| PBool (b : bool)
| PInt (z : Z)
| PFloat (f : float)
| PStr (s : string)
| PList (l : list pyval)
| PDict (d : list (string * pyval)).

Definition dict : Type := list (string * pyval).

Definition type_name (v : pyval) : string :=
  match v with
  | PNone => "NoneType"
  | PBool _ => "bool"
  | PInt _ => "int"
  | PFloat _ => "float"
  | PStr _ => "str"
  | PList _ => "list"
  | PDict _ => "dict"
  end.

(** ** Text

    A text is the sequence of the bytes of its UTF-8 encoding, so that
    equality, containment and the order of two texts are those of Python.
    [lower], [strip] and [title] below are Python's methods on ASCII text.
    On a text with other characters Python follows the Unicode tables: there
    the model asks the interpreter ([str_lower], [str_strip] and [str_title]
    further down). *)

Definition quote : string := String "034"%char EmptyString.

(** The line feed. *)
Definition nl : string := String "010"%char EmptyString.

Definition is_upper (c : ascii) : bool :=
  let n := nat_of_ascii c in (65 <=? n)%nat && (n <=? 90)%nat.

Definition is_lower (c : ascii) : bool :=
  let n := nat_of_ascii c in (97 <=? n)%nat && (n <=? 122)%nat.

Definition is_digit (c : ascii) : bool :=
  let n := nat_of_ascii c in (48 <=? n)%nat && (n <=? 57)%nat.

(** [str.isspace] on one ASCII character: tab, line feed, vertical tab, form
    feed, carriage return, the separators 28 to 31, and the space. *)
Definition is_space (c : ascii) : bool :=
  let n := nat_of_ascii c in
  ((9 <=? n)%nat && (n <=? 13)%nat) || ((28 <=? n)%nat && (n <=? 32)%nat).

Definition lower_char (c : ascii) : ascii :=
  if is_upper c then ascii_of_nat (nat_of_ascii c + 32) else c.

Definition upper_char (c : ascii) : ascii :=
  if is_lower c then ascii_of_nat (nat_of_ascii c - 32) else c.

(** [s.lower()] on ASCII text *)
Fixpoint lower (s : string) : string :=
  match s with
  | EmptyString => EmptyString
  | String c s' => String (lower_char c) (lower s')
  end.

Fixpoint lstrip (s : string) : string :=
  match s with
  | EmptyString => EmptyString
  | String c s' => if is_space c then lstrip s' else s
  end.

Fixpoint rstrip (s : string) : string :=
  match s with
  | EmptyString => EmptyString
  | String c s' =>
      match rstrip s' with
      | EmptyString => if is_space c then EmptyString else String c EmptyString
      | r => String c r
      end
  end.

(** [s.strip()] on ASCII text *)
Definition strip (s : string) : string := rstrip (lstrip s).

(** [s.title()] on ASCII text: a cased character is upper-cased when the one
    before it is not cased, and lower-cased otherwise. *)
Fixpoint title_from (prev_cased : bool) (s : string) : string :=
  match s with
  | EmptyString => EmptyString
  | String c s' =>
      if is_lower c then
        String (if prev_cased then c else upper_char c) (title_from true s')
      else if is_upper c then
        String (if prev_cased then lower_char c else c) (title_from true s')
      else String c (title_from false s')
  end.

Definition title (s : string) : string := title_from false s.

(** All the characters of [s] are ASCII. *)
Fixpoint is_ascii (s : string) : bool :=
  match s with
  | EmptyString => true
  | String c s' => (nat_of_ascii c <? 128)%nat && is_ascii s'
  end.

Fixpoint starts_with (p s : string) : bool :=
  match p, s with
  | EmptyString, _ => true
  | String a p', String b s' => Ascii.eqb a b && starts_with p' s'
  | String _ _, EmptyString => false
  end.

(** [p in s] for two texts. *)
Fixpoint contains (p s : string) : bool :=
  starts_with p s ||
  match s with
  | EmptyString => false
  | String _ s' => contains p s'
  end.

(** [a < b] for two texts: lexicographic on the characters. *)
Fixpoint str_ltb (a b : string) : bool :=
  match a, b with
  | _, EmptyString => false
  | EmptyString, String _ _ => true
  | String x a', String y b' =>
      (nat_of_ascii x <? nat_of_ascii y)%nat
      || (Ascii.eqb x y && str_ltb a' b')
  end.

(** [str(z)] for an integer. *)
Definition str_of_Z (z : Z) : string := NilZero.string_of_int (Z.to_int z).

(** [f"{n:02d}"]-style zero padding on the left, as [strftime] does. *)
Fixpoint zfill (width : nat) (s : string) : string :=
  match width with
  | O => s
  | S w => if (String.length s <? width)%nat then zfill w ("0" +++ s) else s
  end.

(** ** Numbers *)

(** The float nearest to an integer (ties to even), as [float(n)] and mixed
    arithmetic convert it; integers beyond the binary64 range become an
    infinity here and are refused by the callers below. *)
Definition float_of_Z (z : Z) : float :=
  SF2Prim (binary_normalize prec emax z 0 false).

Definition float_is_finite (f : float) : bool :=
  match Prim2SF f with
  | S754_zero _ | S754_finite _ _ _ => true
  | S754_infinity _ | S754_nan => false
  end.

(** The integer part of [m * 2^e], toward zero. *)
Definition trunc_sf (x : spec_float) : option Z :=
  match x with
  | S754_zero _ => Some 0
  | S754_finite s m e =>
      let mag := if 0 <=? e then Z.pos m * 2 ^ e else Z.pos m / 2 ^ (- e) in
      Some (if s then - mag else mag)
  | S754_infinity _ | S754_nan => None
  end.

(** The exact rational value of a finite float. *)
Definition Q_of_sf (x : spec_float) : Q :=
  match x with
  | S754_finite s m e =>
      let mag := if 0 <=? e then inject_Z (Z.pos m * 2 ^ e)
                 else Qmake (Z.pos m) (Z.to_pos (2 ^ (- e))) in
      if s then Qopp mag else mag
  | _ => 0%Q
  end.

Definition Q_of_float (f : float) : Q := Q_of_sf (Prim2SF f).

(** A calendar date, and the two formats the tools parse. *)
Record date : Set := mkDate { year : Z; month : Z; day : Z }.

Inductive format : Set :=
| ISO     (* "%Y-%m-%d" *)
| DMonY.  (* "%d %b %Y" *)

(** What the model takes from the interpreter as given: the parsing of a
    text by [float()] ([None] where Python raises [ValueError]), how a float
    and a container are printed by [str()], how [strftime] prints a year
    below 1000 (C libraries differ on its padding); what [str.lower],
    [str.strip], [str.title] and [datetime.strptime] do with a text that has
    characters outside ASCII (the Unicode case mappings, white space and
    digits); and what [sorted] does with keys none of which is a text (it
    orders numbers, and raises [TypeError] on dictionaries). *)
Record interp : Type := mkInterp {
  float_of_string : string -> option float;
  float_repr : float -> string;
  container_repr : pyval -> string;
  short_year_repr : Z -> string;
  unicode_lower : string -> string;
  unicode_strip : string -> string;
  unicode_title : string -> string;
  unicode_strptime : string -> format -> option date;
  sorted_other : list pyval -> list pyval -> result (list pyval);
  sort_refusal : list pyval -> string
}.

Section Builtins.

Variable rt : interp.

Definition int_to_float (z : Z) : result float :=
  let f := float_of_Z z in
  if float_is_finite f then Ret f
  else raise OverflowError "int too large to convert to float".

(** [float(v)] *)
Definition py_float (v : pyval) : result float :=
  match v with
  | PFloat f => Ret f
  | PInt z => int_to_float z
  | PBool b => Ret (if b then 1%float else 0%float)
  | PStr s =>
      match float_of_string rt s with
      | Some f => Ret f
      | None => raise ValueError ("could not convert string to float: '" +++ s +++ "'")
      end
  | _ => raise TypeError
           ("float() argument must be a string or a real number, not '"
              +++ type_name v +++ "'")
  end.

(** [int(f)] for a float [f] *)
Definition py_int_of_float (f : float) : result Z :=
  match Prim2SF f with
  | S754_nan => raise ValueError "cannot convert float NaN to integer"
  | S754_infinity _ => raise OverflowError "cannot convert float infinity to integer"
  | x => match trunc_sf x with
         | Some z => Ret z
         | None => raise ValueError "cannot convert float to integer"
         end
  end.

(** [acc + x] where [x] is a float: the sum is a float whatever number [acc]
    is; anything that is not a number refuses the addition. *)
Definition py_add_float (acc : pyval) (x : float) : result pyval :=
  match acc with
  | PFloat a => Ret (PFloat (a + x)%float)
  | PInt z => a <- int_to_float z ;; Ret (PFloat (a + x)%float)
  | PBool b => Ret (PFloat ((if b then 1 else 0) + x)%float)
  | _ => raise TypeError
           ("unsupported operand type(s) for +: '" +++ type_name acc +++ "' and 'float'")
  end.

Definition as_int (v : pyval) : option Z :=
  match v with
  | PInt z => Some z
  | PBool b => Some (if b then 1 else 0)
  | _ => None
  end.

(** [a - b]: an integer when both are integers, else a float. *)
Definition py_sub (a b : pyval) : result pyval :=
  let refuse := raise TypeError
    ("unsupported operand type(s) for -: '" +++ type_name a +++ "' and '"
       +++ type_name b +++ "'") in
  match as_int a, as_int b with
  | Some x, Some y => Ret (PInt (x - y))
  | Some x, None =>
      match b with
      | PFloat g => f <- int_to_float x ;; Ret (PFloat (f - g)%float)
      | _ => refuse
      end
  | None, Some y =>
      match a with
      | PFloat f => g <- int_to_float y ;; Ret (PFloat (f - g)%float)
      | _ => refuse
      end
  | None, None =>
      match a, b with
      | PFloat f, PFloat g => Ret (PFloat (f - g)%float)
      | _, _ => refuse
      end
  end.

(** Truth value of [v] in [if v], [not v], [a or b]. *)
Definition truthy (v : pyval) : bool :=
  match v with
  | PNone => false
  | PBool b => b
  | PInt z => negb (z =? 0)
  | PFloat f => negb (PrimFloat.eqb f 0%float)
  | PStr s => negb (String.eqb s "")
  | PList l => match l with [] => false | _ => true end
  | PDict d => match d with [] => false | _ => true end
  end.

(** [a or b] *)
Definition py_or (a b : pyval) : pyval := if truthy a then a else b.

(** [str(v)], as an f-string field prints [v]. *)
Definition py_str (v : pyval) : string :=
  match v with
  | PNone => "None"
  | PBool b => if b then "True" else "False"
  | PInt z => str_of_Z z
  | PFloat f => float_repr rt f
  | PStr s => s
  | PList _ | PDict _ => container_repr rt v
  end.

(** [s.lower()], [s.strip()] and [s.title()] for any text. *)
Definition str_lower (s : string) : string :=
  if is_ascii s then lower s else unicode_lower rt s.

Definition str_strip (s : string) : string :=
  if is_ascii s then strip s else unicode_strip rt s.

Definition str_title (s : string) : string :=
  if is_ascii s then title s else unicode_title rt s.

End Builtins.

(** ** Dictionaries and containers *)

Fixpoint dict_get (k : string) (d : dict) : option pyval :=
  match d with
  | [] => None
  | (k', v) :: d' => if String.eqb k k' then Some v else dict_get k d'
  end.

Definition dict_has (k : string) (d : dict) : bool :=
  match dict_get k d with Some _ => true | None => false end.

(** [d[k] = v]: replaces the value of an existing key in place, else appends. *)
Fixpoint dict_set (k : string) (v : pyval) (d : dict) : dict :=
  match d with
  | [] => [(k, v)]
  | (k', v') :: d' =>
      if String.eqb k k' then (k, v) :: d' else (k', v') :: dict_set k v d'
  end.

Definition keys (d : dict) : list string := map fst d.

Definition no_attribute {A : Type} (v : pyval) (attr : string) : result A :=
  raise AttributeError
    ("'" +++ type_name v +++ "' object has no attribute '" +++ attr +++ "'").

(** [v.get(k, default)] *)
Definition py_get (v : pyval) (k : string) (default : pyval) : result pyval :=
  match v with
  | PDict d => Ret (match dict_get k d with Some x => x | None => default end)
  | _ => no_attribute v "get"
  end.

(** [v.strip()], [v.lower()], [v.title()] *)
Definition py_strip (rt : interp) (v : pyval) : result string :=
  match v with PStr s => Ret (str_strip rt s) | _ => no_attribute v "strip" end.

Definition py_lower (rt : interp) (v : pyval) : result string :=
  match v with PStr s => Ret (str_lower rt s) | _ => no_attribute v "lower" end.

Definition py_title (rt : interp) (v : pyval) : result string :=
  match v with PStr s => Ret (str_title rt s) | _ => no_attribute v "title" end.

Definition is_str (k : string) (v : pyval) : bool :=
  match v with PStr s => String.eqb s k | _ => false end.

Fixpoint chars (s : string) : list pyval :=
  match s with
  | EmptyString => []
  | String c s' => PStr (String c EmptyString) :: chars s'
  end.

(** The elements [for r in v] visits. *)
Definition py_iter (v : pyval) : result (list pyval) :=
  match v with
  | PList l => Ret l
  | PDict d => Ret (map (fun kv => PStr (fst kv)) d)
  | PStr s => Ret (chars s)
  | _ => raise TypeError ("'" +++ type_name v +++ "' object is not iterable")
  end.

(** [k in v] for a text [k]: a key of a dictionary, an element of a list, a
    part of a text. *)
Definition py_in (k : string) (v : pyval) : result bool :=
  match v with
  | PDict d => Ret (dict_has k d)
  | PList l => Ret (existsb (is_str k) l)
  | PStr s => Ret (contains k s)
  | _ => raise TypeError ("argument of type '" +++ type_name v +++ "' is not iterable")
  end.

(** [len(v)]; for a text the model counts bytes, and the tools only compare
    this length with zero. *)
Definition py_len (v : pyval) : result Z :=
  match v with
  | PList l => Ret (Z.of_nat (List.length l))
  | PDict d => Ret (Z.of_nat (List.length d))
  | PStr s => Ret (Z.of_nat (String.length s))
  | _ => raise TypeError ("object of type '" +++ type_name v +++ "' has no len()")
  end.

(** [v[k]] for a text key [k] *)
Definition py_item (v : pyval) (k : string) : result pyval :=
  match v with
  | PDict d =>
      match dict_get k d with
      | Some x => Ret x
      | None => raise KeyError ("'" +++ k +++ "'")
      end
  | PList _ => raise TypeError "list indices must be integers or slices, not str"
  | PStr _ => raise TypeError "string indices must be integers, not 'str'"
  | _ => raise TypeError ("'" +++ type_name v +++ "' object is not subscriptable")
  end.

(** [v[k] = x] for a text key [k]: the container after the assignment. *)
Definition py_setitem (v : pyval) (k : string) (x : pyval) : result pyval :=
  match v with
  | PDict d => Ret (PDict (dict_set k x d))
  | PList _ => raise TypeError "list indices must be integers or slices, not str"
  | _ => raise TypeError
           ("'" +++ type_name v +++ "' object does not support item assignment")
  end.

(** [v[0]]; the tools go on to use what they get here as an object, which a
    character of a text is not, whatever it is. *)
Definition py_first (v : pyval) : result pyval :=
  match v with
  | PList (x :: _) => Ret x
  | PList [] => raise IndexError "list index out of range"
  | PStr (String c _) => Ret (PStr (String c EmptyString))
  | PStr EmptyString => raise IndexError "string index out of range"
  | PDict _ => raise KeyError "0"
  | _ => raise TypeError ("'" +++ type_name v +++ "' object is not subscriptable")
  end.

(** [try: c  except Exception: h] *)
Definition try_except {A : Type} (c : result A) (h : exn -> result A) : result A :=
  match c with
  | Ret a => Ret a
  | Raise e => h e
  end.

(** A [for] loop that returns the first element passing [test]; an exception
    in [test] leaves the loop at that element. *)
Fixpoint first_where (test : pyval -> result bool) (l : list pyval)
  : result (option pyval) :=
  match l with
  | [] => Ret None
  | r :: l' =>
      b <- test r ;;
      if b then Ret (Some r) else first_where test l'
  end.

(** The list comprehension [[r for r in l if test(r)]]. *)
Fixpoint comprehension (test : pyval -> result bool) (l : list pyval)
  : result (list pyval) :=
  match l with
  | [] => Ret []
  | r :: l' =>
      b <- test r ;;
      rest <- comprehension test l' ;;
      Ret (if b then r :: rest else rest)
  end.

(** ** Dates: [datetime.strptime] and [strftime]

    The two formats the tools parse, ["%Y-%m-%d"] and ["%d %b %Y"], follow
    the regular expressions [_strptime] builds for them: [%Y] is four digits,
    [%m] is [1[0-2]|0[1-9]|[1-9]], [%d] is
    [3[0-1]|[1-2]\d|0[1-9]|[1-9]| [1-9]], [%b] is a month abbreviation in any
    letter case (English month names), a blank of the format is one or more
    white-space characters, and the whole text must be consumed. In both
    formats the character after a number field is never a digit, so taking
    the first alternative that matches is what the backtracking matcher
    finds. The date must exist (year 1 to 9999, day within the month).
    [strptime] is the parser on ASCII text; the digits, the white space and
    the letters of other scripts that the regular expressions also accept
    are the interpreter's ([py_strptime]). *)

Definition digit_val (c : ascii) : Z := Z.of_nat (nat_of_ascii c) - 48.

Definition in_range (lo hi : nat) (c : ascii) : bool :=
  let n := nat_of_ascii c in (lo <=? n)%nat && (n <=? hi)%nat.

Definition is_leap (y : Z) : bool :=
  ((y mod 4 =? 0) && negb (y mod 100 =? 0)) || (y mod 400 =? 0).

Definition days_in_month (y m : Z) : Z :=
  match m with
  | 2 => if is_leap y then 29 else 28
  | 4 | 6 | 9 | 11 => 30
  | _ => 31
  end.

Definition valid_date (dt : date) : bool :=
  (1 <=? year dt) && (year dt <=? 9999)
  && (1 <=? month dt) && (month dt <=? 12)
  && (1 <=? day dt) && (day dt <=? days_in_month (year dt) (month dt)).

(** [%Y] *)
Definition parse_Y (s : string) : option (Z * string) :=
  match s with
  | String a (String b (String c (String d rest))) =>
      if is_digit a && is_digit b && is_digit c && is_digit d
      then Some (1000 * digit_val a + 100 * digit_val b
                 + 10 * digit_val c + digit_val d, rest)
      else None
  | _ => None
  end.

(** [%m] *)
Definition parse_m (s : string) : option (Z * string) :=
  match s with
  | String a rest =>
      let one := if in_range 49 57 a then Some (digit_val a, rest) else None in
      match rest with
      | String b rest' =>
          if Ascii.eqb a "1" && in_range 48 50 b then Some (10 + digit_val b, rest')
          else if Ascii.eqb a "0" && in_range 49 57 b then Some (digit_val b, rest')
          else one
      | EmptyString => one
      end
  | EmptyString => None
  end.

(** [%d] *)
Definition parse_d (s : string) : option (Z * string) :=
  match s with
  | String a rest =>
      let one := if in_range 49 57 a then Some (digit_val a, rest) else None in
      match rest with
      | String b rest' =>
          if Ascii.eqb a "3" && in_range 48 49 b then Some (30 + digit_val b, rest')
          else if in_range 49 50 a && is_digit b
               then Some (10 * digit_val a + digit_val b, rest')
          else if Ascii.eqb a "0" && in_range 49 57 b then Some (digit_val b, rest')
          else if in_range 49 57 a then Some (digit_val a, rest)
          else if Ascii.eqb a " " && in_range 49 57 b then Some (digit_val b, rest')
          else None
      | EmptyString => one
      end
  | EmptyString => None
  end.

Definition month_abbr (m : Z) : string :=
  match m with
  | 1 => "Jan" | 2 => "Feb" | 3 => "Mar" | 4 => "Apr" | 5 => "May"
  | 6 => "Jun" | 7 => "Jul" | 8 => "Aug" | 9 => "Sep" | 10 => "Oct"
  | 11 => "Nov" | _ => "Dec"
  end.

Definition month_of_abbr (s : string) : option Z :=
  find (fun m => String.eqb (lower (month_abbr m)) s)
       [1; 2; 3; 4; 5; 6; 7; 8; 9; 10; 11; 12].

(** [%b] *)
Definition parse_b (s : string) : option (Z * string) :=
  match s with
  | String a (String b (String c rest)) =>
      match month_of_abbr (lower (String a (String b (String c EmptyString)))) with
      | Some m => Some (m, rest)
      | None => None
      end
  | _ => None
  end.

(** A blank of the format: one or more white-space characters. *)
Definition parse_blank (s : string) : option string :=
  match s with
  | String a rest => if is_space a then Some (lstrip rest) else None
  | EmptyString => None
  end.

Definition literal (c : ascii) (s : string) : option string :=
  match s with
  | String a rest => if Ascii.eqb a c then Some rest else None
  | EmptyString => None
  end.

Definition finish (y m d : Z) (rest : string) : option date :=
  let dt := mkDate y m d in
  if String.eqb rest "" && valid_date dt then Some dt else None.

Definition strptime (s : string) (fmt : format) : option date :=
  match fmt with
  | ISO =>
      match parse_Y s with
      | Some (y, s1) =>
          match literal "-" s1 with
          | Some s2 =>
              match parse_m s2 with
              | Some (m, s3) =>
                  match literal "-" s3 with
                  | Some s4 =>
                      match parse_d s4 with
                      | Some (d, s5) => finish y m d s5
                      | None => None
                      end
                  | None => None
                  end
              | None => None
              end
          | None => None
          end
      | None => None
      end
  | DMonY =>
      match parse_d s with
      | Some (d, s1) =>
          match parse_blank s1 with
          | Some s2 =>
              match parse_b s2 with
              | Some (m, s3) =>
                  match parse_blank s3 with
                  | Some s4 =>
                      match parse_Y s4 with
                      | Some (y, s5) => finish y m d s5
                      | None => None
                      end
                  | None => None
                  end
              | None => None
              end
          | None => None
          end
      | None => None
      end
  end.

(** [datetime.strptime(v, fmt)]: [TypeError] for a value that is no text,
    [ValueError] for a text that does not parse. *)
Definition py_strptime (rt : interp) (v : pyval) (fmt : format) : result date :=
  match v with
  | PStr s =>
      match (if is_ascii s then strptime s fmt else unicode_strptime rt s fmt) with
      | Some dt => Ret dt
      | None => raise ValueError "time data does not match format"
      end
  | _ => raise TypeError "strptime() argument 1 must be str"
  end.

Section Strftime.

Variable rt : interp.

(** [%Y] *)
Definition year_repr (y : Z) : string :=
  if 1000 <=? y then str_of_Z y else short_year_repr rt y.

(** [dt.strftime("%Y-%m-%d")] *)
Definition strftime_iso (dt : date) : string :=
  year_repr (year dt) +++ "-" +++ zfill 2 (str_of_Z (month dt))
    +++ "-" +++ zfill 2 (str_of_Z (day dt)).

(** [dt.strftime("%d %b")] *)
Definition strftime_d_b (dt : date) : string :=
  zfill 2 (str_of_Z (day dt)) +++ " " +++ month_abbr (month dt).

(** [dt.strftime("%d %b %Y")] *)
Definition strftime_d_b_Y (dt : date) : string :=
  strftime_d_b dt +++ " " +++ year_repr (year dt).

End Strftime.

(** The calendar date of a proleptic Gregorian ordinal ([date.fromordinal]:
    day 1 is 1 January of year 1). *)
Definition date_of_ordinal (n : Z) : date :=
  let z := n + 305 in
  let era := z / 146097 in
  let doe := z - era * 146097 in
  let yoe := (doe - doe / 1460 + doe / 36524 - doe / 146096) / 365 in
  let doy := doe - (365 * yoe + yoe / 4 - yoe / 100) in
  let mp := (5 * doy + 2) / 153 in
  let d := doy - (153 * mp + 2) / 5 + 1 in
  let m := if mp <? 10 then mp + 3 else mp - 9 in
  let y := yoe + era * 400 + (if m <=? 2 then 1 else 0) in
  mkDate y m d.

(** ** [sorted(l, key=key, reverse=True)]

    The keys are computed first, for every element; the result is in
    descending key order and elements with equal keys keep the order they had
    (the sort is stable, also when reversed). A list of fewer than two
    elements is never compared. The model orders text keys, the only keys the
    expense records written by this program have. When some keys are texts
    and others are not, a text meets a key of another type in some
    comparison (the comparisons of a sort connect all the elements), and
    Python raises [TypeError], with a message that names the two types. Keys
    none of which is a text (numbers, which Python orders, or lists and
    dictionaries) are left to the interpreter. *)

Fixpoint insert_desc (k : string) (x : pyval) (l : list (string * pyval))
  : list (string * pyval) :=
  match l with
  | [] => [(k, x)]
  | (k', y) :: l' =>
      if str_ltb k k' then (k', y) :: insert_desc k x l' else (k, x) :: l
  end.

Definition sort_desc (l : list (string * pyval)) : list (string * pyval) :=
  fold_right (fun kx acc => insert_desc (fst kx) (snd kx) acc) [] l.

Fixpoint map_result {A B : Type} (f : A -> result B) (l : list A) : result (list B) :=
  match l with
  | [] => Ret []
  | x :: l' => y <- f x ;; ys <- map_result f l' ;; Ret (y :: ys)
  end.

Fixpoint text_keys (ks : list pyval) : option (list string) :=
  match ks with
  | [] => Some []
  | PStr s :: ks' =>
      match text_keys ks' with Some ss => Some (s :: ss) | None => None end
  | _ :: _ => None
  end.

Definition is_text (v : pyval) : bool :=
  match v with PStr _ => true | _ => false end.

Definition sorted_reverse (rt : interp) (key : pyval -> result pyval) (l : list pyval)
  : result (list pyval) :=
  ks <- map_result key l ;;
  match l with
  | [] | [_] => Ret l
  | _ =>
      match text_keys ks with
      | Some ss => Ret (map snd (sort_desc (combine ss l)))
      | None =>
          if existsb is_text ks then raise TypeError (sort_refusal rt ks)
          else sorted_other rt ks l
      end
  end.

End Py.

(* ================================================================== *)
(** * config.py: environment, network, clock, data directory *)
(* ================================================================== *)

Module Config.
Import Py.

(** A file of the data directory: absent, present but not readable as JSON
    ([open] or [json.load] raises), or holding a JSON document. *)
Inductive file : Type :=
| Missing
| Unreadable
| Stored (v : pyval).

(** The files under [DATA_DIR]. [writable] tells whether [makedirs], [open]
    for writing and [json.dump] go through; when they do, the file holds the
    dumped document, which [json.load] reads back as the same value. When a
    save does not go through, [torn] tells where it failed: in [json.dump],
    after [open(path, "w")] had emptied the file, which is then left with the
    beginning of a document at most, a text [json.load] refuses; or before
    the file was opened, which leaves it as it was. *)
Record disk : Type := mkDisk {
  crops_json : file;
  expenses_json : file;
  soil_json : file;
  weather_json : file;
  prices_json : file;
  writable : bool;
  torn : bool
}.

(** Code that reads and writes the data directory: the disk goes in, the
    outcome and the disk as the code left it come out. *)
Definition io (A : Type) : Type := disk -> result A * disk.

Definition io_bind {A B : Type} (c : io A) (k : A -> io B) : io B :=
  fun d =>
    match c d with
    | (Ret a, d') => k a d'
    | (Raise e, d') => (Raise e, d')
    end.

(** A step that leaves the disk as it is. *)
Definition pure {A : Type} (r : result A) : io A := fun d => (r, d).

(** A step that only reads the disk. *)
Definition reading {A : Type} (f : disk -> result A) : io A := fun d => (f d, d).

Notation "x <~ c ;; k" := (io_bind c (fun x => k))
  (at level 61, c at next level, right associativity).

(** [os.path.exists(path)] *)
Definition exists_ (f : file) : bool :=
  match f with Missing => false | _ => true end.

(** [with open(path, "r") as f: json.load(f)] *)
Definition json_load (f : file) : result pyval :=
  match f with
  | Missing => raise OSError "No such file or directory"
  | Unreadable => raise ValueError "Expecting value"
  | Stored v => Ret v
  end.

(** An HTTP response: its status code and what [.json()] gives. *)
Record response : Type := mkResponse {
  status_code : Z;
  json : result pyval
}.

(** Everything the tools read from outside: the interpreter, the environment
    variables, the answers of the network to a GET of a URL and to the POST of
    a prompt to the model endpoint (an exception when the transport fails),
    today's date as an ordinal, and the successive draws of
    [random.uniform(-0.1, 0.1)]. *)
Record world : Type := mkWorld {
  rt : interp;
  OPENWEATHER_KEY : option string;
  OPENROUTER_API_KEY : option string;
  requests_get : string -> result response;
  requests_post : string -> string -> result response;
  today : Z;
  random_uniform : nat -> float
}.

(** [not key] for a value of [os.getenv]: unset or empty. *)
Definition no_key (k : option string) : bool :=
  match k with
  | None => true
  | Some s => String.eqb s ""
  end.

Definition key_text (k : option string) : string :=
  match k with Some s => s | None => "None" end.

(** [get_openrouter_headers()] *)
Definition get_openrouter_headers (w : world) : dict :=
  if no_key (OPENROUTER_API_KEY w) then []
  else [("Authorization", PStr ("Bearer " +++ key_text (OPENROUTER_API_KEY w)));
        ("HTTP-Referer", PStr "http://localhost");
        ("X-Title", PStr "KisanAI")].

(** [datetime.now()] as a calendar date. *)
Definition now (w : world) : date := date_of_ordinal (today w).

End Config.

(* ================================================================== *)
(** * tools/farm_manager.py *)
(* ================================================================== *)

Module FarmManager.
Import Py Config.

(** ** Crop management *)

Definition load_crops (d : disk) : result pyval :=
  if negb (exists_ (crops_json d)) then Ret (PList [])
  else
    try_except
      (data <- json_load (crops_json d) ;;
       match data with
       | PList _ => Ret data
       | _ => Ret (PList [])
       end)
      (fun _ => Ret (PList [])).

Definition save_crops (crops : pyval) : io unit :=
  fun d =>
    if writable d
    then (Ret tt, mkDisk (Stored crops) (expenses_json d) (soil_json d)
                         (weather_json d) (prices_json d) (writable d) (torn d))
    else if torn d
    then (raise OSError "No space left on device",
          mkDisk Unreadable (expenses_json d) (soil_json d)
                 (weather_json d) (prices_json d) (writable d) (torn d))
    else (raise OSError "Permission denied", d).

(** [l.append(x)] on the value a [load_*] returned. *)
Definition py_append (l : pyval) (x : pyval) : result pyval :=
  match l with
  | PList xs => Ret (PList (xs ++ [x]))
  | _ => no_attribute l "append"
  end.

Definition add_crop (w : world) (crop plot : pyval) : io pyval :=
  crops <~ reading load_crops ;;
  let new_crop := PDict [("crop", crop); ("plot", plot);
                         ("sown_date", PStr (strftime_d_b_Y (rt w) (now w)));
                         ("stage", PStr "Sown"); ("progress", PInt 0)] in
  crops' <~ pure (py_append crops new_crop) ;;
  _ <~ save_crops crops' ;;
  pure (Ret (PDict [("status", PStr "success");
                    ("message", PStr "Crop added");
                    ("data", new_crop)])).

(** [l.pop(i)] for [0 <= i]: the element removed and the list without it. *)
Fixpoint pop (i : nat) (l : list pyval) : option (pyval * list pyval) :=
  match l, i with
  | [], _ => None
  | x :: l', O => Some (x, l')
  | x :: l', S i' =>
      match pop i' l' with
      | Some (y, r) => Some (y, x :: r)
      | None => None
      end
  end.

(** [crops.pop(index)] *)
Definition py_pop (crops : pyval) (index : Z) : result (pyval * pyval) :=
  match crops with
  | PList xs =>
      match pop (Z.to_nat index) xs with
      | Some (removed, rest) => Ret (removed, PList rest)
      | None => raise IndexError "pop index out of range"
      end
  | _ => no_attribute crops "pop"
  end.

Definition delete_crop (index : Z) : io pyval :=
  crops <~ reading load_crops ;;
  n <~ pure (py_len crops) ;;
  if (index <? 0) || (index >=? n)
  then pure (Ret (PDict [("error", PStr "Invalid crop index")]))
  else
    popped <~ pure (py_pop crops index) ;;
    _ <~ save_crops (snd popped) ;;
    pure (Ret (PDict [("status", PStr "success");
                      ("message", PStr "Crop deleted");
                      ("data", fst popped)])).

Definition get_crops (d : disk) : result pyval :=
  crops <- load_crops d ;;
  xs <- py_iter crops ;;
  Ret (PList (rev xs)).

(** ** Expense management *)

Definition load_expenses (d : disk) : result pyval :=
  if negb (exists_ (expenses_json d)) then Ret (PList [])
  else
    try_except
      (data <- json_load (expenses_json d) ;;
       match data with
       | PList _ => Ret data
       | _ => Ret (PList [])
       end)
      (fun _ => Ret (PList [])).

Definition save_expenses (expenses : pyval) : io unit :=
  fun d =>
    if writable d
    then (Ret tt, mkDisk (crops_json d) (Stored expenses) (soil_json d)
                         (weather_json d) (prices_json d) (writable d) (torn d))
    else if torn d
    then (raise OSError "No space left on device",
          mkDisk (crops_json d) Unreadable (soil_json d)
                 (weather_json d) (prices_json d) (writable d) (torn d))
    else (raise OSError "Permission denied", d).

(** The [ts] and the display date [add_expense] derives from its [date]
    argument: ISO first, then the display format, else no [ts]. *)
Definition stamp (w : world) (date : pyval) : pyval * pyval :=
  match py_strptime (rt w) date ISO with
  | Ret dt => (PStr (strftime_iso (rt w) dt), PStr (strftime_d_b_Y (rt w) dt))
  | Raise _ =>
      match py_strptime (rt w) date DMonY with
      | Ret dt => (PStr (strftime_iso (rt w) dt), date)
      | Raise _ => (PNone, date)
      end
  end.

Definition add_expense (w : world) (title amount type date : pyval) : io pyval :=
  expenses <~ reading load_expenses ;;
  let (ts, formatted_date) := stamp w date in
  a <~ pure (py_float (rt w) amount) ;;
  let new_transaction := PDict [("title", title); ("amount", PFloat a);
                                ("type", type); ("date", formatted_date);
                                ("ts", ts)] in
  expenses' <~ pure (py_append expenses new_transaction) ;;
  _ <~ save_expenses expenses' ;;
  pure (Ret (PDict [("status", PStr "success");
                    ("message", PStr "Expense added");
                    ("data", new_transaction)])).

(** The inner [sort_key] of [get_expenses]. *)
Definition sort_key (w : world) (x : pyval) : result pyval :=
  ts <- py_get x "ts" PNone ;;
  if truthy ts then Ret ts
  else
    d <- py_get x "date" (PStr "") ;;
    match py_strptime (rt w) d DMonY with
    | Ret dt => Ret (PStr (strftime_iso (rt w) dt))
    | Raise _ =>
        match py_strptime (rt w) d ISO with
        | Ret dt => Ret (PStr (strftime_iso (rt w) dt))
        | Raise _ => Ret (PStr "")
        end
    end.

Definition get_expenses (w : world) (d : disk) : result pyval :=
  expenses <- load_expenses d ;;
  xs <- py_iter expenses ;;
  out <- sorted_reverse (rt w) (sort_key w) xs ;;
  Ret (PList out).

(** The loop of [get_summary]: the two running totals after the records [es]. *)
Fixpoint totals (w : world) (es : list pyval) (total_income total_expense : pyval)
  : result (pyval * pyval) :=
  match es with
  | [] => Ret (total_income, total_expense)
  | e :: es' =>
      t <- py_get e "type" PNone ;;
      if is_str "income" t then
        v <- py_get e "amount" (PInt 0) ;;
        a <- py_float (rt w) v ;;
        total_income' <- py_add_float total_income a ;;
        totals w es' total_income' total_expense
      else
        v <- py_get e "amount" (PInt 0) ;;
        a <- py_float (rt w) v ;;
        total_expense' <- py_add_float total_expense a ;;
        totals w es' total_income total_expense'
  end.

Definition get_summary (w : world) (d : disk) : result pyval :=
  expenses <- load_expenses d ;;
  es <- py_iter expenses ;;
  t <- totals w es (PInt 0) (PInt 0) ;;
  let (total_income, total_expense) := t in
  profit <- py_sub total_income total_expense ;;
  Ret (PDict [("total_income", total_income);
              ("total_expense", total_expense);
              ("profit", profit)]).

End FarmManager.

(* ================================================================== *)
(** * tools/info_service.py *)
(* ================================================================== *)

Module InfoService.
Import Py Config.

(** ** Weather service *)

(** [r.get(key, "").strip().lower()] *)
Definition field_lower (w : world) (key : string) (r : pyval) : result string :=
  c <- py_get r key (PStr "") ;;
  s <- py_strip (rt w) c ;;
  Ret (str_lower (rt w) s).

Definition _find_local_weather (w : world) (d : disk) (city : string) : option pyval :=
  let body :=
    if negb (exists_ (weather_json d)) then Ret None
    else
      data <- json_load (weather_json d) ;;
      let city_l := str_lower (rt w) (str_strip (rt w) city) in
      rs <- py_iter data ;;
      (* exact match *)
      exact <- first_where
                 (fun r => c <- field_lower w "city" r ;; Ret (String.eqb c city_l)) rs ;;
      match exact with
      | Some r => Ret (Some r)
      | None =>
          (* contains match *)
          part <- first_where
                    (fun r =>
                       if String.eqb city_l "" then Ret false
                       else c <- field_lower w "city" r ;; Ret (contains city_l c)) rs ;;
          match part with
          | Some r => Ret (Some r)
          | None =>
              (* default fallback *)
              first_where
                (fun r =>
                   c <- field_lower w "city" r ;;
                   Ret (String.eqb c "default" || String.eqb c "pune")) rs
          end
      end in
  match body with
  | Ret found => found
  | Raise _ => None
  end.

(** [local = find(...); if local: return local; return otherwise] *)
Definition local_or (local : option pyval) (otherwise : pyval) : pyval :=
  match local with
  | Some r => if truthy r then r else otherwise
  | None => otherwise
  end.

(** [v != 200] *)
Definition differs_from_200 (v : pyval) : bool :=
  match v with
  | PInt z => negb (z =? 200)
  | PFloat f => negb (PrimFloat.eqb f 200%float)
  | _ => true
  end.

Definition get_weather (w : world) (d : disk) (city : string) : result pyval :=
  if no_key (OPENWEATHER_KEY w) then
    (* No key: try local data *)
    Ret (local_or (_find_local_weather w d city)
                  (PDict [("error", PStr "Missing OPENWEATHER_KEY in .env")]))
  else
    try_except
      (let url := "http://api.openweathermap.org/data/2.5/weather?q=" +++ city
                    +++ "&appid=" +++ key_text (OPENWEATHER_KEY w)
                    +++ "&units=metric" in
       resp <- requests_get w url ;;
       data <- json resp ;;
       cod <- py_get data "cod" PNone ;;
       if differs_from_200 cod then
         message <- py_get data "message" PNone ;;
         Ret (local_or (_find_local_weather w d city) (PDict [("error", message)]))
       else
         main <- py_item data "main" ;;
         temp <- py_item main "temp" ;;
         main' <- py_item data "main" ;;
         humidity <- py_item main' "humidity" ;;
         sky <- py_item data "weather" ;;
         sky0 <- py_first sky ;;
         description <- py_item sky0 "description" ;;
         Ret (PDict [("city", PStr city); ("temp", temp);
                     ("humidity", humidity); ("weather", description)]))
      (fun e =>
         Ret (local_or (_find_local_weather w d city)
                       (PDict [("error", PStr (exn_msg e))]))).

(** ** Market price service *)

Definition _find_local_price (w : world) (d : disk) (crop state : string)
  : option pyval :=
  let body :=
    if negb (exists_ (prices_json d)) then Ret None
    else
      data <- json_load (prices_json d) ;;
      let crop_l := str_lower (rt w) (str_strip (rt w) crop) in
      let state_l := str_lower (rt w) (str_strip (rt w) state) in
      rs <- py_iter data ;;
      candidates <- comprehension
                      (fun r => c <- field_lower w "crop" r ;; Ret (String.eqb c crop_l)) rs ;;
      candidates <-
        (if negb (String.eqb state_l "") then
           cand_state <- comprehension
                           (fun r => c <- field_lower w "state" r ;;
                                     Ret (String.eqb c state_l)) candidates ;;
           Ret (match cand_state with [] => candidates | _ => cand_state end)
         else Ret candidates) ;;
      candidates <-
        (match candidates with
         | [] =>
             if negb (String.eqb crop_l "") then
               (* fallback: contains *)
               comprehension
                 (fun r => c <- field_lower w "crop" r ;; Ret (contains crop_l c)) rs
             else Ret candidates
         | _ => Ret candidates
         end) ;;
      match candidates with
      | r :: _ =>
          v_crop <- py_get r "crop" (PStr crop) ;;
          v_state <- py_get r "state" (PStr state) ;;
          district <- py_get r "district" PNone ;;
          market <- py_get r "market" PNone ;;
          modal_price <- py_get r "modal_price" PNone ;;
          min_price <- py_get r "min_price" PNone ;;
          max_price <- py_get r "max_price" PNone ;;
          arrival_date <- py_get r "arrival_date" PNone ;;
          variety <- py_get r "variety" PNone ;;
          Ret (Some (PDict [("crop", v_crop); ("state", v_state);
                            ("district", district); ("market", market);
                            ("modal_price", modal_price);
                            ("min_price", min_price); ("max_price", max_price);
                            ("arrival_date", arrival_date);
                            ("variety", variety); ("source", PStr "local")]))
      | [] => Ret None
      end in
  match body with
  | Ret found => found
  | Raise _ => None
  end.

(** [(today - timedelta(days=i)).strftime("%d %b")] *)
Definition day_label (w : world) (i : Z) : result string :=
  if today w - i <? 1 then raise OverflowError "date value out of range"
  else Ret (strftime_d_b (date_of_ordinal (today w - i))).

(** The history loop [for i in range(6, -1, -1)]: [days] are the values of
    [i] still to visit and [k] counts the random draws made so far. *)
Fixpoint simulated_history (w : world) (base_price : pyval) (days : list Z) (k : nat)
  : result (list pyval) :=
  match days with
  | [] => Ret []
  | i :: days' =>
      date <- day_label w i ;;
      (* Random fluctuation within 10% *)
      b <- py_float (rt w) base_price ;;
      p <- py_int_of_float (b * (1 + random_uniform w k))%float ;;
      rest <- simulated_history w base_price days' (S k) ;;
      Ret (PDict [("date", PStr date); ("price", PInt p)] :: rest)
  end.

Definition price_url (commodity state : string) : string :=
  "https://api.data.gov.in/resource/35985678-0d79-46b4-9ed6-6f13308a1d24"
    +++ "?api-key=579b464db66ec23bdd000001cdd3946e44ce4aad7209ff7b23ac571b"
    +++ "&format=json"
    +++ "&filters[Commodity]=" +++ commodity
    +++ "&filters[State]=" +++ state
    +++ "&limit=5".

Definition get_market_price (w : world) (d : disk) (commodity state : string)
  : result pyval :=
  try_except
    (response <- requests_get w (price_url commodity state) ;;
     if negb (status_code response =? 200) then
       (* Try local fallback when API is not reachable or rate-limited *)
       Ret (local_or (_find_local_price w d commodity state)
              (PDict [("crop", PStr commodity); ("state", PStr state);
                      ("error", PStr ("API returned status code "
                                        +++ str_of_Z (status_code response)))]))
     else
       data <- json response ;;
       has_records <- py_in "records" data ;;
       n <- (if has_records
             then recs <- py_get data "records" (PList []) ;; py_len recs
             else Ret 0) ;;
       if has_records && (n >? 0) then
         recs <- py_item data "records" ;;
         records <- py_first recs ;;
         district <- py_get records "district" PNone ;;
         market <- py_get records "market" PNone ;;
         modal_price <- py_get records "modal_price" PNone ;;
         min_price <- py_get records "min_price" PNone ;;
         max_price <- py_get records "max_price" PNone ;;
         arrival_date <- py_get records "arrival_date" PNone ;;
         variety <- py_get records "variety" PNone ;;
         let result := [("crop", PStr commodity); ("state", PStr state);
                        ("district", district); ("market", market);
                        ("modal_price", modal_price);
                        ("min_price", min_price); ("max_price", max_price);
                        ("arrival_date", arrival_date); ("variety", variety)] in
         (* Generate a simulated 7-day history based on the modal price *)
         history <- simulated_history w modal_price [6; 5; 4; 3; 2; 1; 0] 0 ;;
         Ret (PDict (dict_set "history" (PList history) result))
       else
         (* API returned but no records; try local fallback *)
         Ret (local_or (_find_local_price w d commodity state)
                (PDict [("crop", PStr commodity); ("state", PStr state);
                        ("error", PStr "No data found for the given commodity and state")])))
    (fun e =>
       (* Network/API error; try local fallback first *)
       Ret (local_or (_find_local_price w d commodity state)
              (PDict [("crop", PStr commodity); ("state", PStr state);
                      ("modal_price", PStr "N/A");
                      ("error", PStr (exn_msg e))]))).

(** ** Soil service *)

Definition load_soil_data (d : disk) : result pyval :=
  try_except
    (if negb (exists_ (soil_json d)) then Ret (PDict [])
     else json_load (soil_json d))
    (fun _ => Ret (PDict [])).

Definition save_soil_data (data : pyval) : io bool :=
  fun d =>
    if writable d
    then (Ret true, mkDisk (crops_json d) (expenses_json d) (Stored data)
                           (weather_json d) (prices_json d) (writable d) (torn d))
    else if torn d
    then (Ret false, mkDisk (crops_json d) (expenses_json d) Unreadable
                            (weather_json d) (prices_json d) (writable d) (torn d))
    else (Ret false, d).

Definition get_soil_report (d : disk) (field : string) : result pyval :=
  soil <- load_soil_data d ;;
  here <- py_in field soil ;;
  if here then py_item soil field
  else
    fallback <- py_in "default" soil ;;
    if fallback then py_item soil "default"
    else Ret (PDict [("error", PStr "No soil data")]).

Definition add_soil_report (w : world) (field : string)
    (ph nitrogen phosphorus potassium moisture soil_type : pyval) : io pyval :=
  data <~ reading load_soil_data ;;
  ph' <~ pure (py_float (rt w) ph) ;;
  nitrogen' <~ pure (py_float (rt w) nitrogen) ;;
  phosphorus' <~ pure (py_float (rt w) phosphorus) ;;
  potassium' <~ pure (py_float (rt w) potassium) ;;
  moisture' <~ pure (py_float (rt w) moisture) ;;
  let report := PDict [("ph", PFloat ph'); ("nitrogen", PFloat nitrogen');
                       ("phosphorus", PFloat phosphorus');
                       ("potassium", PFloat potassium');
                       ("moisture", PFloat moisture');
                       ("soil_type", soil_type);
                       ("last_tested", PStr (strftime_d_b_Y (rt w) (now w)))] in
  data' <~ pure (py_setitem data field report) ;;
  saved <~ save_soil_data data' ;;
  if saved
  then pure (Ret (PDict [("status", PStr "success");
                         ("message", PStr "Soil report saved");
                         ("data", report)]))
  else pure (Ret (PDict [("error", PStr "Failed to save soil data")])).

End InfoService.

(* ================================================================== *)
(** * tools/ai_service.py *)
(* ================================================================== *)

Module AiService.
Import Py Config FarmManager InfoService.

(** ** LLM client *)

Definition llm_url : string := "https://openrouter.ai/api/v1/chat/completions".

(** The keywords are ASCII, and the ASCII [lower] decides these tests as
    [prompt.lower()] does: outside ASCII only two characters are lower-cased
    to an ASCII letter, the Kelvin sign to [k], which no keyword has, and the
    dotted capital I to [i] followed by a combining dot, while in every
    keyword a letter follows the [i]. *)
Definition _mock_response (prompt : string) : string :=
  let p := lower prompt in
  if contains "weather" p then
    "The weather looks clear for the next few days. Good for spraying pesticides."
  else if contains "price" p then
    "Market prices are fluctuating. It might be good to hold for a week if you have storage."
  else if contains "soil" p then
    "Your soil nitrogen levels seem low. Consider adding Urea or compost."
  else if contains "finance" p then
    "You are in profit this season! Keep tracking your expenses."
  else if contains "advice" p || contains "tip" p then
    "Rotate your crops to maintain soil health and reduce pest attacks."
  else
    "I am in offline mode. Please check your internet or API key for live AI answers. Meanwhile: Farming is essential!".

Definition ask_llm (w : world) (prompt : string) : result pyval :=
  try_except
    (let headers := get_openrouter_headers w in
     if negb (truthy (PDict headers)) then
       (* Mock fallback for dummy mode *)
       Ret (PStr (_mock_response prompt))
     else
       response <- requests_post w llm_url prompt ;;
       if negb (status_code response =? 200) then Ret (PStr (_mock_response prompt))
       else
         r <- json response ;;
         has_error <- py_in "error" r ;;
         if has_error then Ret (PStr (_mock_response prompt))
         else
           has_choices <- py_in "choices" r ;;
           n <- (if has_choices
                 then choices <- py_item r "choices" ;; py_len choices
                 else Ret 0) ;;
           if negb has_choices || (n =? 0) then Ret (PStr (_mock_response prompt))
           else
             choices <- py_item r "choices" ;;
             choice <- py_first choices ;;
             message <- py_item choice "message" ;;
             py_item message "content")
    (fun _ => Ret (PStr (_mock_response prompt))).

(** ** Chatbot logic *)

Definition indent : string := "    ".

Definition detect_intent (w : world) (question : string) : result string :=
  let prompt :=
    nl +++ indent +++ "Classify the intent of this question into one word:"
    +++ nl +++ indent +++ "- weather"
    +++ nl +++ indent +++ "- price"
    +++ nl +++ indent +++ "- soil"
    +++ nl +++ indent +++ "- finance"
    +++ nl +++ indent +++ "- crop_advice"
    +++ nl +++ indent +++ "- general"
    +++ nl
    +++ nl +++ indent +++ "Question: " +++ quote +++ question +++ quote
    +++ nl
    +++ nl +++ indent +++ "ONLY return one word."
    +++ nl +++ indent in
  intent <- ask_llm w prompt ;;
  s <- py_strip (rt w) intent ;;
  Ret (str_lower (rt w) s).

Definition extract_city (w : world) (question : string) : result string :=
  let prompt :=
    nl +++ indent +++ "Extract the city name from: " +++ quote +++ question +++ quote
    +++ nl +++ indent +++ "If none found, return " +++ quote +++ "Pune" +++ quote +++ "."
    +++ nl +++ indent +++ "ONLY return the city."
    +++ nl +++ indent in
  answer <- ask_llm w prompt ;;
  py_strip (rt w) answer.

Definition extract_crop (w : world) (question : string) : result string :=
  let prompt :=
    nl +++ indent +++ "Extract the crop name from: " +++ quote +++ question +++ quote
    +++ nl +++ indent +++ "ONLY return the crop. If not found, return "
    +++ quote +++ "Tomato" +++ quote +++ "."
    +++ nl +++ indent in
  answer <- ask_llm w prompt ;;
  py_strip (rt w) answer.

Definition format_weather (w : world) (city : string) (data : pyval) : result string :=
  temp <- py_item data "temp" ;;
  humidity <- py_item data "humidity" ;;
  sky <- py_item data "weather" ;;
  sky_title <- py_title (rt w) sky ;;
  Ret (nl +++ "🌦 **Weather Update – " +++ city +++ "**"
       +++ nl +++ "Temperature: **" +++ py_str (rt w) temp +++ "°C**"
       +++ nl +++ "Humidity: **" +++ py_str (rt w) humidity +++ "%**"
       +++ nl +++ "Sky: **" +++ sky_title +++ "**"
       +++ nl
       +++ nl +++ "✅ Good time for outdoor farm work if rain chance is low."
       +++ nl).

Definition format_price (w : world) (data : pyval) : result string :=
  c1 <- py_get data "crop" PNone ;;
  crop <- (if truthy c1 then Ret c1
           else c2 <- py_get data "commodity" PNone ;; Ret (py_or c2 (PStr "Crop"))) ;;
  state <- py_get data "state" (PStr "State") ;;
  market <- py_get data "market" (PStr "N/A") ;;
  min_price <- py_get data "min_price" (PStr "N/A") ;;
  max_price <- py_get data "max_price" (PStr "N/A") ;;
  Ret (nl +++ "📈 **Market Price for " +++ py_str (rt w) crop +++ " – "
          +++ py_str (rt w) state +++ "**"
       +++ nl +++ "Market: **" +++ py_str (rt w) market +++ "**"
       +++ nl +++ "Min: **₹" +++ py_str (rt w) min_price +++ "**"
       +++ nl +++ "Max: **₹" +++ py_str (rt w) max_price +++ "**"
       +++ nl
       +++ nl +++ "✅ Compare local mandi rates to get best deal."
       +++ nl).

Definition format_soil (w : world) (data : pyval) : result string :=
  soil_type <- py_item data "soil_type" ;;
  ph <- py_item data "ph" ;;
  moisture <- py_item data "moisture" ;;
  nitrogen <- py_item data "nitrogen" ;;
  phosphorus <- py_item data "phosphorus" ;;
  potassium <- py_item data "potassium" ;;
  last_tested <- py_item data "last_tested" ;;
  Ret (nl +++ "🧪 **Soil Report**"
       +++ nl +++ "Soil Type: **" +++ py_str (rt w) soil_type +++ "**"
       +++ nl +++ "pH: **" +++ py_str (rt w) ph +++ "**"
       +++ nl +++ "Moisture: **" +++ py_str (rt w) moisture +++ "**"
       +++ nl +++ "N: **" +++ py_str (rt w) nitrogen +++ "**"
       +++ nl +++ "P: **" +++ py_str (rt w) phosphorus +++ "**"
       +++ nl +++ "K: **" +++ py_str (rt w) potassium +++ "**"
       +++ nl +++ "Last Tested: **" +++ py_str (rt w) last_tested +++ "**"
       +++ nl
       +++ nl +++ "✅ Soil looks healthy. Moderate fertilization recommended."
       +++ nl).

(** [data.get(a) or data.get(b) or 0] *)
Definition first_truthy (data : pyval) (a b : string) : result pyval :=
  x <- py_get data a PNone ;;
  if truthy x then Ret x
  else y <- py_get data b PNone ;; Ret (py_or y (PInt 0)).

Definition format_finance (w : world) (data : pyval) : result string :=
  income <- first_truthy data "total_income" "income" ;;
  expense <- first_truthy data "total_expense" "expense" ;;
  p <- py_get data "profit" PNone ;;
  profit <- (if truthy p then Ret p else py_sub income expense) ;;
  Ret (nl +++ "💰 **Farm Finance Summary**"
       +++ nl +++ "Income: **₹" +++ py_str (rt w) income +++ "**"
       +++ nl +++ "Expenses: **₹" +++ py_str (rt w) expense +++ "**"
       +++ nl +++ "Profit: **₹" +++ py_str (rt w) profit +++ "**"
       +++ nl
       +++ nl +++ "✅ Track weekly to avoid losses."
       +++ nl).

Definition answer (v : pyval) : pyval := PDict [("answer", v)].

(** [if "error" in data: return {"answer": data["error"]}], else the
    rendered template. *)
Definition error_or (data : pyval) (render : pyval -> result string) : result pyval :=
  failed <- py_in "error" data ;;
  if failed then e <- py_item data "error" ;; Ret (answer e)
  else text <- render data ;; Ret (answer (PStr text)).

Definition process_query (w : world) (d : disk) (question : string) : result pyval :=
  intent <- detect_intent w question ;;
  (* WEATHER *)
  if contains "weather" intent then
    city <- extract_city w question ;;
    data <- get_weather w d city ;;
    error_or data (format_weather w city)
  (* PRICE *)
  else if contains "price" intent then
    crop <- extract_crop w question ;;
    data <- get_market_price w d crop "Maharashtra" ;;
    error_or data (format_price w)
  (* SOIL *)
  else if contains "soil" intent then
    data <- get_soil_report d "default" ;;
    error_or data (format_soil w)
  (* FINANCE *)
  else if contains "finance" intent then
    data <- get_summary w d ;;
    text <- format_finance w data ;;
    Ret (answer (PStr text))
  (* CROP ADVICE *)
  else if contains "crop_advice" intent then
    response <- ask_llm w ("Give practical crop advice for a farmer: " +++ question
                             +++ ". " +++ "Keep it short and in simple language.") ;;
    Ret (answer response)
  (* GENERAL: fallback to LLM *)
  else
    response <- ask_llm w ("You are KisanAI. Explain answer simply for farmers: "
                             +++ question) ;;
    Ret (answer response).

Definition generate_dashboard_insight (w : world) (weather prices : string)
  : result pyval :=
  let prompt :=
    nl +++ indent +++ "Generate a 1-sentence farming tip based on this data:"
    +++ nl +++ indent +++ "Weather: " +++ weather
    +++ nl +++ indent +++ "Prices: " +++ prices
    +++ nl +++ indent
    +++ nl +++ indent +++ "Keep it practical and actionable for an Indian farmer."
    +++ nl +++ indent in
  ask_llm w prompt.

End AiService.

(* ================================================================== *)
(** * fastapi_server.py: the routes that do more than pass a call on *)
(* ================================================================== *)

Module FastapiServer.
Import Py Config FarmManager InfoService AiService.




(** [GET /dashboard] *)
Definition dashboard_data (w : world) (d : disk) (city crop : string)
  : result pyval :=
  weather_data <- get_weather w d city ;;
  price_data <- get_market_price w d crop "Maharashtra" ;;
  crops_data <- get_crops d ;;
  finance_data <- get_summary w d ;;
  crop_count <- py_len crops_data ;;
  total_income <- py_get finance_data "total_income" (PInt 0) ;;
  total_expense <- py_get finance_data "total_expense" (PInt 0) ;;
  profit <- py_get finance_data "profit" (PInt 0) ;;
  Ret (PDict [("weather", weather_data);
              ("price", price_data);
              ("crop_count", PInt crop_count);
              ("crops", crops_data);
              ("financials", PDict [("total_income", total_income);
                                    ("total_expense", total_expense);
                                    ("profit", profit)])]).

(** [GET /dashboard/insight] *)
Definition api_dashboard_insight (w : world) (d : disk) (city crop : string)
  : result pyval :=
  w_data <- get_weather w d city ;;
  p_data <- get_market_price w d crop "Maharashtra" ;;
  w_failed <- py_in "error" w_data ;;
  w_str <- (if negb w_failed then
              temp <- py_get w_data "temp" (PInt 25) ;;
              sky <- py_get w_data "weather" (PStr "Clear") ;;
              Ret (py_str (rt w) temp +++ "C, " +++ py_str (rt w) sky)
            else Ret "Unknown") ;;
  p_failed <- py_in "error" p_data ;;
  p_str <- (if negb p_failed then
              name <- py_get p_data "crop" (PStr crop) ;;
              modal <- py_get p_data "modal_price" (PStr "N/A") ;;
              Ret (py_str (rt w) name +++ ": " +++ py_str (rt w) modal)
            else Ret "Unknown") ;;
  insight <- generate_dashboard_insight w w_str p_str ;;
  Ret (PDict [("insight", insight)]).

End FastapiServer.

(* ================================================================== *)
(** * Reference notions and sample data *)
(* ================================================================== *)

Import Py Config FarmManager InfoService AiService.

(** An interpreter and a world for the concrete runs below: no credentials,
    a network that is down, 1 March 2024 as today. The runs are on ASCII
    texts and text keys, so the Unicode tables and the ordering of other keys
    are never consulted. *)
Definition plain_interp : interp :=
  mkInterp (fun _ => None) (fun _ => "?") (fun _ => "?") str_of_Z
           (fun s => s) (fun s => s) (fun s => s) (fun _ _ => None)
           (fun _ _ => raise TypeError "'<' not supported between instances")
           (fun _ => "'<' not supported between instances").

Definition offline_world : world :=
  mkWorld plain_interp None None
          (fun _ => raise RequestException "Connection refused")
          (fun _ _ => raise RequestException "Connection refused")
          738946 (fun _ => 0%float).

Definition empty_disk : disk :=
  mkDisk Missing Missing Missing Missing Missing true false.

(** What a file holds when it is not a JSON list. *)
Definition not_a_list (f : file) : Prop :=
  match f with
  | Stored (PList _) => False
  | _ => True
  end.

(** A data directory whose [soil.json] holds the JSON list [["default"]]. *)
Definition soil_list_disk : disk :=
  mkDisk Missing Missing (Stored (PList [PStr "default"])) Missing Missing true false.

(** Two crop records as [add_crop] writes them, and a disk storing them. *)
Definition crop_record (crop plot : string) : pyval :=
  PDict [("crop", PStr crop); ("plot", PStr plot);
         ("sown_date", PStr "01 Mar 2024");
         ("stage", PStr "Sown"); ("progress", PInt 0)].

Definition two_crops_disk : disk :=
  mkDisk (Stored (PList [crop_record "Wheat" "North"; crop_record "Rice" "South"]))
         Missing Missing Missing Missing true false.

(** ** The expense ledger *)

(** A stored record counts as income when its [type] is exactly the text
    [income]. *)
Definition is_income (e : pyval) : bool :=
  match e with
  | PDict d =>
      match dict_get "type" d with
      | Some (PStr s) => String.eqb s "income"
      | _ => false
      end
  | _ => false
  end.

Definition is_other (e : pyval) : bool := negb (is_income e).

(** The amount of a stored record as a float: [float(e.get("amount", 0))]
    where that is defined. *)
Definition amount_of (rt : interp) (e : pyval) : option float :=
  match e with
  | PDict d =>
      match py_float rt (match dict_get "amount" d with
                         | Some v => v
                         | None => PInt 0
                         end) with
      | Ret f => Some f
      | Raise _ => None
      end
  | _ => None
  end.

(** Every record is a dictionary with an amount [float()] accepts. *)
Definition summable (rt : interp) (es : list pyval) : Prop :=
  Forall (fun e => amount_of rt e <> None) es.

(** The amounts of the records of [es] that [keep] selects, in stored order. *)
Definition amounts (rt : interp) (keep : pyval -> bool) (es : list pyval)
  : list float :=
  flat_map (fun e => if keep e
                     then match amount_of rt e with Some f => [f] | None => [] end
                     else []) es.

(** Python's [sum(fs)]: the integer 0 for no term, else the float sum taken
    from the left, starting from 0. *)
Definition py_sum (fs : list float) : pyval :=
  match fs with
  | [] => PInt 0
  | f :: fs' => PFloat (fold_left PrimFloat.add fs' (0 + f)%float)
  end.

(** The float a total counts for in a subtraction: the integer 0 of an empty
    total is 0.0. *)
Definition float_total (fs : list float) : float :=
  match fs with
  | [] => 0%float
  | f :: fs' => fold_left PrimFloat.add fs' (0 + f)%float
  end.

(** The income total minus the expense total: the integer 0 when there is no
    amount at all, else the float difference. *)
Definition profit_of (incomes expenses : list float) : pyval :=
  match incomes, expenses with
  | [], [] => PInt 0
  | _, _ => PFloat (float_total incomes - float_total expenses)%float
  end.

(** A running total: the integer 0 before any term, a float afterwards. *)
Definition running (o : option float) : pyval :=
  match o with
  | None => PInt 0
  | Some a => PFloat a
  end.

Definition feed (o : option float) (fs : list float) : option float :=
  fold_left (fun o f => Some (match o with
                              | None => (0 + f)%float
                              | Some a => (a + f)%float
                              end)) fs o.

(** The arguments of one call of [add_expense]. *)
Record addition : Type := mkAddition {
  a_title : pyval;
  a_amount : pyval;
  a_type : pyval;
  a_date : pyval
}.

(** An addition is valid when [float()] accepts its amount. *)
Definition valid_addition (rt : interp) (a : addition) : Prop :=
  exists f, py_float rt (a_amount a) = Ret f.

(** The record a valid addition stores. *)
Definition recorded (w : world) (a : addition) : pyval :=
  match py_float (rt w) (a_amount a) with
  | Ret f =>
      PDict [("title", a_title a); ("amount", PFloat f); ("type", a_type a);
             ("date", snd (stamp w (a_date a))); ("ts", fst (stamp w (a_date a)))]
  | Raise _ => PNone
  end.

(** The calls of [add_expense] for [adds], in order: what each call returned
    and the disk after the last. *)
Fixpoint add_all (w : world) (adds : list addition) (d : disk)
  : list (result pyval) * disk :=
  match adds with
  | [] => ([], d)
  | a :: rest =>
      let (out, d') := add_expense w (a_title a) (a_amount a) (a_type a) (a_date a) d in
      let (outs, d'') := add_all w rest d' in
      (out :: outs, d'')
  end.

(** A call that returned the success record carrying [data]. *)
Definition added (data : pyval) (out : result pyval) : Prop :=
  out = Ret (PDict [("status", PStr "success"); ("message", PStr "Expense added");
                    ("data", data)]).

(** The record [get_summary] returns for the totals [i], [e] and profit [p]. *)
Definition summary (i e p : pyval) : pyval :=
  PDict [("total_income", i); ("total_expense", e); ("profit", p)].

(** Sample additions: an income of 100 and an expense of 40. *)
Definition sale : addition :=
  mkAddition (PStr "Wheat sale") (PInt 100) (PStr "income") (PStr "2024-02-10").

Definition seeds : addition :=
  mkAddition (PStr "Seeds") (PFloat 40) (PStr "expense") (PStr "2024-01-05").

(** A stored ledger whose second record has the type [Income], capitalised. *)
Definition misspelt_ledger : list pyval :=
  [PDict [("title", PStr "Wheat sale"); ("amount", PFloat 100);
          ("type", PStr "income")];
   PDict [("title", PStr "Bonus"); ("amount", PFloat 40);
          ("type", PStr "Income")];
   PDict [("title", PStr "Untyped"); ("amount", PFloat 2)]].

Definition misspelt_disk : disk :=
  mkDisk Missing (Stored (PList misspelt_ledger)) Missing Missing Missing true false.

(** ** The expense listing *)

(** A record as [add_expense] stores it for a date it could parse. *)
Definition expense_record (title : pyval) (amount : float) (type : pyval)
    (date ts : string) : pyval :=
  PDict [("title", title); ("amount", PFloat amount); ("type", type);
         ("date", PStr date); ("ts", PStr ts)].

(** The text key [sort_key] gives a record, where it gives a text. *)
Definition key_of (w : world) (e : pyval) : string :=
  match sort_key w e with
  | Ret (PStr s) => s
  | _ => ""
  end.

Definition text_keyed (w : world) (e : pyval) : Prop :=
  exists s, sort_key w e = Ret (PStr s).

(** A record with no [ts] (none, or a null or empty one) whose [date] parses
    under neither format. *)
Definition undated (w : world) (e : pyval) : Prop :=
  exists rec,
    e = PDict rec
    /\ truthy (match dict_get "ts" rec with Some v => v | None => PNone end) = false
    /\ (forall fmt dt,
          py_strptime (rt w) (match dict_get "date" rec with
                              | Some v => v
                              | None => PStr ""
                              end) fmt <> Ret dt).

(** A record whose [date] parses under one of the two formats. *)
Definition dated (w : world) (e : pyval) : Prop :=
  exists rec fmt dt,
    e = PDict rec
    /\ py_strptime (rt w) (match dict_get "date" rec with
                           | Some v => v
                           | None => PStr ""
                           end) fmt = Ret dt.

(** [a] may stand before [b] in a descending listing: [a] is not below [b]. *)
Definition not_below (a b : string) : Prop := str_ltb a b = false.

Definition may_precede (a b : string * pyval) : Prop :=
  not_below (fst a) (fst b).

(** In a listing, [a] may stand before [b]: its key is not below [b]'s. *)
Definition newer_first (w : world) (a b : pyval) : Prop :=
  not_below (key_of w a) (key_of w b).

(** The records with the empty key stand before all the others. *)
Definition empty_keys_first (w : world) (out : list pyval) : Prop :=
  exists front back,
    out = front ++ back
    /\ Forall (fun e => key_of w e = "") front
    /\ Forall (fun e => key_of w e <> "") back.

(** The records with the empty key stand after all the others. *)
Definition empty_keys_last (w : world) (out : list pyval) : Prop :=
  exists front back,
    out = front ++ back
    /\ Forall (fun e => key_of w e <> "") front
    /\ Forall (fun e => key_of w e = "") back.

(** A record paired with its key, as the sort handles it. *)
Definition with_key (w : world) (e : pyval) : string * pyval := (key_of w e, e).

(** The empty keys of a keyed list form its tail. *)
Definition keys_split (l : list (string * pyval)) : Prop :=
  exists front back,
    l = front ++ back
    /\ Forall (fun kx => fst kx <> "") front
    /\ Forall (fun kx => fst kx = "") back.

(** A ledger holding a record with an unreadable date, then a dated one. *)
Definition someday : pyval :=
  PDict [("title", PStr "Fence"); ("amount", PFloat 10); ("type", PStr "expense");
         ("date", PStr "someday"); ("ts", PNone)].

Definition new_year : pyval :=
  expense_record (PStr "Seeds") 40 (PStr "expense") "01 Jan 2024" "2024-01-01".

Definition mixed_disk : disk :=
  mkDisk Missing (Stored (PList [someday; new_year])) Missing Missing Missing true false.

(** ** The local weather cache *)

(** A cache record is well formed when its [city], if it has one, is a text. *)
Definition city_is_text (r : dict) : Prop :=
  match dict_get "city" r with
  | None | Some (PStr _) => True
  | Some _ => False
  end.

(** A text as the searches compare it: stripped, then lower case. *)
Definition norm (rt : interp) (s : string) : string := str_lower rt (str_strip rt s).

(** The city of a record as the search compares it, empty when the record
    names none. *)
Definition norm_city (rt : interp) (r : dict) : string :=
  match dict_get "city" r with
  | Some (PStr s) => norm rt s
  | _ => ""
  end.

Definition exact_hit (rt : interp) (city_l : string) (r : dict) : bool :=
  String.eqb (norm_city rt r) city_l.

Definition part_hit (rt : interp) (city_l : string) (r : dict) : bool :=
  negb (String.eqb city_l "") && contains city_l (norm_city rt r).

Definition default_hit (rt : interp) (r : dict) : bool :=
  String.eqb (norm_city rt r) "default" || String.eqb (norm_city rt r) "pune".

(** The three searches, in order, each returning its first hit. *)
Definition lookup (rt : interp) (recs : list dict) (city : string) : option dict :=
  let city_l := norm rt city in
  match find (exact_hit rt city_l) recs with
  | Some r => Some r
  | None =>
      match find (part_hit rt city_l) recs with
      | Some r => Some r
      | None => find (default_hit rt) recs
      end
  end.

(** An element of a cache on which the search gives up: it is no object, or
    its [city] is no text. *)
Definition malformed (v : pyval) : Prop :=
  match v with
  | PDict r => ~ city_is_text r
  | _ => True
  end.

Definition missing_key_error : pyval :=
  PDict [("error", PStr "Missing OPENWEATHER_KEY in .env")].

(** A cache of two cities and the default entry. *)
Definition pune_record : dict :=
  [("city", PStr "Pune"); ("temp", PInt 29); ("humidity", PInt 40);
   ("weather", PStr "clear sky")].

Definition mumbai_record : dict :=
  [("city", PStr " Navi Mumbai "); ("temp", PInt 31); ("humidity", PInt 70);
   ("weather", PStr "haze")].

Definition weather_disk : disk :=
  mkDisk Missing Missing Missing
         (Stored (PList (map PDict [mumbai_record; pune_record]))) Missing true false.

(** The same cache behind an entry whose city is a number. *)
Definition numbered_entry : dict := [("city", PInt 5); ("temp", PInt 20)].

Definition spoilt_weather_disk : disk :=
  mkDisk Missing Missing Missing
         (Stored (PList (map PDict [numbered_entry; mumbai_record; pune_record])))
         Missing true false.

(** ** The local price cache and the live price API *)








(** A world whose price API answers 200 with an empty record set, and a
    price cache that knows onions only. *)
Definition empty_answer_world : world :=
  mkWorld plain_interp None None
          (fun _ => Ret (mkResponse 200 (Ret (PDict [("records", PList [])]))))
          (fun _ _ => raise RequestException "Connection refused")
          738946 (fun _ => 0%float).

Definition onion_disk : disk :=
  mkDisk Missing Missing Missing Missing
         (Stored (PList [PDict [("crop", PStr "Onion"); ("state", PStr "Maharashtra");
                                ("modal_price", PInt 1800)]]))
         true false.

(** ** The chatbot without a model credential *)

(** The mock answer to any prompt that mentions the weather. *)
Definition weather_mock : string :=
  "The weather looks clear for the next few days. Good for spraying pesticides.".

(** ** The simulated price history *)

(** The modal price scaled by the [k]-th draw: [float(base) * (1 + u)]. *)
Definition scaled (w : world) (base : float) (k : nat) : float :=
  (base * (1 + random_uniform w k))%float.

(** The history entries for the days [days] ago, with the prices [ps]. *)
Definition entries (w : world) (days : list Z) (ps : list Z) : list pyval :=
  map (fun ip => PDict [("date", PStr (strftime_d_b (date_of_ordinal (today w - fst ip))));
                        ("price", PInt (snd ip))])
      (combine days ps).

(** [p] is [x] with its fractional part dropped. *)
Definition truncates (x : Q) (p : Z) : Prop :=
  ((0 <= x -> inject_Z p <= x /\ x < inject_Z p + 1)
   /\ (x <= 0 -> x <= inject_Z p /\ inject_Z p - 1 < x))%Q.

(** [p] lies within 10% of [base]. *)
Definition within_ten_percent (base : Q) (p : Z) : Prop :=
  (Qabs (inject_Z p - base) <= (1 # 10) * Qabs base)%Q.

(** The fields of a live answer built from the first record. *)
Definition live_fields (commodity state : string) (record : dict) : dict :=
  let field k := match dict_get k record with Some v => v | None => PNone end in
  [("crop", PStr commodity); ("state", PStr state);
   ("district", field "district"); ("market", field "market");
   ("modal_price", field "modal_price");
   ("min_price", field "min_price"); ("max_price", field "max_price");
   ("arrival_date", field "arrival_date"); ("variety", field "variety")].

(** The least and the greatest draw of [random.uniform(-0.1, 0.1)]: the
    floats nearest to -0.1 and to 0.1. *)
Definition lowest_draw : float := (-0x1.999999999999ap-4)%float.
Definition highest_draw : float := 0x1.999999999999ap-4%float.

(** A world whose price API answers with one record of modal price 5, and
    whose every draw is the lowest. *)
Definition cheap_record : dict :=
  [("district", PStr "Pune"); ("market", PStr "Pune"); ("modal_price", PInt 5)].

Definition cheap_world : world :=
  mkWorld plain_interp None None
          (fun _ => Ret (mkResponse 200 (Ret (PDict [("records", PList [PDict cheap_record])]))))
          (fun _ _ => raise RequestException "Connection refused")
          738946 (fun _ => lowest_draw).

(* ================================================================== *)
(** * Further notions and sample data *)
(* ================================================================== *)

Import FastapiServer.

(** ** Crops *)

(** The record [add_crop] builds for a crop sown today. *)
Definition new_crop (w : world) (crop plot : pyval) : pyval :=
  PDict [("crop", crop); ("plot", plot);
         ("sown_date", PStr (strftime_d_b_Y (rt w) (now w)));
         ("stage", PStr "Sown"); ("progress", PInt 0)].

Definition crop_added (data : pyval) : pyval :=
  PDict [("status", PStr "success"); ("message", PStr "Crop added"); ("data", data)].

Definition crop_deleted (data : pyval) : pyval :=
  PDict [("status", PStr "success"); ("message", PStr "Crop deleted"); ("data", data)].

(** The disk with its crops file replaced. *)
Definition with_crops (crops : list pyval) (d : disk) : disk :=
  mkDisk (Stored (PList crops)) (expenses_json d) (soil_json d)
         (weather_json d) (prices_json d) (writable d) (torn d).


(** ** Expenses *)

Definition expense_added (data : pyval) : pyval :=
  PDict [("status", PStr "success"); ("message", PStr "Expense added");
         ("data", data)].

(** The disk with its ledger file replaced. *)
Definition with_expenses_file (f : file) (d : disk) : disk :=
  mkDisk (crops_json d) f (soil_json d) (weather_json d) (prices_json d)
         (writable d) (torn d).

(** The records of [es] whose key is [k], in their order. *)
Definition with_the_key (w : world) (k : string) (es : list pyval) : list pyval :=
  filter (fun e => String.eqb (key_of w e) k) es.

(** A ledger with two expenses of the same day around a later one. *)
Definition same_day_ledger : list pyval :=
  [expense_record (PStr "Seeds") 40 (PStr "expense") "05 Jan 2024" "2024-01-05";
   expense_record (PStr "Wheat sale") 100 (PStr "income") "10 Feb 2024" "2024-02-10";
   expense_record (PStr "Fuel") 15 (PStr "expense") "05 Jan 2024" "2024-01-05"].

Definition same_day_disk : disk :=
  mkDisk Missing (Stored (PList same_day_ledger)) Missing Missing Missing true false.

(** A ledger whose second entry is a text instead of a record. *)
Definition spoilt_disk : disk :=
  mkDisk Missing
         (Stored (PList [expense_record (PStr "Seeds") 40 (PStr "expense")
                                        "05 Jan 2024" "2024-01-05";
                         PStr "oops"]))
         Missing Missing Missing true false.

(** ** Dates *)

(** A date [add_expense] can store with a four-digit year. *)
Definition storable (dt : date) : Prop :=
  valid_date dt = true /\ 1000 <= year dt.

(** [a] is an earlier day than [b]. *)
Definition date_ltb (a b : date) : bool :=
  (year a <? year b)
  || ((year a =? year b)
      && ((month a <? month b)
          || ((month a =? month b) && (day a <? day b)))).

(** The decimal text of [y] is four digits that spell [y]. *)
Definition four_digit_year (y : Z) : bool :=
  match str_of_Z y with
  | String a (String b (String c (String d EmptyString))) =>
      is_digit a && is_digit b && is_digit c && is_digit d
      && (1000 * digit_val a + 100 * digit_val b + 10 * digit_val c + digit_val d =? y)
  | _ => false
  end.

(** The two-digit text of [n], as [%m] and [%d] print it. *)
Definition two_digits (n : Z) : string := zfill 2 (str_of_Z n).

(** On the two-digit texts of [m] and [n], the order and the equality of
    texts are those of the numbers. *)
Definition two_digits_agree (m n : Z) : bool :=
  Bool.eqb (str_ltb (two_digits m) (two_digits n)) (m <? n)
  && Bool.eqb (String.eqb (two_digits m) (two_digits n)) (m =? n)
  && (String.length (two_digits m) =? 2)%nat.

(** The integers from 1 to [n]. *)
Definition up_to (n : Z) : list Z :=
  map (fun i => Z.of_nat (S i)) (seq 0 (Z.to_nat n)).

(** An expense as entered: what [add_expense] is given, with a parsed date. *)
Record entry : Type := mkEntry {
  e_title : pyval;
  e_amount : float;
  e_type : pyval;
  e_date : date
}.

(** The record [add_expense] stores for an entry dated in ISO form. *)
Definition stored_entry (w : world) (e : entry) : pyval :=
  expense_record (e_title e) (e_amount e) (e_type e)
                 (strftime_d_b_Y (rt w) (e_date e))
                 (strftime_iso (rt w) (e_date e)).

(** [a] may be listed before [b]: it is not dated earlier. *)
Definition not_earlier (a b : entry) : Prop :=
  date_ltb (e_date a) (e_date b) = false.

(** Sample entries, and the ledger holding them in the order entered. *)
Definition march : entry := mkEntry (PStr "Wheat sale") 100 (PStr "income") (mkDate 2024 3 1).
Definition january : entry := mkEntry (PStr "Seeds") 40 (PStr "expense") (mkDate 2024 1 5).
Definition last_year : entry := mkEntry (PStr "Plough") 900 (PStr "expense") (mkDate 2023 12 31).

Definition entries_disk : disk :=
  mkDisk Missing
         (Stored (PList (map (stored_entry offline_world) [january; march; last_year])))
         Missing Missing Missing true false.

(** ** Soil *)


Definition soil_saved (report : pyval) : pyval :=
  PDict [("status", PStr "success"); ("message", PStr "Soil report saved");
         ("data", report)].

Definition no_soil_data : pyval := PDict [("error", PStr "No soil data")].

(** The disk with its soil file replaced. *)
Definition with_soil_file (f : file) (d : disk) : disk :=
  mkDisk (crops_json d) (expenses_json d) f (weather_json d) (prices_json d)
         (writable d) (torn d).

(** The report [get_soil_report] picks in a soil map. *)
Definition pick_report (soil : dict) (field : string) : pyval :=
  match dict_get field soil with
  | Some r => r
  | None =>
      match dict_get "default" soil with
      | Some r => r
      | None => no_soil_data
      end
  end.

(** A soil map with a default report and the report of one field. *)
Definition default_report : pyval := PDict [("ph", PFloat 7); ("soil_type", PStr "Loam")].
Definition north_report : pyval := PDict [("ph", PFloat 6.5); ("soil_type", PStr "Clay")].

Definition soil_disk : disk :=
  mkDisk Missing Missing
         (Stored (PDict [("default", default_report); ("north", north_report)]))
         Missing Missing true false.

Definition read_only_disk : disk :=
  mkDisk Missing Missing Missing Missing Missing false false.

(** ** Outcomes of the lookups *)

(** [rec] is one of the documents the weather cache file lists. *)
Definition cached_weather (d : disk) (rec : dict) : Prop :=
  exists cache rs,
    weather_json d = Stored cache /\ py_iter cache = Ret rs /\ In (PDict rec) rs.

Definition live_weather_keys : list string := ["city"; "temp"; "humidity"; "weather"].

Definition price_keys : list string :=
  ["crop"; "state"; "district"; "market"; "modal_price"; "min_price";
   "max_price"; "arrival_date"; "variety"].

(** A world with a weather credential whose network always fails. *)
Definition keyed_world : world :=
  mkWorld plain_interp (Some "key") None
          (fun _ => raise RequestException "Connection refused")
          (fun _ _ => raise RequestException "Connection refused")
          738946 (fun _ => 0%float).

(** ** The local price cache, record by record *)











(** ** The model client *)

(** What [ask_llm] reads from a reply of the model service:
    [r["choices"][0]["message"]["content"]]. *)
Definition model_content (r : pyval) : result pyval :=
  choices <- py_item r "choices" ;;
  choice <- py_first choices ;;
  message <- py_item choice "message" ;;
  py_item message "content".

(** ** Sample data for the routes *)

Definition wheat_and_rice : list pyval :=
  [crop_record "Wheat" "North"; crop_record "Rice" "South"].

(** The weather cache of [weather_disk] beside crops, a ledger and soil
    reports. *)
Definition full_disk : disk :=
  mkDisk (Stored (PList wheat_and_rice)) (Stored (PList same_day_ledger))
         (Stored (PDict [("default", default_report); ("north", north_report)]))
         (weather_json weather_disk) Missing true false.

(* ================================================================== *)
(** * Properties *)
(* ================================================================== *)

(** ** Loading the stored collections *)

Section Loading.

Lemma load_crops_is_list (d : disk) : exists l, load_crops d = Ret (PList l).
Proof.
  unfold load_crops.
  destruct (crops_json d) as [ | | v]; cbn; eauto.
  destruct v; cbn; eauto.
Qed.

Lemma load_expenses_is_list (d : disk) : exists l, load_expenses d = Ret (PList l).
Proof.
  unfold load_expenses.
  destruct (expenses_json d) as [ | | v]; cbn; eauto.
  destruct v; cbn; eauto.
Qed.


Lemma load_expenses_fails_soft (d : disk) :
  not_a_list (expenses_json d) -> load_expenses d = Ret (PList []).
Proof.
  unfold load_expenses, not_a_list.
  destruct (expenses_json d) as [ | | v]; cbn; trivial.
  destruct v; cbn; tauto.
Qed.

Lemma load_crops_stored (d : disk) (l : list pyval) :
  crops_json d = Stored (PList l) -> load_crops d = Ret (PList l).
Proof. unfold load_crops. intros ->. reflexivity. Qed.

Lemma load_expenses_stored (d : disk) (l : list pyval) :
  expenses_json d = Stored (PList l) -> load_expenses d = Ret (PList l).
Proof. unfold load_expenses. intros ->. reflexivity. Qed.

(** [load_soil_data] never raises, and gives the empty map for a missing or
    unreadable file; a readable file is returned whatever its shape. *)
Lemma load_soil_data_returns (d : disk) :
  load_soil_data d =
  Ret (match soil_json d with
       | Stored v => v
       | Missing | Unreadable => PDict []
       end).
Proof.
  unfold load_soil_data.
  destruct (soil_json d); reflexivity.
Qed.

(** C1 (the soil map): the lists of crops and expenses fall back to the empty
    list on any document that is not a list (lemmas above), but
    [load_soil_data] has no such check: on a [soil.json] holding the list
    [["default"]] it returns that list instead of the empty map, and
    [get_soil_report] then raises [TypeError] on it. *)
Theorem load_soil_data_keeps_non_map :
  load_soil_data soil_list_disk = Ret (PList [PStr "default"])
  /\ load_soil_data soil_list_disk <> Ret (PDict [])
  /\ get_soil_report soil_list_disk "default"
     = Raise (mkExn TypeError "list indices must be integers or slices, not str").
Proof.
  repeat split.
  intro H. discriminate H.
Qed.

End Loading.

(** ** Crops *)

Section Crops.

(** C3: for every stored crop list and every index outside [0, len), 
    [delete_crop] returns the record [{"error": "Invalid crop index"}] and
    leaves the disk as it was, so that a later load gives the same list. *)
Theorem delete_crop_out_of_range (d : disk) (crops : list pyval) (index : Z) :
  load_crops d = Ret (PList crops) ->
  index < 0 \/ index >= Z.of_nat (List.length crops) ->
  exists r,
    delete_crop index d = (Ret (PDict r), d)
    /\ dict_has "error" r = true
    /\ load_crops (snd (delete_crop index d)) = Ret (PList crops).
Proof.
  intros Hload Hout.
  assert (Hrun : delete_crop index d
                 = (Ret (PDict [("error", PStr "Invalid crop index")]), d)).
  { unfold delete_crop, io_bind, reading, pure.
    rewrite Hload. cbn [py_len].
    replace ((index <? 0) || (index >=? Z.of_nat (List.length crops))) with true.
    - reflexivity.
    - symmetry. apply orb_true_iff.
      destruct Hout as [Hneg | Hbig].
      + left. now apply Z.ltb_lt.
      + right. apply Z.geb_le. lia. }
  exists [("error", PStr "Invalid crop index")].
  rewrite Hrun. cbn [snd]. auto.
Qed.

Lemma delete_crop_out_of_range_witness :
  exists r,
    delete_crop 2 two_crops_disk = (Ret (PDict r), two_crops_disk)
    /\ dict_has "error" r = true
    /\ load_crops (snd (delete_crop 2 two_crops_disk))
       = Ret (PList [crop_record "Wheat" "North"; crop_record "Rice" "South"]).
Proof.
  apply (delete_crop_out_of_range two_crops_disk
           [crop_record "Wheat" "North"; crop_record "Rice" "South"] 2).
  - reflexivity.
  - right. simpl. lia.
Defined.

(** Inside the range the crop at the index is removed and the rest saved. *)
Example delete_crop_in_range :
  delete_crop 0 two_crops_disk
  = (Ret (PDict [("status", PStr "success"); ("message", PStr "Crop deleted");
                 ("data", crop_record "Wheat" "North")]),
     mkDisk (Stored (PList [crop_record "Rice" "South"]))
            Missing Missing Missing Missing true false).
Proof. reflexivity. Qed.

End Crops.

(** ** Expense totals *)

Section Totals.

Variable w : world.

Lemma feed_some (fs : list float) (a : float) :
  feed (Some a) fs = Some (fold_left PrimFloat.add fs a).
Proof.
  revert a. induction fs as [ | f fs IH]; intro a; cbn; [reflexivity | ].
  apply IH.
Qed.

Lemma running_feed (fs : list float) : running (feed None fs) = py_sum fs.
Proof.
  destruct fs as [ | f fs]; cbn; [reflexivity | ].
  fold (feed (Some (0 + f)%float) fs). now rewrite feed_some.
Qed.

Lemma feed_app (o : option float) (fs gs : list float) :
  feed o (fs ++ gs) = feed (feed o fs) gs.
Proof. unfold feed. apply fold_left_app. Qed.

Lemma py_add_float_running (o : option float) (f : float) :
  py_add_float (running o) f = Ret (running (feed o [f])).
Proof. destruct o; reflexivity. Qed.

Lemma py_sub_sums (incomes expenses : list float) :
  py_sub (py_sum incomes) (py_sum expenses) = Ret (profit_of incomes expenses).
Proof. destruct incomes, expenses; reflexivity. Qed.

Lemma amounts_cons (keep : pyval -> bool) (e : pyval) (es : list pyval) (f : float) :
  amount_of (rt w) e = Some f ->
  amounts (rt w) keep (e :: es)
  = (if keep e then [f] else []) ++ amounts (rt w) keep es.
Proof. intro H. unfold amounts. cbn. now rewrite H. Qed.

Lemma amounts_app (keep : pyval -> bool) (es fs : list pyval) :
  amounts (rt w) keep (es ++ fs) = amounts (rt w) keep es ++ amounts (rt w) keep fs.
Proof. unfold amounts. apply flat_map_app. Qed.

(** The loop of [get_summary] feeds each amount to one of the two totals. *)
Lemma totals_feed (es : list pyval) :
  summable (rt w) es ->
  forall oi oe,
    totals w es (running oi) (running oe)
    = Ret (running (feed oi (amounts (rt w) is_income es)),
           running (feed oe (amounts (rt w) is_other es))).
Proof.
  induction 1 as [ | e es He _ IH]; intros oi oe; [reflexivity | ].
  destruct (amount_of (rt w) e) as [f | ] eqn:Hf; [clear He | congruence].
  rewrite !(amounts_cons _ _ es _ Hf), !feed_app.
  destruct e as [ | | | | | | rec]; try discriminate Hf.
  unfold amount_of in Hf.
  cbn [totals py_get bind]. unfold is_other. cbn [is_income].
  set (t := match dict_get "type" rec with Some x => x | None => PNone end).
  assert (Ht : is_str "income" t
               = match dict_get "type" rec with
                 | Some (PStr s) => String.eqb s "income"
                 | _ => false
                 end).
  { subst t. destruct (dict_get "type" rec) as [[ | | | | s | | ] | ]; reflexivity. }
  rewrite <- Ht.
  destruct (py_float (rt w) _) as [a | ] eqn:Ha; [ | discriminate Hf].
  injection Hf as ->.
  destruct (is_str "income" t); cbn [bind negb];
    rewrite py_add_float_running; cbn [bind]; apply IH.
Qed.

(** [get_summary] on a summable ledger: the two totals are the sums of the
    income amounts and of all other amounts, and the profit is their
    difference. *)
Lemma get_summary_sums (d : disk) (es : list pyval) :
  load_expenses d = Ret (PList es) ->
  summable (rt w) es ->
  get_summary w d
  = Ret (summary (py_sum (amounts (rt w) is_income es))
                 (py_sum (amounts (rt w) is_other es))
                 (profit_of (amounts (rt w) is_income es)
                            (amounts (rt w) is_other es))).
Proof.
  intros Hload Hsum. unfold get_summary.
  rewrite Hload. cbn [bind py_iter].
  change (PInt 0) with (running None).
  rewrite (totals_feed es Hsum). cbn [bind].
  rewrite !running_feed, py_sub_sums. reflexivity.
Qed.

End Totals.

(** ** The ledger after a sequence of additions *)

Section Additions.

Variable w : world.

Lemma amount_of_recorded (a : addition) (f : float) :
  py_float (rt w) (a_amount a) = Ret f ->
  amount_of (rt w) (recorded w a) = Some f.
Proof. intro H. unfold recorded. rewrite H. reflexivity. Qed.

(** One valid addition on a writable disk appends its record to the stored
    list and reports success. *)
Lemma add_expense_appends (d : disk) (es : list pyval) (a : addition) :
  writable d = true ->
  load_expenses d = Ret (PList es) ->
  valid_addition (rt w) a ->
  exists d',
    add_expense w (a_title a) (a_amount a) (a_type a) (a_date a) d
    = (Ret (PDict [("status", PStr "success"); ("message", PStr "Expense added");
                   ("data", recorded w a)]), d')
    /\ load_expenses d' = Ret (PList (es ++ [recorded w a]))
    /\ writable d' = true.
Proof.
  intros Hw Hload [f Hf].
  unfold add_expense, recorded, io_bind, reading, pure, save_expenses.
  rewrite Hload, Hf.
  destruct (stamp w (a_date a)) as [ts shown]. cbn [py_append fst snd].
  rewrite Hw.
  eexists. split; [reflexivity | ]. split; reflexivity.
Qed.

Lemma summable_snoc (es : list pyval) (a : addition) :
  summable (rt w) es -> valid_addition (rt w) a ->
  summable (rt w) (es ++ [recorded w a]).
Proof.
  intros Hs [f Hf]. apply Forall_app. split; [exact Hs | ].
  constructor; [ | constructor].
  rewrite (amount_of_recorded _ _ Hf). discriminate.
Qed.

Lemma add_all_appends (adds : list addition) :
  Forall (valid_addition (rt w)) adds ->
  forall (d : disk) (es : list pyval),
    writable d = true ->
    load_expenses d = Ret (PList es) ->
    Forall2 (fun a out => added (recorded w a) out) adds (fst (add_all w adds d))
    /\ load_expenses (snd (add_all w adds d))
       = Ret (PList (es ++ map (recorded w) adds)).
Proof.
  induction 1 as [ | a adds Ha _ IH]; intros d es Hw Hload; cbn [add_all map].
  - cbn. rewrite app_nil_r. auto.
  - destruct (add_expense_appends d es a Hw Hload Ha) as (d' & Hrun & Hload' & Hw').
    rewrite Hrun.
    destruct (IH d' _ Hw' Hload') as [Houts Hfinal].
    destruct (add_all w adds d') as [outs d'']. cbn [fst snd] in *.
    split.
    + constructor; [reflexivity | exact Houts].
    + rewrite Hfinal, <- app_assoc. reflexivity.
Qed.

Lemma summable_after (es : list pyval) (adds : list addition) :
  summable (rt w) es -> Forall (valid_addition (rt w)) adds ->
  summable (rt w) (es ++ map (recorded w) adds).
Proof.
  intros Hs Hadds. revert es Hs.
  induction Hadds as [ | a adds Ha _ IH]; intros es Hs; cbn.
  - now rewrite app_nil_r.
  - change (recorded w a :: map (recorded w) adds)
      with ([recorded w a] ++ map (recorded w) adds).
    rewrite app_assoc. apply IH. now apply summable_snoc.
Qed.

(** C4: after every sequence of valid additions to a writable, summable
    ledger, each call has reported success, the stored list is the former
    list followed by the new records, and [get_summary] returns the totals
    recomputed over that whole list: [total_income] is the sum of the
    amounts of the records of type [income], [total_expense] the sum of all
    the other amounts, and [profit] is the float [total_income -
    total_expense] (the integer 0 when the ledger holds no record). *)
Theorem summary_after_additions (d0 : disk) (es0 : list pyval) (adds : list addition) :
  writable d0 = true ->
  load_expenses d0 = Ret (PList es0) ->
  summable (rt w) es0 ->
  Forall (valid_addition (rt w)) adds ->
  let es := es0 ++ map (recorded w) adds in
  let incomes := amounts (rt w) is_income es in
  let expenses := amounts (rt w) is_other es in
  Forall2 (fun a out => added (recorded w a) out) adds (fst (add_all w adds d0))
  /\ load_expenses (snd (add_all w adds d0)) = Ret (PList es)
  /\ get_summary w (snd (add_all w adds d0))
     = Ret (summary (py_sum incomes) (py_sum expenses)
                    (match incomes, expenses with
                     | [], [] => PInt 0
                     | _, _ => PFloat (float_total incomes - float_total expenses)
                     end)).
Proof.
  intros Hw Hload Hs Hadds es incomes expenses.
  destruct (add_all_appends adds Hadds d0 es0 Hw Hload) as [Houts Hfinal].
  split; [exact Houts | ]. split; [exact Hfinal | ].
  apply get_summary_sums; [exact Hfinal | ].
  now apply summable_after.
Qed.

(** C10: a stored record whose [type] is anything but the text [income]
    (another text, another value, or no [type] at all) adds its amount to
    [total_expense], at its place in the stored order, and nothing to
    [total_income]. *)
Theorem non_income_counts_as_expense
    (d : disk) (before after : list pyval) (rec : dict) (a : float) :
  load_expenses d = Ret (PList (before ++ PDict rec :: after)) ->
  summable (rt w) (before ++ after) ->
  amount_of (rt w) (PDict rec) = Some a ->
  dict_get "type" rec <> Some (PStr "income") ->
  exists profit,
    get_summary w d
    = Ret (summary
             (py_sum (amounts (rt w) is_income (before ++ after)))
             (py_sum (amounts (rt w) is_other before
                        ++ a :: amounts (rt w) is_other after))
             profit).
Proof.
  intros Hload Hs Ha Htype.
  assert (Hinc : is_income (PDict rec) = false).
  { cbn. destruct (dict_get "type" rec) as [[ | | | | s | | ] | ]; try reflexivity.
    destruct (String.eqb_spec s "income") as [-> | ]; congruence. }
  assert (Hall : summable (rt w) (before ++ PDict rec :: after)).
  { apply Forall_app in Hs as [Hb Haf]. apply Forall_app. split; [exact Hb | ].
    constructor; [congruence | exact Haf]. }
  rewrite (get_summary_sums w d _ Hload Hall).
  eexists. unfold summary. do 3 f_equal.
  - do 2 f_equal. rewrite !amounts_app, !(amounts_cons w _ _ after _ Ha).
    now rewrite Hinc.
  - do 3 f_equal. rewrite !amounts_app, !(amounts_cons w _ _ after _ Ha).
    unfold is_other at 2. now rewrite Hinc.
Qed.

End Additions.

Lemma summary_after_additions_witness :
  let w := offline_world in
  let es := [] ++ map (recorded w) [sale; seeds] in
  let incomes := amounts (rt w) is_income es in
  let expenses := amounts (rt w) is_other es in
  Forall2 (fun a out => added (recorded w a) out) [sale; seeds]
          (fst (add_all w [sale; seeds] empty_disk))
  /\ load_expenses (snd (add_all w [sale; seeds] empty_disk)) = Ret (PList es)
  /\ get_summary w (snd (add_all w [sale; seeds] empty_disk))
     = Ret (summary (py_sum incomes) (py_sum expenses)
                    (match incomes, expenses with
                     | [], [] => PInt 0
                     | _, _ => PFloat (float_total incomes - float_total expenses)
                     end)).
Proof.
  apply (summary_after_additions offline_world empty_disk [] [sale; seeds]).
  - reflexivity.
  - reflexivity.
  - constructor.
  - repeat constructor; eexists; reflexivity.
Defined.

(** The totals of the sample run: 100 earned, 40 spent, 60 of profit. *)
Example summary_of_sample_run :
  get_summary offline_world (snd (add_all offline_world [sale; seeds] empty_disk))
  = Ret (summary (PFloat 100) (PFloat 40) (PFloat 60)).
Proof. vm_compute. reflexivity. Qed.

Lemma non_income_counts_as_expense_witness :
  exists profit,
    get_summary offline_world misspelt_disk
    = Ret (summary
             (py_sum (amounts plain_interp is_income
                        ([PDict [("title", PStr "Wheat sale"); ("amount", PFloat 100);
                                 ("type", PStr "income")]]
                           ++ [PDict [("title", PStr "Untyped"); ("amount", PFloat 2)]])))
             (py_sum (amounts plain_interp is_other
                        [PDict [("title", PStr "Wheat sale"); ("amount", PFloat 100);
                                ("type", PStr "income")]]
                        ++ 40%float
                           :: amounts plain_interp is_other
                                [PDict [("title", PStr "Untyped"); ("amount", PFloat 2)]]))
             profit).
Proof.
  apply (non_income_counts_as_expense offline_world misspelt_disk
           [PDict [("title", PStr "Wheat sale"); ("amount", PFloat 100);
                   ("type", PStr "income")]]
           [PDict [("title", PStr "Untyped"); ("amount", PFloat 2)]]
           [("title", PStr "Bonus"); ("amount", PFloat 40); ("type", PStr "Income")]
           40%float).
  - reflexivity.
  - repeat constructor; discriminate.
  - reflexivity.
  - discriminate.
Defined.

(** On that ledger the capitalised [Income] and the untyped record are both
    spent money: 100 earned, 42 spent. *)
Example summary_of_misspelt_ledger :
  get_summary offline_world misspelt_disk
  = Ret (summary (PFloat 100) (PFloat 42) (PFloat 58)).
Proof. vm_compute. reflexivity. Qed.

(** ** The expense listing *)

Section Listing.

Variable w : world.

(** C5: on an empty expense store, adding expenses dated 2024-01-01,
    2024-03-01 and 2024-02-01 in that order and listing them gives the March
    record, then the February record, then the January record. *)
Theorem listing_is_newest_first
    (d0 : disk) (t1 t2 t3 a1 a2 a3 ty1 ty2 ty3 : pyval) (f1 f2 f3 : float) :
  writable d0 = true ->
  load_expenses d0 = Ret (PList []) ->
  py_float (rt w) a1 = Ret f1 ->
  py_float (rt w) a2 = Ret f2 ->
  py_float (rt w) a3 = Ret f3 ->
  get_expenses w
    (snd (add_all w [mkAddition t1 a1 ty1 (PStr "2024-01-01");
                     mkAddition t2 a2 ty2 (PStr "2024-03-01");
                     mkAddition t3 a3 ty3 (PStr "2024-02-01")] d0))
  = Ret (PList [expense_record t2 f2 ty2 "01 Mar 2024" "2024-03-01";
                expense_record t3 f3 ty3 "01 Feb 2024" "2024-02-01";
                expense_record t1 f1 ty1 "01 Jan 2024" "2024-01-01"]).
Proof.
  intros Hw Hload H1 H2 H3.
  set (adds := [mkAddition t1 a1 ty1 (PStr "2024-01-01");
                mkAddition t2 a2 ty2 (PStr "2024-03-01");
                mkAddition t3 a3 ty3 (PStr "2024-02-01")]).
  assert (Hvalid : Forall (valid_addition (rt w)) adds).
  { repeat constructor; eexists; cbn; eassumption. }
  destruct (add_all_appends w adds Hvalid d0 [] Hw Hload) as [_ Hfinal].
  unfold get_expenses. rewrite Hfinal.
  subst adds. cbn [map app bind py_iter]. unfold recorded.
  cbn [a_amount a_title a_type a_date]. rewrite H1, H2, H3.
  vm_compute. reflexivity.
Qed.

(** *** The stable descending sort *)

Lemma insert_desc_perm (k : string) (x : pyval) (l : list (string * pyval)) :
  Permutation ((k, x) :: l) (insert_desc k x l).
Proof.
  induction l as [ | [k' y] l IH]; cbn; [reflexivity | ].
  destruct (str_ltb k k'); [ | reflexivity].
  rewrite perm_swap. now constructor.
Qed.

Lemma sort_desc_perm (l : list (string * pyval)) : Permutation l (sort_desc l).
Proof.
  induction l as [ | [k x] l IH]; cbn; [constructor | ].
  rewrite <- insert_desc_perm. now constructor.
Qed.

Lemma empty_is_least (s : string) : str_ltb s "" = false.
Proof. destruct s; reflexivity. Qed.

Lemma empty_below (s : string) : s <> "" -> str_ltb "" s = true.
Proof. destruct s; [congruence | reflexivity]. Qed.

(** The order on texts is a strict total order. *)
Lemma ascii_eqb_nat (x y : ascii) :
  Ascii.eqb x y = (nat_of_ascii x =? nat_of_ascii y)%nat.
Proof.
  destruct (Ascii.eqb_spec x y) as [-> | Hne].
  - now rewrite Nat.eqb_refl.
  - symmetry. apply Nat.eqb_neq. intro Heq. apply Hne.
    now rewrite <- (ascii_nat_embedding x), <- (ascii_nat_embedding y), Heq.
Qed.

Lemma str_ltb_asym (a b : string) : str_ltb a b = true -> not_below b a.
Proof.
  unfold not_below. revert b.
  induction a as [ | x a IH]; intros [ | y b]; cbn [str_ltb]; try congruence.
  rewrite !ascii_eqb_nat. intro H.
  apply orb_true_iff in H as [H | H].
  - apply Nat.ltb_lt in H.
    replace (nat_of_ascii y <? nat_of_ascii x)%nat with false
      by (symmetry; apply Nat.ltb_ge; lia).
    replace (nat_of_ascii y =? nat_of_ascii x)%nat with false
      by (symmetry; apply Nat.eqb_neq; lia).
    reflexivity.
  - apply andb_true_iff in H as [Hxy Hab]. apply Nat.eqb_eq in Hxy.
    rewrite Hxy, Nat.ltb_irrefl, (IH b Hab). apply andb_false_r.
Qed.

Lemma not_below_trans (a b c : string) :
  not_below a b -> not_below b c -> not_below a c.
Proof.
  unfold not_below. revert b c.
  induction a as [ | x a IH]; intros [ | y b] [ | z c]; cbn [str_ltb];
    try congruence.
  rewrite !ascii_eqb_nat. intros Hab Hbc.
  apply orb_false_iff in Hab as [Hxy Hab]. apply orb_false_iff in Hbc as [Hyz Hbc].
  apply Nat.ltb_ge in Hxy, Hyz.
  apply orb_false_iff. split; [apply Nat.ltb_ge; lia | ].
  destruct (Nat.eqb_spec (nat_of_ascii x) (nat_of_ascii z)) as [Hxz | ];
    [ | reflexivity].
  assert (Hy : nat_of_ascii y = nat_of_ascii x) by lia.
  rewrite Hy, Nat.eqb_refl in Hab. rewrite Hy, Hxz, Nat.eqb_refl in Hbc.
  cbn in *. exact (IH b c Hab Hbc).
Qed.

Lemma insert_desc_sorted (k : string) (x : pyval) (l : list (string * pyval)) :
  StronglySorted may_precede l -> StronglySorted may_precede (insert_desc k x l).
Proof.
  induction 1 as [ | [k' y] l Hl IH Hhead]; cbn [insert_desc].
  - repeat constructor.
  - destruct (str_ltb k k') eqn:Hlt.
    + constructor; [exact IH | ].
      apply (Permutation_Forall (insert_desc_perm k x l)).
      constructor; [exact (str_ltb_asym k k' Hlt) | exact Hhead].
    + constructor; [now constructor | ].
      constructor; [exact Hlt | ].
      eapply Forall_impl; [ | exact Hhead].
      intros [k'' z] Hz. exact (not_below_trans k k' k'' Hlt Hz).
Qed.

Lemma sort_desc_sorted (l : list (string * pyval)) :
  StronglySorted may_precede (sort_desc l).
Proof.
  induction l as [ | [k x] l IH]; cbn; [constructor | ].
  now apply insert_desc_sorted.
Qed.

Lemma insert_desc_split (k : string) (x : pyval) (l : list (string * pyval)) :
  keys_split l -> keys_split (insert_desc k x l).
Proof.
  intros (front & back & -> & Hfront & Hback).
  induction Hfront as [ | [k' y] front Hk' Hfront IH]; cbn [app].
  - (* only empty keys: [k] goes to the head *)
    assert (Hhead : insert_desc k x back = (k, x) :: back).
    { destruct Hback as [ | [k' y] back Hk' _]; [reflexivity | ].
      cbn in *. subst k'. now rewrite empty_is_least. }
    rewrite Hhead.
    destruct (string_dec k "") as [-> | Hk].
    + exists [], ((EmptyString, x) :: back). repeat split; auto.
    + exists [(k, x)], back. repeat split; auto.
  - cbn [insert_desc]. cbn [fst] in Hk'.
    destruct (str_ltb k k') eqn:Hlt.
    + destruct IH as (front' & back' & Heq & Hf' & Hb').
      exists ((k', y) :: front'), back'. rewrite Heq. repeat split; auto.
    + exists ((k, x) :: (k', y) :: front), back. repeat split; auto.
      constructor; [ | constructor; assumption].
      cbn. intros ->. rewrite (empty_below k' Hk') in Hlt. discriminate.
Qed.

Lemma sort_desc_split (l : list (string * pyval)) : keys_split (sort_desc l).
Proof.
  induction l as [ | [k x] l IH]; cbn.
  - exists [], []. repeat split; constructor.
  - now apply insert_desc_split.
Qed.

(** *** [get_expenses] on records with text keys *)

Lemma sort_key_text (e : pyval) :
  text_keyed w e -> sort_key w e = Ret (PStr (key_of w e)).
Proof. intros [s Hs]. unfold key_of. now rewrite Hs. Qed.

Lemma keys_of_text_keyed (es : list pyval) :
  Forall (text_keyed w) es ->
  map_result (sort_key w) es = Ret (map (fun e => PStr (key_of w e)) es).
Proof.
  induction 1 as [ | e es He _ IH]; cbn; [reflexivity | ].
  now rewrite (sort_key_text e He), IH.
Qed.

Lemma text_keys_of_texts (es : list pyval) :
  text_keys (map (fun e => PStr (key_of w e)) es) = Some (map (key_of w) es).
Proof. induction es as [ | e es IH]; cbn; [reflexivity | now rewrite IH]. Qed.

Lemma combine_keys (es : list pyval) :
  combine (map (key_of w) es) es = map (with_key w) es.
Proof. induction es as [ | e es IH]; cbn; [reflexivity | now rewrite IH]. Qed.

Lemma sorted_reverse_text_keyed (es : list pyval) :
  Forall (text_keyed w) es ->
  sorted_reverse (rt w) (sort_key w) es
  = Ret (map snd (sort_desc (map (with_key w) es))).
Proof.
  intro Hes. unfold sorted_reverse.
  rewrite (keys_of_text_keyed es Hes). cbn [bind].
  destruct es as [ | e1 [ | e2 es]]; [reflexivity | reflexivity | ].
  now rewrite text_keys_of_texts, combine_keys.
Qed.

Lemma listing_sorted (l : list (string * pyval)) :
  StronglySorted may_precede l ->
  Forall (fun kx => fst kx = key_of w (snd kx)) l ->
  StronglySorted (newer_first w) (map snd l).
Proof.
  induction 1 as [ | [k x] l Hl IH Hhead]; intro Hkeys; cbn [map].
  - constructor.
  - apply Forall_cons_iff in Hkeys as [Hk Hkeys]. cbn [fst snd] in Hk.
    constructor; [exact (IH Hkeys) | ].
    apply Forall_map. rewrite Forall_forall in *.
    intros [k' y] Hin. specialize (Hhead _ Hin). specialize (Hkeys _ Hin).
    unfold may_precede, newer_first in *. cbn [fst snd] in *. congruence.
Qed.

(** Every record [add_expense] writes has a text key. *)
Lemma recorded_text_keyed (a : addition) :
  valid_addition (rt w) a -> text_keyed w (recorded w a).
Proof.
  intros [f Hf]. unfold recorded, text_keyed. rewrite Hf.
  unfold sort_key. cbn [py_get dict_get String.eqb Ascii.eqb Bool.eqb bind].
  destruct (truthy (fst (stamp w (a_date a)))) eqn:Hts.
  - unfold stamp in *.
    destruct (py_strptime (rt w) (a_date a) ISO); [cbn; eauto | ].
    destruct (py_strptime (rt w) (a_date a) DMonY); [cbn; eauto | discriminate Hts].
  - destruct (py_strptime _ _ DMonY); [eauto | ].
    destruct (py_strptime _ _ ISO); eauto.
Qed.

Lemma undated_key (e : pyval) : undated w e -> sort_key w e = Ret (PStr "").
Proof.
  intros (rec & -> & Hts & Hdate). unfold sort_key. cbn [py_get bind].
  rewrite Hts.
  destruct (py_strptime _ _ DMonY) as [dt | ] eqn:H1; [now apply Hdate in H1 | ].
  destruct (py_strptime _ _ ISO) as [dt | ] eqn:H2; [now apply Hdate in H2 | ].
  reflexivity.
Qed.

(** Whatever the year prints as, the ISO text of a day is not empty. *)
Lemma strftime_iso_not_empty (dt : date) : strftime_iso (rt w) dt <> "".
Proof.
  unfold strftime_iso. destruct (year_repr (rt w) (year dt)); discriminate.
Qed.

(** A record whose date parses has a key that is not the empty text. *)
Lemma dated_key (e : pyval) (k : string) :
  dated w e -> sort_key w e = Ret (PStr k) -> k <> "".
Proof.
  intros (rec & fmt & dt & -> & Hparse). unfold sort_key. cbn [py_get bind].
  destruct (truthy _) eqn:Hts.
  - intros [= Hk]. rewrite Hk in Hts. cbn in Hts.
    intros ->. discriminate Hts.
  - destruct (py_strptime _ _ DMonY) as [d1 | ] eqn:H1.
    + intros [= <-]. apply strftime_iso_not_empty.
    + destruct (py_strptime _ _ ISO) as [d2 | ] eqn:H2.
      * intros [= <-]. apply strftime_iso_not_empty.
      * destruct fmt; congruence.
Qed.

(** When the keys of a list are computed and are all texts, every element
    has a text key. *)
Lemma text_keys_text_keyed (es : list pyval) :
  forall ks ss,
    map_result (sort_key w) es = Ret ks ->
    text_keys ks = Some ss ->
    Forall (text_keyed w) es.
Proof.
  induction es as [ | e es IH]; intros ks ss; cbn [map_result]; [constructor | ].
  destruct (sort_key w e) as [k | ] eqn:He; cbn [bind]; [ | discriminate].
  destruct (map_result (sort_key w) es) as [ks' | ] eqn:Hes; cbn [bind];
    [ | discriminate].
  intros [= <-]. cbn [text_keys].
  destruct k as [ | | | | s | | ]; try discriminate.
  destruct (text_keys ks') as [ss' | ] eqn:Hks; [ | discriminate].
  intros _. constructor; [now exists s | exact (IH ks' ss' eq_refl Hks)].
Qed.

Lemma keys_hold_a_text (es : list pyval) (u : pyval) (k : string) :
  forall ks,
    map_result (sort_key w) es = Ret ks ->
    In u es -> sort_key w u = Ret (PStr k) ->
    existsb is_text ks = true.
Proof.
  induction es as [ | e es IH]; intros ks; cbn [map_result]; [intros _ [] | ].
  destruct (sort_key w e) as [k' | ] eqn:He; cbn [bind]; [ | discriminate].
  destruct (map_result (sort_key w) es) as [ks' | ] eqn:Hes; cbn [bind];
    [ | discriminate].
  intros [= <-] [<- | Hin] Hu; cbn [existsb].
  - rewrite Hu in He. injection He as <-. reflexivity.
  - rewrite (IH ks' eq_refl Hin Hu). apply orb_true_r.
Qed.

(** A listing that holds a record with a text key has been ordered by text
    keys: with any other key beside it, [sorted] raises. *)
Lemma listing_with_a_text_key (es out : list pyval) (u : pyval) (k : string) :
  sorted_reverse (rt w) (sort_key w) es = Ret out ->
  In u es -> sort_key w u = Ret (PStr k) ->
  Forall (text_keyed w) es.
Proof.
  intros Hrun Hin Hu. unfold sorted_reverse in Hrun.
  destruct (map_result (sort_key w) es) as [ks | ] eqn:Hks; cbn [bind] in Hrun;
    [ | discriminate].
  destruct es as [ | e1 [ | e2 es]].
  - destruct Hin.
  - destruct Hin as [<- | []]. constructor; [now exists k | constructor].
  - destruct (text_keys ks) as [ss | ] eqn:Hss.
    + exact (text_keys_text_keyed _ ks ss Hks Hss).
    + now rewrite (keys_hold_a_text _ u k ks Hks Hin Hu) in Hrun.
Qed.

Lemma undated_not_dated (e : pyval) : undated w e -> dated w e -> False.
Proof.
  intros (rec & -> & _ & Hnone) (rec' & fmt & dt & [= <-] & Hparse).
  exact (Hnone fmt dt Hparse).
Qed.

(** The listing of a ledger with text keys. *)
Lemma get_expenses_text_keyed (d : disk) (es : list pyval) :
  load_expenses d = Ret (PList es) ->
  Forall (text_keyed w) es ->
  exists out,
    get_expenses w d = Ret (PList out)
    /\ Permutation es out
    /\ StronglySorted (newer_first w) out
    /\ empty_keys_last w out.
Proof.
  intros Hload Hes.
  exists (map snd (sort_desc (map (with_key w) es))).
  assert (Hkeys : Forall (fun kx => fst kx = key_of w (snd kx))
                         (sort_desc (map (with_key w) es))).
  { apply (Permutation_Forall (sort_desc_perm (map (with_key w) es))).
    apply Forall_map. apply Forall_forall. reflexivity. }
  split; [ | split; [ | split]].
  - unfold get_expenses. rewrite Hload. cbn [bind py_iter].
    now rewrite (sorted_reverse_text_keyed es Hes).
  - rewrite <- sort_desc_perm, map_map. cbn. now rewrite map_id.
  - apply listing_sorted; [apply sort_desc_sorted | exact Hkeys].
  - destruct (sort_desc_split (map (with_key w) es))
      as (front & back & Heq & Hfront & Hback).
    rewrite Heq in Hkeys.
    apply Forall_app in Hkeys as [Kfront Kback].
    exists (map snd front), (map snd back).
    rewrite Heq, map_app. repeat split.
    + apply Forall_map. rewrite Forall_forall in *.
      intros kx Hin. rewrite <- (Kfront kx Hin). now apply Hfront.
    + apply Forall_map. rewrite Forall_forall in *.
      intros kx Hin. rewrite <- (Kback kx Hin). now apply Hback.
Qed.

(** C6, as the code has it: a record with no [ts] whose date parses under
    neither format gets the empty sort key. A ledger that holds such a
    record is listed exactly when all its sort keys are texts ([sorted]
    cannot order the empty text against a key of another type); and in the
    listing the record stands after every record whose date parses: the
    listing holds every stored record once, in descending key order, a
    parsed date gives a key that is not empty, and the empty text is the
    least key. *)
Theorem unparsable_dates_sort_last (d : disk) (es : list pyval) (u : pyval) :
  load_expenses d = Ret (PList es) ->
  In u es ->
  undated w u ->
  sort_key w u = Ret (PStr "")
  /\ ((exists out, get_expenses w d = Ret (PList out)) <-> Forall (text_keyed w) es)
  /\ (forall out,
        get_expenses w d = Ret (PList out) ->
        Permutation es out
        /\ StronglySorted (newer_first w) out
        /\ (forall e i j,
              dated w e ->
              nth_error out i = Some e ->
              nth_error out j = Some u ->
              (i < j)%nat)).
Proof.
  intros Hload Hin Hu.
  pose proof (undated_key u Hu) as Hkey.
  assert (Htexts : forall out,
             get_expenses w d = Ret (PList out) -> Forall (text_keyed w) es).
  { intros out Hrun.
    unfold get_expenses in Hrun. rewrite Hload in Hrun. cbn [bind py_iter] in Hrun.
    destruct (sorted_reverse (rt w) (sort_key w) es) as [out' | ] eqn:Hsort;
      [ | discriminate].
    exact (listing_with_a_text_key es out' u "" Hsort Hin Hkey). }
  split; [exact Hkey | ]. split.
  - split.
    + intros [out Hrun]. exact (Htexts out Hrun).
    + intro Hes. destruct (get_expenses_text_keyed d es Hload Hes) as (out & Hrun & _).
      now exists out.
  - intros out Hrun. pose proof (Htexts out Hrun) as Hes.
    destruct (get_expenses_text_keyed d es Hload Hes)
      as (out' & Hrun' & Hperm & Hsorted & front & back & Hsplit & Hfront & Hback).
    rewrite Hrun in Hrun'. injection Hrun' as <-.
    split; [exact Hperm | ]. split; [exact Hsorted | ].
    intros e i j He Hi Hj. rewrite Hsplit in Hi, Hj.
    assert (Htext : forall x, In x out -> text_keyed w x).
    { intros x Hx. rewrite Forall_forall in Hes. apply Hes.
      now apply (Permutation_in x (Permutation_sym Hperm)). }
    destruct (Nat.lt_ge_cases i (List.length front)) as [Hi' | Hi'].
    + destruct (Nat.lt_ge_cases j (List.length front)) as [Hj' | Hj']; [ | lia].
      exfalso. rewrite nth_error_app1 in Hj by exact Hj'.
      apply nth_error_In in Hj. rewrite Forall_forall in Hfront.
      apply (Hfront u Hj). unfold key_of. now rewrite Hkey.
    + exfalso. rewrite nth_error_app2 in Hi by exact Hi'.
      apply nth_error_In in Hi. rewrite Forall_forall in Hback.
      pose proof (Hback e Hi) as Hempty. cbn beta in Hempty.
      assert (Hine : In e out) by (rewrite Hsplit; apply in_or_app; now right).
      pose proof (sort_key_text e (Htext e Hine)) as Hk.
      rewrite Hempty in Hk. exact (dated_key e "" He Hk eq_refl).
Qed.

End Listing.

Lemma unparsable_dates_sort_last_witness :
  sort_key offline_world someday = Ret (PStr "")
  /\ ((exists out, get_expenses offline_world mixed_disk = Ret (PList out))
      <-> Forall (text_keyed offline_world) [someday; new_year])
  /\ (forall out,
        get_expenses offline_world mixed_disk = Ret (PList out) ->
        Permutation [someday; new_year] out
        /\ StronglySorted (newer_first offline_world) out
        /\ (forall e i j,
              dated offline_world e ->
              nth_error out i = Some e ->
              nth_error out j = Some someday ->
              (i < j)%nat)).
Proof.
  apply (unparsable_dates_sort_last offline_world mixed_disk [someday; new_year]
           someday).
  - reflexivity.
  - left. reflexivity.
  - exists [("title", PStr "Fence"); ("amount", PFloat 10); ("type", PStr "expense");
            ("date", PStr "someday"); ("ts", PNone)].
    repeat split. intros [ | ] dt; discriminate.
Defined.

(** C6, as the specification states it, fails: on a ledger holding a record dated
    [someday] and one dated 1 January 2024, the listing puts the dated
    record first and the record with the empty key last. *)
Lemma unparsable_date_is_not_first :
  undated offline_world someday
  /\ dated offline_world new_year
  /\ get_expenses offline_world mixed_disk = Ret (PList [new_year; someday])
  /\ ~ empty_keys_first offline_world [new_year; someday].
Proof.
  split; [ | split; [ | split]].
  - exists [("title", PStr "Fence"); ("amount", PFloat 10); ("type", PStr "expense");
            ("date", PStr "someday"); ("ts", PNone)].
    repeat split. intros [ | ] dt; discriminate.
  - exists [("title", PStr "Seeds"); ("amount", PFloat 40); ("type", PStr "expense");
            ("date", PStr "01 Jan 2024"); ("ts", PStr "2024-01-01")],
           DMonY, (mkDate 2024 1 1).
    split; reflexivity.
  - vm_compute. reflexivity.
  - intros (front & back & Heq & Hfront & Hback).
    destruct front as [ | e1 front].
    + cbn in Heq. subst back.
      inversion Hback as [ | ? ? _ Hrest]; subst.
      inversion Hrest as [ | ? ? Hlast _]; subst.
      apply Hlast. vm_compute. reflexivity.
    + injection Heq as <- _.
      inversion Hfront as [ | ? ? Hhead _]; subst.
      vm_compute in Hhead. discriminate Hhead.
Qed.

Lemma listing_is_newest_first_witness :
  get_expenses offline_world
    (snd (add_all offline_world
            [mkAddition (PStr "A") (PInt 1) (PStr "expense") (PStr "2024-01-01");
             mkAddition (PStr "B") (PInt 2) (PStr "income") (PStr "2024-03-01");
             mkAddition (PStr "C") (PInt 3) (PStr "expense") (PStr "2024-02-01")]
            empty_disk))
  = Ret (PList [expense_record (PStr "B") 2 (PStr "income") "01 Mar 2024" "2024-03-01";
                expense_record (PStr "C") 3 (PStr "expense") "01 Feb 2024" "2024-02-01";
                expense_record (PStr "A") 1 (PStr "expense") "01 Jan 2024" "2024-01-01"]).
Proof.
  apply (listing_is_newest_first offline_world empty_disk);
    reflexivity.
Defined.

(** ** Weather lookup without a credential *)

Section Weather.

Lemma first_where_some (test : pyval -> result bool) (l : list pyval) (r : pyval) :
  first_where test l = Ret (Some r) -> In r l /\ test r = Ret true.
Proof.
  induction l as [ | x l IH]; cbn; [discriminate | ].
  destruct (test x) as [[ | ] | ] eqn:Hx; cbn; [ | | discriminate].
  - intros [= <-]. auto.
  - intro H. destruct (IH H). auto.
Qed.

Lemma field_lower_dict (w : world) (key : string) (r : pyval) (s : string) :
  field_lower w key r = Ret s -> exists rec, r = PDict rec.
Proof. destruct r; try discriminate. eauto. Qed.

Lemma test_true_dict (w : world) (key : string) (f : string -> bool) (r : pyval) :
  (c <- field_lower w key r ;; Ret (f c)) = Ret true -> exists rec, r = PDict rec.
Proof.
  destruct (field_lower w key r) as [s | ] eqn:H; [ | discriminate].
  intros _. exact (field_lower_dict w key r s H).
Qed.

(** Whatever the cache file holds, a record the search returns is a
    dictionary. *)
Lemma _find_local_weather_dict (w : world) (d : disk) (city : string) (v : pyval) :
  _find_local_weather w d city = Some v -> exists rec, v = PDict rec.
Proof.
  unfold _find_local_weather.
  destruct (exists_ (weather_json d)); cbn [negb]; [ | discriminate].
  destruct (json_load (weather_json d)) as [data | ]; cbn [bind]; [ | discriminate].
  destruct (py_iter data) as [rs | ]; cbn [bind]; [ | discriminate].
  match goal with
  | |- context [bind (first_where ?t rs) _] =>
      destruct (first_where t rs) as [[r | ] | ] eqn:H1; cbn [bind];
        [ | | discriminate]
  end.
  { intros [= <-]. apply first_where_some in H1 as [_ H1].
    exact (test_true_dict _ _ _ _ H1). }
  match goal with
  | |- context [bind (first_where ?t rs) _] =>
      destruct (first_where t rs) as [[r | ] | ] eqn:H2; cbn [bind];
        [ | | discriminate]
  end.
  { intros [= <-]. apply first_where_some in H2 as [_ H2].
    destruct (String.eqb (str_lower (rt w) (str_strip (rt w) city)) "");
      [discriminate | ].
    exact (test_true_dict _ _ _ _ H2). }
  match goal with
  | |- context [first_where ?t rs] =>
      destruct (first_where t rs) as [[r | ] | ] eqn:H3; cbn;
        [ | discriminate | discriminate]
  end.
  intros [= <-]. apply first_where_some in H3 as [_ H3].
  exact (test_true_dict _ _ _ _ H3).
Qed.

Lemma field_lower_city (w : world) (r : dict) :
  city_is_text r -> field_lower w "city" (PDict r) = Ret (norm_city (rt w) r).
Proof.
  unfold city_is_text, field_lower, norm_city. cbn [py_get bind].
  destruct (dict_get "city" r) as [[ | | | | s | | ] | ]; try contradiction;
    reflexivity.
Qed.

Lemma field_lower_malformed (w : world) (v : pyval) :
  malformed v -> exists e, field_lower w "city" v = Raise e.
Proof.
  destruct v as [ | | | | | | r]; cbn; eauto.
  unfold city_is_text, field_lower. cbn [py_get bind].
  destruct (dict_get "city" r) as [[ | | | | s | | ] | ]; cbn; eauto;
    intro H; now destruct H.
Qed.

(** On well-formed records a search loop is [find] with the same test. *)
Lemma first_where_find (w : world) (f : string -> bool) (recs : list dict) :
  Forall city_is_text recs ->
  first_where (fun r => c <- field_lower w "city" r ;; Ret (f c)) (map PDict recs)
  = Ret (option_map PDict (find (fun r => f (norm_city (rt w) r)) recs)).
Proof.
  induction 1 as [ | r recs Hr _ IH]; cbn [first_where map find]; [reflexivity | ].
  rewrite (field_lower_city w r Hr). cbn [bind].
  destruct (f (norm_city (rt w) r)); [reflexivity | exact IH].
Qed.

(** A search loop that meets a malformed element before any hit raises. *)
Lemma first_where_gives_up
    (w : world) (f : string -> bool) (pre : list dict) (bad : pyval)
    (post : list pyval) :
  Forall city_is_text pre ->
  (forall r, In r pre -> f (norm_city (rt w) r) = false) ->
  malformed bad ->
  exists e,
    first_where (fun r => c <- field_lower w "city" r ;; Ret (f c))
                (map PDict pre ++ bad :: post)
    = Raise e.
Proof.
  intros Hpre Hmiss Hbad.
  induction Hpre as [ | r pre Hr _ IH]; cbn [map app first_where].
  - destruct (field_lower_malformed w bad Hbad) as [e ->]. cbn. eauto.
  - rewrite (field_lower_city w r Hr). cbn [bind].
    rewrite (Hmiss r (or_introl eq_refl)).
    apply IH. intros r' Hr'. apply Hmiss. now right.
Qed.

Lemma first_where_never (l : list pyval) :
  first_where (fun _ => Ret false) l = Ret None.
Proof. induction l; cbn; auto. Qed.

Lemma find_never {A : Type} (l : list A) : find (fun _ => false) l = None.
Proof. induction l; cbn; auto. Qed.

Lemma _find_local_weather_lookup
    (w : world) (d : disk) (city : string) (recs : list dict) :
  weather_json d = Stored (PList (map PDict recs)) ->
  Forall city_is_text recs ->
  _find_local_weather w d city = option_map PDict (lookup (rt w) recs city).
Proof.
  intros Hfile Hwf. unfold _find_local_weather, lookup, norm.
  rewrite Hfile. cbn [exists_ negb json_load bind py_iter].
  set (city_l := str_lower (rt w) (str_strip (rt w) city)).
  rewrite (first_where_find w (fun c => String.eqb c city_l) recs Hwf).
  cbn [bind]. unfold exact_hit at 1.
  destruct (find _ recs) as [r | ]; [reflexivity | ]. cbn [option_map].
  unfold part_hit.
  destruct (String.eqb city_l "") eqn:Hempty; cbn [negb andb].
  - rewrite first_where_never, find_never. cbn [bind].
    now rewrite (first_where_find w _ recs Hwf).
  - rewrite (first_where_find w (contains city_l) recs Hwf).
    cbn [bind].
    destruct (find _ recs) as [r | ]; [reflexivity | ]. cbn [option_map].
    now rewrite (first_where_find w _ recs Hwf).
Qed.

Lemma _find_local_weather_gives_up
    (w : world) (d : disk) (city : string) (pre : list dict) (bad : pyval)
    (post : list pyval) :
  weather_json d = Stored (PList (map PDict pre ++ bad :: post)) ->
  Forall city_is_text pre ->
  (forall r, In r pre -> exact_hit (rt w) (norm (rt w) city) r = false) ->
  malformed bad ->
  _find_local_weather w d city = None.
Proof.
  intros Hfile Hpre Hmiss Hbad. unfold _find_local_weather.
  rewrite Hfile. cbn [exists_ negb json_load bind py_iter].
  destruct (first_where_gives_up w
              (fun c => String.eqb c (str_lower (rt w) (str_strip (rt w) city)))
              pre bad post Hpre Hmiss Hbad) as [e ->].
  reflexivity.
Qed.

(** A search loop returns an exact match that stands before any malformed
    element, whatever comes after it. *)
Lemma first_where_hit
    (w : world) (f : string -> bool) (pre : list dict) (r : dict)
    (post : list pyval) :
  Forall city_is_text pre ->
  (forall r', In r' pre -> f (norm_city (rt w) r') = false) ->
  city_is_text r ->
  f (norm_city (rt w) r) = true ->
  first_where (fun r => c <- field_lower w "city" r ;; Ret (f c))
              (map PDict pre ++ PDict r :: post)
  = Ret (Some (PDict r)).
Proof.
  intros Hpre Hmiss Hr Hhit.
  induction Hpre as [ | r' pre Hr' _ IH]; cbn [map app first_where].
  - rewrite (field_lower_city w r Hr). cbn [bind]. now rewrite Hhit.
  - rewrite (field_lower_city w r' Hr'). cbn [bind].
    rewrite (Hmiss r' (or_introl eq_refl)).
    apply IH. intros r'' Hr''. apply Hmiss. now right.
Qed.

Lemma _find_local_weather_hit
    (w : world) (d : disk) (city : string) (pre : list dict) (r : dict)
    (post : list pyval) :
  weather_json d = Stored (PList (map PDict pre ++ PDict r :: post)) ->
  Forall city_is_text pre ->
  (forall r', In r' pre -> exact_hit (rt w) (norm (rt w) city) r' = false) ->
  city_is_text r ->
  exact_hit (rt w) (norm (rt w) city) r = true ->
  _find_local_weather w d city = Some (PDict r).
Proof.
  intros Hfile Hpre Hmiss Hr Hhit. unfold _find_local_weather.
  rewrite Hfile. cbn [exists_ negb json_load bind py_iter].
  rewrite (first_where_hit w
             (fun c => String.eqb c (str_lower (rt w) (str_strip (rt w) city)))
             pre r post Hpre Hmiss Hr Hhit).
  reflexivity.
Qed.

(** A cache file that holds no list gives no record. *)
Lemma _find_local_weather_no_list (w : world) (d : disk) (city : string) (v : pyval) :
  weather_json d = Stored v ->
  (forall l, v <> PList l) ->
  _find_local_weather w d city = None.
Proof.
  intros Hfile Hv. unfold _find_local_weather.
  rewrite Hfile. cbn [exists_ negb json_load bind].
  destruct v as [ | b | z | f | s | l | kvs]; try reflexivity.
  - destruct s as [ | c s]; cbn [py_iter chars bind first_where];
      [ | reflexivity].
    now destruct (String.eqb (str_lower (rt w) (str_strip (rt w) city)) "").
  - now destruct (Hv l).
  - destruct kvs as [ | kv kvs]; cbn [py_iter map bind first_where];
      [ | reflexivity].
    now destruct (String.eqb (str_lower (rt w) (str_strip (rt w) city)) "").
Qed.

Lemma find_none_all {A : Type} (f : A -> bool) (l : list A) :
  (forall r, In r l -> f r = false) -> find f l = None.
Proof.
  induction l as [ | x l IH]; cbn; [reflexivity | ].
  intro H. rewrite (H x (or_introl eq_refl)). apply IH. auto.
Qed.

Lemma local_or_record (w : world) (d : disk) (city : string) (otherwise : dict) :
  exists rec, local_or (_find_local_weather w d city) (PDict otherwise) = PDict rec.
Proof.
  destruct (_find_local_weather w d city) as [v | ] eqn:Hfind; cbn [local_or].
  - destruct (_find_local_weather_dict w d city v Hfind) as [rec ->].
    destruct (truthy (PDict rec)); eauto.
  - eauto.
Qed.

(** With or without a credential, [get_weather] never raises and returns a
    record. *)
Lemma get_weather_record (w : world) (d : disk) (city : string) :
  exists rec, get_weather w d city = Ret (PDict rec).
Proof.
  unfold get_weather.
  destruct (no_key (OPENWEATHER_KEY w)).
  - destruct (local_or_record w d city
                [("error", PStr "Missing OPENWEATHER_KEY in .env")])
      as [rec ->]. eauto.
  - repeat match goal with
           | |- context [bind ?c _] => destruct c; cbn [bind]
           | |- context [if ?b then _ else _] => destruct b
           end;
      cbn [try_except];
      match goal with
      | |- exists rec, Ret (local_or _ (PDict ?o)) = _ =>
          destruct (local_or_record w d city o) as [rec ->]; eauto
      | |- _ => eauto
      end.
Qed.

(** C2, as the code has it: with no weather credential, [get_weather] never
    raises and always returns a record. On a cache that is a list of objects
    whose city, where there is one, is a text, it returns the first record
    whose city is the city asked for (both stripped and in lower case) if
    there is one, else the first record whose city contains it (unless the
    city asked for is blank), else the first default entry (city [default]
    or [pune]); it returns the record with the [error] key when all three
    searches miss, when the record found is empty, and when the cache file is
    missing, unreadable or holds no list. In any list, an exact match that
    stands before every malformed element (one that is no object, or whose
    city is no text) is returned; on a malformed element that stands before
    every exact match the search gives up, and the error record is returned
    whatever the elements after it. *)
Theorem weather_without_key (w : world) (d : disk) (city : string) :
  no_key (OPENWEATHER_KEY w) = true ->
  (exists r, get_weather w d city = Ret (PDict r))
  /\ (forall recs,
        weather_json d = Stored (PList (map PDict recs)) ->
        Forall city_is_text recs ->
        get_weather w d city
        = Ret (match lookup (rt w) recs city with
               | Some (field :: fields) => PDict (field :: fields)
               | Some [] | None => PDict [("error", PStr "Missing OPENWEATHER_KEY in .env")]
               end)
        /\ ((forall r, In r recs ->
               exact_hit (rt w) (norm (rt w) city) r = false
               /\ part_hit (rt w) (norm (rt w) city) r = false
               /\ default_hit (rt w) r = false) ->
            get_weather w d city = Ret missing_key_error))
  /\ (forall pre bad post,
        weather_json d = Stored (PList (map PDict pre ++ bad :: post)) ->
        Forall city_is_text pre ->
        (forall r, In r pre -> exact_hit (rt w) (norm (rt w) city) r = false) ->
        malformed bad ->
        get_weather w d city = Ret missing_key_error)
  /\ (forall pre field fields post,
        weather_json d
        = Stored (PList (map PDict pre ++ PDict (field :: fields) :: post)) ->
        Forall city_is_text pre ->
        (forall r, In r pre -> exact_hit (rt w) (norm (rt w) city) r = false) ->
        city_is_text (field :: fields) ->
        exact_hit (rt w) (norm (rt w) city) (field :: fields) = true ->
        get_weather w d city = Ret (PDict (field :: fields)))
  /\ (weather_json d = Missing \/ weather_json d = Unreadable
      \/ (exists v, weather_json d = Stored v /\ forall l, v <> PList l) ->
      get_weather w d city = Ret missing_key_error)
  /\ dict_has "error" [("error", PStr "Missing OPENWEATHER_KEY in .env")] = true.
Proof.
  intro Hkey. unfold get_weather. rewrite Hkey.
  split; [ | split; [ | split; [ | split; [ | split]]]].
  - destruct (local_or_record w d city
                [("error", PStr "Missing OPENWEATHER_KEY in .env")])
      as [rec ->]. eauto.
  - intros recs Hfile Hwf.
    rewrite (_find_local_weather_lookup w d city recs Hfile Hwf).
    split.
    + destruct (lookup (rt w) recs city) as [[ | field fields] | ]; reflexivity.
    + intro Hmiss. unfold lookup.
      rewrite !find_none_all; [reflexivity | | | ]; intros r Hr;
        destruct (Hmiss r Hr) as (? & ? & ?); assumption.
  - intros pre bad post Hfile Hpre Hmiss Hbad.
    now rewrite (_find_local_weather_gives_up w d city pre bad post Hfile Hpre Hmiss Hbad).
  - intros pre field fields post Hfile Hpre Hmiss Hr Hhit.
    now rewrite (_find_local_weather_hit w d city pre (field :: fields) post
                   Hfile Hpre Hmiss Hr Hhit).
  - intros [Hfile | [Hfile | (v & Hfile & Hv)]].
    + unfold _find_local_weather. rewrite Hfile. reflexivity.
    + unfold _find_local_weather. rewrite Hfile. reflexivity.
    + now rewrite (_find_local_weather_no_list w d city v Hfile Hv).
  - reflexivity.
Qed.

End Weather.

Lemma weather_without_key_witness :
  (exists r, get_weather offline_world weather_disk "mumbai" = Ret (PDict r))
  /\ (forall recs,
        weather_json weather_disk = Stored (PList (map PDict recs)) ->
        Forall city_is_text recs ->
        get_weather offline_world weather_disk "mumbai"
        = Ret (match lookup plain_interp recs "mumbai" with
               | Some (field :: fields) => PDict (field :: fields)
               | Some [] | None => PDict [("error", PStr "Missing OPENWEATHER_KEY in .env")]
               end)
        /\ ((forall r, In r recs ->
               exact_hit plain_interp (norm plain_interp "mumbai") r = false
               /\ part_hit plain_interp (norm plain_interp "mumbai") r = false
               /\ default_hit plain_interp r = false) ->
            get_weather offline_world weather_disk "mumbai" = Ret missing_key_error))
  /\ (forall pre bad post,
        weather_json weather_disk = Stored (PList (map PDict pre ++ bad :: post)) ->
        Forall city_is_text pre ->
        (forall r, In r pre ->
           exact_hit plain_interp (norm plain_interp "mumbai") r = false) ->
        malformed bad ->
        get_weather offline_world weather_disk "mumbai" = Ret missing_key_error)
  /\ (forall pre field fields post,
        weather_json weather_disk
        = Stored (PList (map PDict pre ++ PDict (field :: fields) :: post)) ->
        Forall city_is_text pre ->
        (forall r, In r pre ->
           exact_hit plain_interp (norm plain_interp "mumbai") r = false) ->
        city_is_text (field :: fields) ->
        exact_hit plain_interp (norm plain_interp "mumbai") (field :: fields) = true ->
        get_weather offline_world weather_disk "mumbai" = Ret (PDict (field :: fields)))
  /\ (weather_json weather_disk = Missing \/ weather_json weather_disk = Unreadable
      \/ (exists v, weather_json weather_disk = Stored v /\ forall l, v <> PList l) ->
      get_weather offline_world weather_disk "mumbai" = Ret missing_key_error)
  /\ dict_has "error" [("error", PStr "Missing OPENWEATHER_KEY in .env")] = true.
Proof.
  apply (weather_without_key offline_world weather_disk "mumbai").
  reflexivity.
Defined.

(** C2, as the specification states it for every cache, fails: behind an entry whose
    city is a number, the record of Pune is in the cache, and the three
    searches would find it, but [get_weather] returns the error record. *)
Lemma spoilt_cache_hides_a_match :
  no_key (OPENWEATHER_KEY offline_world) = true
  /\ weather_json spoilt_weather_disk
     = Stored (PList (map PDict [numbered_entry; mumbai_record; pune_record]))
  /\ lookup plain_interp [numbered_entry; mumbai_record; pune_record] "Pune"
     = Some pune_record
  /\ get_weather offline_world spoilt_weather_disk "Pune" = Ret missing_key_error.
Proof. repeat split. Qed.

(** The three searches on the sample cache: an exact match, a match by
    containment, the default entry; and the error record without a cache. *)
Example weather_lookups :
  get_weather offline_world weather_disk " PUNE " = Ret (PDict pune_record)
  /\ get_weather offline_world weather_disk "mumbai" = Ret (PDict mumbai_record)
  /\ get_weather offline_world weather_disk "Delhi" = Ret (PDict pune_record)
  /\ get_weather offline_world empty_disk "Delhi" = Ret missing_key_error.
Proof. repeat split. Qed.

(** ** Price lookup with no data *)

Section Prices.







End Prices.



(** The live API answering with no record and the cache matching: the cache
    record replaces the error. *)
Example price_lookups_offline :
  get_market_price offline_world onion_disk "Tomato" "Maharashtra"
  = Ret (PDict [("crop", PStr "Tomato"); ("state", PStr "Maharashtra");
                ("modal_price", PStr "N/A"); ("error", PStr "Connection refused")])
  /\ get_market_price empty_answer_world onion_disk "onion" "Goa"
     = Ret (PDict [("crop", PStr "Onion"); ("state", PStr "Maharashtra");
                   ("district", PNone); ("market", PNone);
                   ("modal_price", PInt 1800); ("min_price", PNone);
                   ("max_price", PNone); ("arrival_date", PNone);
                   ("variety", PNone); ("source", PStr "local")]).
Proof. split; reflexivity. Qed.

(** ** The chatbot without a model credential *)

Section Text.

Lemma starts_with_app (p s t : string) :
  starts_with p s = true -> starts_with p (s +++ t) = true.
Proof.
  revert s. induction p as [ | a p IH]; intros s; [reflexivity | ].
  destruct s as [ | b s]; cbn; [discriminate | ].
  intro H. apply andb_true_iff in H as [Hab Hrest].
  rewrite Hab. cbn. now apply IH.
Qed.

Lemma contains_app_l (p s t : string) :
  contains p s = true -> contains p (s +++ t) = true.
Proof.
  induction s as [ | c s IH].
  - cbn. rewrite orb_false_r. intro H.
    destruct p; [ | discriminate]. destruct t; reflexivity.
  - cbn [contains String.append]. intro H.
    apply orb_true_iff in H as [H | H]; apply orb_true_iff.
    + left. exact (starts_with_app p (String c s) t H).
    + right. now apply IH.
Qed.

Lemma contains_app_r (p s t : string) :
  contains p t = true -> contains p (s +++ t) = true.
Proof.
  intro H. induction s as [ | c s IH]; [exact H | ].
  cbn [contains String.append]. rewrite IH. apply orb_true_r.
Qed.

Lemma lower_app (s t : string) : lower (s +++ t) = lower s +++ lower t.
Proof. induction s as [ | c s IH]; cbn; [reflexivity | now rewrite IH]. Qed.

End Text.

(** Finds the piece of a concatenation that holds the wanted text. *)
Ltac find_piece :=
  repeat first
    [ solve [apply contains_app_l; assumption]
    | solve [apply contains_app_l; vm_compute; reflexivity]
    | apply contains_app_r ].

Section Chatbot.

Variable w : world.
Hypothesis no_model_key : no_key (OPENROUTER_API_KEY w) = true.

Lemma ask_llm_mock (prompt : string) :
  ask_llm w prompt = Ret (PStr (_mock_response prompt)).
Proof.
  unfold ask_llm, get_openrouter_headers. rewrite no_model_key. reflexivity.
Qed.

Lemma mock_on_weather (prompt : string) :
  contains "weather" (lower prompt) = true -> _mock_response prompt = weather_mock.
Proof. intro H. unfold _mock_response. now rewrite H. Qed.

(** The classification prompt lists the word [weather] itself, so the mock
    answers every question with the weather sentence. *)
Lemma detect_intent_mock (question : string) :
  detect_intent w question = Ret (lower (strip weather_mock)).
Proof.
  unfold detect_intent. rewrite ask_llm_mock, mock_on_weather; [reflexivity | ].
  rewrite !lower_app. find_piece.
Qed.

Lemma extract_city_mock (question : string) :
  contains "weather" (lower question) = true ->
  extract_city w question = Ret weather_mock.
Proof.
  intro Hq. unfold extract_city.
  rewrite ask_llm_mock, mock_on_weather; [reflexivity | ].
  rewrite !lower_app. find_piece.
Qed.

Lemma weather_branch (d : disk) (question : string) :
  contains "weather" (lower question) = true ->
  process_query w d question
  = (data <- get_weather w d weather_mock ;;
     error_or data (format_weather w weather_mock)).
Proof.
  intro Hq. unfold process_query.
  rewrite detect_intent_mock. cbn [bind].
  replace (contains "weather" (lower (strip weather_mock))) with true
    by (vm_compute; reflexivity).
  now rewrite (extract_city_mock question Hq).
Qed.

(** C8, as the code has it: for a question that mentions the weather (in
    any letter case) and no model credential, the chatbot looks the weather
    up for the mock sentence taken as the city, and the lookup returns a
    record. When the record has an [error] key the answer is that error.
    When it has none, and has [temp], [humidity] and a text [weather], the
    answer is the weather template filled with them: its heading carries the
    mock sentence, and so the words [clear] and [spraying]. A record without
    [error] that lacks one of the three fields, or whose [weather] is no
    text, makes the chatbot raise. *)
Theorem chatbot_weather_offline (d : disk) (question : string) :
  contains "weather" (lower question) = true ->
  exists rec,
    get_weather w d weather_mock = Ret (PDict rec)
    /\ (forall e,
          dict_get "error" rec = Some e ->
          process_query w d question = Ret (answer e))
    /\ (forall temp humidity sky,
          dict_get "error" rec = None ->
          dict_get "temp" rec = Some temp ->
          dict_get "humidity" rec = Some humidity ->
          dict_get "weather" rec = Some (PStr sky) ->
          let text :=
            nl +++ "🌦 **Weather Update – " +++ weather_mock +++ "**"
            +++ nl +++ "Temperature: **" +++ py_str (rt w) temp +++ "°C**"
            +++ nl +++ "Humidity: **" +++ py_str (rt w) humidity +++ "%**"
            +++ nl +++ "Sky: **" +++ str_title (rt w) sky +++ "**"
            +++ nl
            +++ nl +++ "✅ Good time for outdoor farm work if rain chance is low."
            +++ nl in
          process_query w d question = Ret (answer (PStr text))
          /\ contains "clear" text = true
          /\ contains "spraying" text = true)
    /\ (dict_get "error" rec = None ->
        dict_get "temp" rec = None
        \/ dict_get "humidity" rec = None
        \/ dict_get "weather" rec = None
        \/ (exists v, dict_get "weather" rec = Some v /\ is_text v = false) ->
        exists e, process_query w d question = Raise e).
Proof.
  intro Hq. rewrite (weather_branch d question Hq).
  destruct (get_weather_record w d weather_mock) as [rec Hrec].
  exists rec. rewrite Hrec. split; [reflexivity | ]. split; [ | split].
  - intros e He. cbn [bind]. unfold error_or. cbn [py_in bind].
    unfold dict_has. rewrite He. cbn [bind py_item]. now rewrite He.
  - intros temp humidity sky He Ht Hh Hs text.
    cbn [bind]. unfold error_or. cbn [py_in bind].
    unfold dict_has. rewrite He. unfold format_weather.
    cbn [py_item bind]. rewrite Ht, Hh, Hs. cbn [bind py_title].
    split; [reflexivity | ].
    subst text. split; find_piece.
  - intros He Hbad.
    cbn [bind]. unfold error_or. cbn [py_in bind].
    unfold dict_has. rewrite He. unfold format_weather. cbn [py_item bind].
    destruct (dict_get "temp" rec) as [temp | ]; [ | cbn; eauto].
    destruct (dict_get "humidity" rec) as [humidity | ]; [ | cbn; eauto].
    destruct (dict_get "weather" rec) as [sky | ]; [ | cbn; eauto].
    destruct Hbad as [Hbad | [Hbad | [Hbad | (v & [= <-] & Hv)]]];
      try discriminate Hbad.
    destruct sky; try discriminate Hv; cbn; eauto.
Qed.

End Chatbot.

Lemma chatbot_weather_offline_witness :
  exists rec,
    get_weather offline_world weather_disk weather_mock = Ret (PDict rec)
    /\ (forall e,
          dict_get "error" rec = Some e ->
          process_query offline_world weather_disk "Will the WEATHER hold?"
          = Ret (answer e))
    /\ (forall temp humidity sky,
          dict_get "error" rec = None ->
          dict_get "temp" rec = Some temp ->
          dict_get "humidity" rec = Some humidity ->
          dict_get "weather" rec = Some (PStr sky) ->
          let text :=
            nl +++ "🌦 **Weather Update – " +++ weather_mock +++ "**"
            +++ nl +++ "Temperature: **" +++ py_str plain_interp temp +++ "°C**"
            +++ nl +++ "Humidity: **" +++ py_str plain_interp humidity +++ "%**"
            +++ nl +++ "Sky: **" +++ str_title plain_interp sky +++ "**"
            +++ nl
            +++ nl +++ "✅ Good time for outdoor farm work if rain chance is low."
            +++ nl in
          process_query offline_world weather_disk "Will the WEATHER hold?"
          = Ret (answer (PStr text))
          /\ contains "clear" text = true
          /\ contains "spraying" text = true)
    /\ (dict_get "error" rec = None ->
        dict_get "temp" rec = None
        \/ dict_get "humidity" rec = None
        \/ dict_get "weather" rec = None
        \/ (exists v, dict_get "weather" rec = Some v /\ is_text v = false) ->
        exists e,
          process_query offline_world weather_disk "Will the WEATHER hold?" = Raise e).
Proof.
  apply (chatbot_weather_offline offline_world eq_refl weather_disk
           "Will the WEATHER hold?").
  reflexivity.
Defined.

(** With the sample cache the default entry answers, and the heading of the
    template carries the mock sentence. *)
Example chatbot_with_cache :
  process_query offline_world weather_disk "Will the WEATHER hold?"
  = Ret (answer (PStr
      (nl +++ "🌦 **Weather Update – " +++ weather_mock +++ "**"
       +++ nl +++ "Temperature: **29°C**"
       +++ nl +++ "Humidity: **40%**"
       +++ nl +++ "Sky: **Clear Sky**"
       +++ nl
       +++ nl +++ "✅ Good time for outdoor farm work if rain chance is low."
       +++ nl))).
Proof. vm_compute. reflexivity. Qed.

(** C8, as the specification states it, fails: with no credential at all and no local
    weather cache, the answer to a question about the weather is the text of
    the lookup's error, which has neither [clear] nor [spraying] in it. *)
Lemma chatbot_answers_with_the_error :
  no_key (OPENROUTER_API_KEY offline_world) = true
  /\ contains "weather" "What is the weather in Pune?" = true
  /\ process_query offline_world empty_disk "What is the weather in Pune?"
     = Ret (answer (PStr "Missing OPENWEATHER_KEY in .env"))
  /\ contains "clear" "Missing OPENWEATHER_KEY in .env" = false
  /\ contains "spraying" "Missing OPENWEATHER_KEY in .env" = false.
Proof. repeat split; vm_compute; reflexivity. Qed.

(** ** The simulated price history *)

Section History.

(** Truncation of a finite float, against its exact rational value. *)
Lemma trunc_sf_truncates (x : spec_float) (p : Z) :
  trunc_sf x = Some p -> truncates (Q_of_sf x) p.
Proof.
  destruct x as [s | s | | s m e]; cbn [trunc_sf Q_of_sf]; try discriminate.
  - intros [= <-]. unfold truncates, Qle, Qlt. cbn. lia.
  - intros [= <-]. destruct (Z.leb_spec 0 e) as [He | He].
    + assert (Hpos : 0 < Z.pos m * 2 ^ e) by (apply Z.mul_pos_pos; lia).
      destruct s; unfold truncates, Qle, Qlt; cbn; lia.
    + assert (Hd : 0 < 2 ^ (- e)) by (apply Z.pow_pos_nonneg; lia).
      pose proof (Z.mul_div_le (Z.pos m) (2 ^ (- e)) Hd) as Hlo.
      pose proof (Z.mul_succ_div_gt (Z.pos m) (2 ^ (- e)) Hd) as Hhi.
      assert (Hq : 0 <= Z.pos m / 2 ^ (- e)) by (apply Z.div_pos; lia).
      destruct s; unfold truncates, Qle, Qlt; cbn;
        rewrite ?Z2Pos.id by exact Hd; nia.
Qed.

Lemma py_int_of_float_finite (x : float) :
  float_is_finite x = true ->
  exists p, py_int_of_float x = Ret p /\ truncates (Q_of_float x) p.
Proof.
  unfold float_is_finite, py_int_of_float, Q_of_float. intro Hfin.
  destruct (Prim2SF x) as [s | s | | s m e] eqn:Hx; try discriminate.
  - exists 0. split; [reflexivity | ]. now apply trunc_sf_truncates.
  - eexists. split; [reflexivity | ]. now apply trunc_sf_truncates.
Qed.

Variable w : world.

(** The loop of the history, for a modal price [float()] reads as [base]:
    one entry for each day of [days], its price the truncation of the modal
    price scaled by the matching draw. *)
Lemma simulated_history_entries (modal : pyval) (base : float) (days : list Z) :
  py_float (rt w) modal = Ret base ->
  Forall (fun i => 1 <= today w - i) days ->
  forall k,
    (forall j, (j < List.length days)%nat -> float_is_finite (scaled w base (k + j)) = true) ->
    exists ps,
      simulated_history w modal days k = Ret (entries w days ps)
      /\ List.length ps = List.length days
      /\ (forall j p, nth_error ps j = Some p ->
            truncates (Q_of_float (scaled w base (k + j))) p).
Proof.
  intros Hbase Hdays. induction Hdays as [ | i days Hi _ IH]; intros k Hfin.
  - exists []. split; [reflexivity | ]. split; [reflexivity | ].
    intros [ | j] p; discriminate.
  - cbn [simulated_history]. unfold day_label.
    replace (today w - i <? 1) with false by (symmetry; apply Z.ltb_ge; lia).
    cbn [bind]. rewrite Hbase. cbn [bind].
    destruct (py_int_of_float_finite (scaled w base k)) as (p & Hp & Htr).
    { rewrite <- (Nat.add_0_r k). apply Hfin. cbn. lia. }
    unfold scaled in Hp. rewrite Hp. cbn [bind].
    destruct (IH (S k)) as (ps & Hrun & Hlen & Hps).
    { intros j Hj. rewrite Nat.add_succ_comm. apply Hfin. cbn. lia. }
    rewrite Hrun. cbn [bind].
    exists (p :: ps). split; [reflexivity | ]. split; [cbn; now rewrite Hlen | ].
    intros [ | j] q; cbn [nth_error].
    + intros [= <-]. now rewrite Nat.add_0_r.
    + intro Hq. rewrite <- Nat.add_succ_comm. now apply Hps.
Qed.

(** C9, as the code has it: on a live answer whose first record has a modal
    price [float()] accepts, with finite scaled values, [get_market_price]
    returns the record's fields followed by a [history] of exactly 7
    entries, for the days from six days ago to today in that order; the
    price of an entry is the integer part (toward zero) of the modal price
    times [1 + u] for the entry's draw [u], hence less than one unit away
    from that scaled value. *)
Theorem history_of_live_hit
    (d : disk) (commodity state : string) (answer : response)
    (body record : dict) (others : list pyval) (base : float) :
  requests_get w (price_url commodity state) = Ret answer ->
  status_code answer = 200 ->
  json answer = Ret (PDict body) ->
  dict_get "records" body = Some (PList (PDict record :: others)) ->
  py_float (rt w) (match dict_get "modal_price" record with
                   | Some v => v
                   | None => PNone
                   end) = Ret base ->
  7 <= today w ->
  (forall k, (k < 7)%nat -> float_is_finite (scaled w base k) = true) ->
  exists ps,
    get_market_price w d commodity state
    = Ret (PDict (live_fields commodity state record
                    ++ [("history", PList (entries w [6; 5; 4; 3; 2; 1; 0] ps))]))
    /\ List.length (entries w [6; 5; 4; 3; 2; 1; 0] ps) = 7%nat
    /\ (forall k p, nth_error ps k = Some p ->
          truncates (Q_of_float (scaled w base k)) p).
Proof.
  intros Hget Hstatus Hjson Hrecords Hbase Htoday Hfin.
  destruct (simulated_history_entries _ base [6; 5; 4; 3; 2; 1; 0] Hbase)
    with (k := 0%nat) as (ps & Hrun & Hlen & Hps).
  { repeat constructor; lia. }
  { exact Hfin. }
  exists ps. split; [ | split].
  - unfold get_market_price.
    rewrite Hget. cbn [bind]. rewrite Hstatus, Hjson.
    cbn [Z.eqb Pos.eqb negb bind py_in py_get py_item]. unfold dict_has.
    rewrite Hrecords. cbn [py_len bind List.length].
    replace (Z.of_nat (S (List.length others)) >? 0) with true
      by (symmetry; apply Z.gtb_lt; lia).
    cbn [andb py_first bind py_get]. rewrite Hrun. reflexivity.
  - unfold entries. rewrite length_map, length_combine, Hlen. reflexivity.
  - exact Hps.
Qed.

End History.

(** With exact arithmetic, a draw between -0.1 and 0.1 keeps the scaled
    value within 10% of a non-negative modal price, and the truncated price
    within one unit below that band. *)
Lemma truncated_price_band (base u : Q) (p : Z) :
  (0 <= base)%Q -> (- (1 # 10) <= u)%Q -> (u <= 1 # 10)%Q ->
  truncates (base * (1 + u)) p ->
  ((9 # 10) * base - 1 < inject_Z p /\ inject_Z p <= (11 # 10) * base)%Q.
Proof.
  intros Hbase Hlo Hhi [Hpos _].
  assert (Hscaled : (0 <= base * (1 + u))%Q) by nra.
  destruct (Hpos Hscaled) as [Hle Hlt].
  split; nra.
Qed.

Lemma history_of_live_hit_witness :
  exists ps,
    get_market_price cheap_world empty_disk "Tomato" "Maharashtra"
    = Ret (PDict (live_fields "Tomato" "Maharashtra" cheap_record
                    ++ [("history",
                         PList (entries cheap_world [6; 5; 4; 3; 2; 1; 0] ps))]))
    /\ List.length (entries cheap_world [6; 5; 4; 3; 2; 1; 0] ps) = 7%nat
    /\ (forall k p, nth_error ps k = Some p ->
          truncates (Q_of_float (scaled cheap_world 5 k)) p).
Proof.
  apply (history_of_live_hit cheap_world empty_disk "Tomato" "Maharashtra"
           (mkResponse 200 (Ret (PDict [("records", PList [PDict cheap_record])])))
           [("records", PList [PDict cheap_record])] cheap_record [] 5%float).
  - reflexivity.
  - reflexivity.
  - reflexivity.
  - reflexivity.
  - reflexivity.
  - cbn. lia.
  - intros k _. vm_compute. reflexivity.
Defined.

(** C9, as the specification states it, fails: for a modal price of 5 and draws at the
    lower end of the range, every price of the history is 4, which is 20%
    below the modal price. *)
Lemma truncated_price_leaves_the_band :
  (forall k, PrimFloat.leb lowest_draw (random_uniform cheap_world k) = true
             /\ PrimFloat.leb (random_uniform cheap_world k) highest_draw = true)
  /\ get_market_price cheap_world empty_disk "Tomato" "Maharashtra"
     = Ret (PDict (live_fields "Tomato" "Maharashtra" cheap_record
                     ++ [("history",
                          PList (entries cheap_world [6; 5; 4; 3; 2; 1; 0]
                                         [4; 4; 4; 4; 4; 4; 4]))]))
  /\ ~ within_ten_percent (Q_of_float 5) 4.
Proof.
  split; [ | split].
  - intro k. split; vm_compute; reflexivity.
  - vm_compute. reflexivity.
  - intro H. vm_compute in H. apply H. reflexivity.
Qed.

(** At the two ends of the range the factor [1 + u] is the float nearest to
    0.9 and to 1.1. *)
Example factor_endpoints :
  (1 + lowest_draw)%float = 0x1.ccccccccccccdp-1%float
  /\ (1 + highest_draw)%float = 0x1.199999999999ap+0%float
  /\ scaled cheap_world 5 0 = 4.5%float.
Proof. repeat split. Qed.

(* ================================================================== *)
(** * Further properties *)
(* ================================================================== *)

(** ** Crops: adding, listing, deleting *)

Section MoreCrops.

Variable w : world.

Lemma add_crop_runs (d : disk) (crops : list pyval) (crop plot : pyval) :
  writable d = true ->
  load_crops d = Ret (PList crops) ->
  add_crop w crop plot d
  = (Ret (crop_added (new_crop w crop plot)),
     with_crops (crops ++ [new_crop w crop plot]) d).
Proof.
  intros Hw Hload.
  unfold add_crop, io_bind, reading, pure, save_crops, with_crops.
  rewrite Hload. cbn [py_append]. rewrite Hw. reflexivity.
Qed.

Lemma get_crops_stored (d : disk) (crops : list pyval) :
  load_crops d = Ret (PList crops) -> get_crops d = Ret (PList (rev crops)).
Proof. intro H. unfold get_crops. now rewrite H. Qed.



Lemma pop_middle (before after : list pyval) (x : pyval) :
  pop (List.length before) (before ++ x :: after) = Some (x, before ++ after).
Proof.
  induction before as [ | y before IH]; cbn; [reflexivity | ].
  now rewrite IH.
Qed.

Lemma delete_crop_runs (d : disk) (before after : list pyval) (x : pyval) :
  writable d = true ->
  load_crops d = Ret (PList (before ++ x :: after)) ->
  delete_crop (Z.of_nat (List.length before)) d
  = (Ret (crop_deleted x), with_crops (before ++ after) d).
Proof.
  intros Hw Hload.
  unfold delete_crop, io_bind, reading, pure, save_crops, with_crops.
  rewrite Hload. cbn [py_len].
  replace ((Z.of_nat (List.length before) <? 0)
           || (Z.of_nat (List.length before)
                 >=? Z.of_nat (List.length (before ++ x :: after)))) with false.
  - unfold py_pop. rewrite Nat2Z.id, pop_middle. cbn [snd fst].
    rewrite Hw. reflexivity.
  - symmetry. apply orb_false_iff. split.
    + apply Z.ltb_ge. lia.
    + rewrite Z.geb_leb. apply Z.leb_gt. rewrite length_app. cbn. lia.
Qed.

(** X3: inside the range, on a writable data directory, [delete_crop]
    removes exactly the crop stored at the index: it returns that crop, the
    crops before and after it stay in their order, and no other file
    changes. *)
Theorem delete_crop_removes_one
    (d : disk) (before after : list pyval) (x : pyval) :
  writable d = true ->
  load_crops d = Ret (PList (before ++ x :: after)) ->
  let d' := snd (delete_crop (Z.of_nat (List.length before)) d) in
  fst (delete_crop (Z.of_nat (List.length before)) d) = Ret (crop_deleted x)
  /\ load_crops d' = Ret (PList (before ++ after))
  /\ (expenses_json d', soil_json d', weather_json d', prices_json d')
     = (expenses_json d, soil_json d, weather_json d, prices_json d).
Proof.
  intros Hw Hload d'. subst d'.
  rewrite (delete_crop_runs d before after x Hw Hload).
  repeat split.
Qed.

(** X4: adding a crop and then deleting the last index gives the added crop
    back and restores the stored list. *)
Theorem add_then_delete_last
    (d : disk) (crops : list pyval) (crop plot : pyval) :
  writable d = true ->
  load_crops d = Ret (PList crops) ->
  let d1 := snd (add_crop w crop plot d) in
  let last := Z.of_nat (List.length crops) in
  fst (delete_crop last d1) = Ret (crop_deleted (new_crop w crop plot))
  /\ load_crops (snd (delete_crop last d1)) = Ret (PList crops).
Proof.
  intros Hw Hload d1 last. subst d1 last.
  rewrite (add_crop_runs d crops crop plot Hw Hload). cbn [snd].
  rewrite (delete_crop_runs (with_crops (crops ++ [new_crop w crop plot]) d)
             crops [] (new_crop w crop plot)); [ | exact Hw | reflexivity].
  cbn [fst snd]. rewrite app_nil_r. split; reflexivity.
Qed.

End MoreCrops.

(** X5: the listing is newest first but [delete_crop] counts from the
    oldest: the crop removed at index [i] is the one the listing shows at
    position [len - 1 - i]. *)
Theorem delete_index_counts_from_oldest
    (d : disk) (crops shown : list pyval) (i : nat) :
  writable d = true ->
  load_crops d = Ret (PList crops) ->
  get_crops d = Ret (PList shown) ->
  (i < List.length crops)%nat ->
  exists x,
    nth_error shown (List.length crops - 1 - i) = Some x
    /\ fst (delete_crop (Z.of_nat i) d) = Ret (crop_deleted x).
Proof.
  intros Hw Hload Hshown Hi.
  rewrite (get_crops_stored d crops Hload) in Hshown. injection Hshown as <-.
  destruct (nth_error crops i) as [x | ] eqn:Hx;
    [ | apply nth_error_None in Hx; lia].
  exists x. split.
  - rewrite nth_error_rev.
    replace (List.length crops - 1 - i <? List.length crops)%nat with true
      by (symmetry; apply Nat.ltb_lt; lia).
    replace (List.length crops - S (List.length crops - 1 - i))%nat with i by lia.
    exact Hx.
  - apply nth_error_split in Hx as (before & after & -> & <-).
    now rewrite (delete_crop_runs d before after x Hw Hload).
Qed.

(** ** Expenses: failed additions, unusable ledgers, equal dates *)

Section MoreExpenses.

Variable w : world.

(** X6: the three outcomes of [add_expense]. When [float()] accepts the
    amount and the save goes through, the call succeeds and the stored list
    is the former list followed by the new record. When [float()] refuses
    the amount, the call raises before anything is written, and the data
    directory is as before. When the save fails, the call raises too, but
    the ledger file is as before only if the failure came before the file
    was opened: a failure in [json.dump], after [open(path, "w")], leaves the
    file unreadable, and every stored expense is lost. *)
Theorem add_expense_outcomes (title amount type date : pyval) (d : disk) :
  let run := add_expense w title amount type date d in
  let stored := recorded w (mkAddition title amount type date) in
  exists old,
    load_expenses d = Ret (PList old)
    /\ ((exists f,
           py_float (rt w) amount = Ret f /\ writable d = true
           /\ fst run = Ret (expense_added stored)
           /\ load_expenses (snd run) = Ret (PList (old ++ [stored])))
        \/ (exists e,
              py_float (rt w) amount = Raise e
              /\ fst run = Raise e /\ snd run = d)
        \/ (exists f e,
              py_float (rt w) amount = Ret f /\ writable d = false
              /\ fst run = Raise e
              /\ snd run = (if torn d then with_expenses_file Unreadable d else d)
              /\ (torn d = true -> load_expenses (snd run) = Ret (PList [])))).
Proof.
  intros run stored. subst run stored.
  destruct (load_expenses_is_list d) as [old Hload]. exists old.
  split; [exact Hload | ].
  destruct (py_float (rt w) amount) as [f | e] eqn:Hf.
  - destruct (writable d) eqn:Hw.
    + left. exists f.
      destruct (add_expense_appends w d old (mkAddition title amount type date)
                  Hw Hload (ex_intro _ f Hf)) as (d' & Hrun & Hload' & _).
      cbn [a_title a_amount a_type a_date] in Hrun. rewrite Hrun.
      repeat split. exact Hload'.
    + right. right. exists f.
      unfold add_expense, io_bind, reading, pure, save_expenses, with_expenses_file.
      rewrite Hload. destruct (stamp w date). rewrite Hf. cbn [py_append].
      rewrite Hw. destruct (torn d); cbn [fst snd]; eexists;
        (split; [reflexivity | ]); (split; [reflexivity | ]);
        (split; [reflexivity | ]); (split; [reflexivity | ]).
      * intros _. reflexivity.
      * discriminate.
  - right. left. exists e.
    unfold add_expense, io_bind, reading, pure.
    rewrite Hload. destruct (stamp w date). rewrite Hf. cbn. auto.
Qed.

Lemma totals_return (es : list pyval) :
  forall i e t, totals w es i e = Ret t -> summable (rt w) es.
Proof.
  induction es as [ | x es IH]; intros i e t; [constructor | ].
  cbn [totals].
  destruct x as [ | | | | | | rec]; try discriminate.
  cbn [py_get bind].
  set (v := match dict_get "amount" rec with Some x => x | None => PInt 0 end).
  assert (Hamount : forall a, py_float (rt w) v = Ret a ->
                              amount_of (rt w) (PDict rec) <> None).
  { intros a Ha. unfold amount_of. fold v. rewrite Ha. discriminate. }
  destruct (is_str "income" _);
    (destruct (py_float (rt w) v) as [a | ] eqn:Ha; cbn [bind]; [ | discriminate]);
    match goal with
    | |- context [py_add_float ?acc a] =>
        destruct (py_add_float acc a); cbn [bind]; [ | discriminate]
    end;
    intro Hrest; (constructor; [exact (Hamount a eq_refl) | exact (IH _ _ _ Hrest)]).
Qed.

(** X7: [get_summary] returns exactly when every stored record is an object
    whose amount [float()] accepts (a missing amount counts as 0); one
    stored entry that is not an object, or has a null or unreadable amount,
    makes every call raise. *)
Theorem get_summary_returns_iff_summable (d : disk) (es : list pyval) :
  load_expenses d = Ret (PList es) ->
  (exists v, get_summary w d = Ret v) <-> summable (rt w) es.
Proof.
  intro Hload. split.
  - intros [v Hv]. unfold get_summary in Hv. rewrite Hload in Hv.
    cbn [bind py_iter] in Hv.
    destruct (totals w es (PInt 0) (PInt 0)) as [t | ] eqn:Ht; [ | discriminate].
    exact (totals_return es _ _ _ Ht).
  - intro Hs. rewrite (get_summary_sums w d es Hload Hs). eauto.
Qed.

Lemma str_ltb_irrefl (s : string) : str_ltb s s = false.
Proof.
  destruct (str_ltb s s) eqn:H; [ | reflexivity].
  pose proof (str_ltb_asym s s H) as Hn. unfold not_below in Hn. congruence.
Qed.

Lemma filter_insert_desc (k k' : string) (x : pyval) (l : list (string * pyval)) :
  filter (fun p => String.eqb (fst p) k) (insert_desc k' x l)
  = filter (fun p => String.eqb (fst p) k) ((k', x) :: l).
Proof.
  induction l as [ | [k'' y] l IH]; [reflexivity | ].
  cbn [insert_desc]. destruct (str_ltb k' k'') eqn:Hlt; [ | reflexivity].
  cbn [filter fst] in *. rewrite IH.
  destruct (String.eqb_spec k'' k) as [-> | ]; [ | reflexivity].
  destruct (String.eqb_spec k' k) as [-> | ]; [ | reflexivity].
  now rewrite str_ltb_irrefl in Hlt.
Qed.

Lemma filter_sort_desc (k : string) (l : list (string * pyval)) :
  filter (fun p => String.eqb (fst p) k) (sort_desc l)
  = filter (fun p => String.eqb (fst p) k) l.
Proof.
  induction l as [ | [k' x] l IH]; [reflexivity | ].
  cbn [sort_desc fold_right fst snd]. rewrite filter_insert_desc.
  cbn [filter fst]. fold (sort_desc l). now rewrite IH.
Qed.

Lemma filter_keyed (k : string) (l : list (string * pyval)) :
  Forall (fun kx => fst kx = key_of w (snd kx)) l ->
  with_the_key w k (map snd l)
  = map snd (filter (fun p => String.eqb (fst p) k) l).
Proof.
  unfold with_the_key.
  induction 1 as [ | [k' x] l Hk _ IH]; [reflexivity | ].
  cbn [map filter fst snd] in *. rewrite <- Hk, IH.
  now destruct (String.eqb k' k).
Qed.

(** X8: on a ledger whose sort keys are all texts, as are those of every
    record [add_expense] writes, the listing keeps the stored order among
    records of the same date: for every text key, the records with that key
    appear in [get_expenses] in the order in which they are stored. *)
Theorem equal_keys_keep_stored_order (d : disk) (es : list pyval) :
  load_expenses d = Ret (PList es) ->
  Forall (text_keyed w) es ->
  exists out,
    get_expenses w d = Ret (PList out)
    /\ forall k, with_the_key w k out = with_the_key w k es.
Proof.
  intros Hload Hes.
  exists (map snd (sort_desc (map (with_key w) es))). split.
  - unfold get_expenses. rewrite Hload. cbn [bind py_iter].
    now rewrite (sorted_reverse_text_keyed w es Hes).
  - intro k.
    assert (Hin : Forall (fun kx => fst kx = key_of w (snd kx)) (map (with_key w) es))
      by (apply Forall_map, Forall_forall; reflexivity).
    rewrite filter_keyed.
    + rewrite filter_sort_desc, <- filter_keyed by exact Hin.
      now rewrite map_map, map_id.
    + exact (Permutation_Forall (sort_desc_perm _) Hin).
Qed.

End MoreExpenses.

(** ** Dates: what is written is read back *)

Section Dates.

Lemma in_up_to (n z : Z) : 1 <= z <= n -> In z (up_to n).
Proof.
  intro H. unfold up_to. apply in_map_iff.
  exists (Z.to_nat (z - 1)). split; [lia | ].
  apply in_seq. lia.
Qed.

Lemma years_are_four_digits :
  forallb four_digit_year (map (fun i => 999 + i) (up_to 9000)) = true.
Proof. vm_compute. reflexivity. Qed.

Lemma year_digits (y : Z) :
  1000 <= y <= 9999 ->
  exists a b c d,
    str_of_Z y = String a (String b (String c (String d EmptyString)))
    /\ is_digit a = true /\ is_digit b = true
    /\ is_digit c = true /\ is_digit d = true
    /\ 1000 * digit_val a + 100 * digit_val b + 10 * digit_val c + digit_val d = y.
Proof.
  intro Hy.
  assert (Hok : four_digit_year y = true).
  { apply (proj1 (forallb_forall _ _) years_are_four_digits).
    apply in_map_iff. exists (y - 999). split; [cbv beta; lia | ].
    apply in_up_to. lia. }
  unfold four_digit_year in Hok.
  destruct (str_of_Z y) as [ | a [ | b [ | c [ | d [ | ]]]]]; try discriminate.
  exists a, b, c, d.
  apply andb_true_iff in Hok as [Hok Hval].
  apply andb_true_iff in Hok as [Hok Hd].
  apply andb_true_iff in Hok as [Hok Hc].
  apply andb_true_iff in Hok as [Ha Hb].
  apply Z.eqb_eq in Hval. auto 10.
Qed.

Lemma parse_Y_year (y : Z) (rest : string) :
  1000 <= y <= 9999 -> parse_Y (str_of_Z y +++ rest) = Some (y, rest).
Proof.
  intro Hy. destruct (year_digits y Hy) as (a & b & c & d & -> & Ha & Hb & Hc & Hd & Hval).
  unfold parse_Y. cbn [String.append]. rewrite Ha, Hb, Hc, Hd, Hval. reflexivity.
Qed.

Lemma small_cases (n : Z) (P : Z -> Prop) :
  Forall P (up_to n) -> forall z, 1 <= z <= n -> P z.
Proof.
  intros H z Hz. rewrite Forall_forall in H. apply H. now apply in_up_to.
Qed.

Lemma parse_m_month (m : Z) (rest : string) :
  1 <= m <= 12 -> parse_m (two_digits m +++ rest) = Some (m, rest).
Proof.
  revert m. apply (small_cases 12). repeat constructor.
Qed.

Lemma parse_d_day (d : Z) (rest : string) :
  1 <= d <= 31 -> parse_d (two_digits d +++ rest) = Some (d, rest).
Proof.
  revert d. apply (small_cases 31). repeat constructor.
Qed.

Lemma parse_b_month (m : Z) (rest : string) :
  1 <= m <= 12 -> parse_b (month_abbr m +++ rest) = Some (m, rest).
Proof.
  revert m. apply (small_cases 12). repeat constructor.
Qed.

Lemma parse_blank_month (m : Z) (rest : string) :
  1 <= m <= 12 ->
  parse_blank (" " +++ month_abbr m +++ rest) = Some (month_abbr m +++ rest).
Proof.
  revert m. apply (small_cases 12). repeat constructor.
Qed.

Lemma digit_is_no_space (a : ascii) : is_digit a = true -> is_space a = false.
Proof.
  unfold is_digit, is_space. intro H.
  apply andb_true_iff in H as [Hlo Hhi].
  apply Nat.leb_le in Hlo, Hhi.
  apply orb_false_iff. split; apply andb_false_iff.
  - right. apply Nat.leb_gt. lia.
  - right. apply Nat.leb_gt. lia.
Qed.

Lemma parse_blank_year (y : Z) (rest : string) :
  1000 <= y <= 9999 ->
  parse_blank (" " +++ str_of_Z y +++ rest) = Some (str_of_Z y +++ rest).
Proof.
  intro Hy. destruct (year_digits y Hy) as (a & b & c & d & -> & Ha & _).
  cbn. now rewrite (digit_is_no_space a Ha).
Qed.

Lemma valid_date_bounds (dt : date) :
  valid_date dt = true ->
  1 <= year dt <= 9999 /\ 1 <= month dt <= 12 /\ 1 <= day dt <= 31.
Proof.
  unfold valid_date. intro H.
  repeat (apply andb_true_iff in H as [H ?]).
  repeat match goal with
         | H : (_ <=? _) = true |- _ => apply Z.leb_le in H
         end.
  assert (days_in_month (year dt) (month dt) <= 31).
  { unfold days_in_month.
    repeat match goal with
           | |- context [match ?x with _ => _ end] => destruct x
           end; lia. }
  lia.
Qed.

Lemma append_nil_r (s : string) : s +++ "" = s.
Proof. induction s as [ | c s IH]; cbn; [reflexivity | now rewrite IH]. Qed.

Lemma append_assoc (s t u : string) : (s +++ t) +++ u = s +++ t +++ u.
Proof. induction s as [ | c s IH]; cbn; [reflexivity | now rewrite IH]. Qed.

Variable rt : interp.

Lemma year_repr_storable (dt : date) :
  storable dt -> year_repr rt (year dt) = str_of_Z (year dt).
Proof.
  intros [_ Hyear]. unfold year_repr.
  now replace (1000 <=? year dt) with true by (symmetry; apply Z.leb_le; lia).
Qed.

Lemma is_ascii_app (s t : string) : is_ascii (s +++ t) = is_ascii s && is_ascii t.
Proof.
  induction s as [ | c s IH]; cbn; [reflexivity | ].
  now rewrite IH, andb_assoc.
Qed.

Lemma year_is_ascii (y : Z) : 1000 <= y <= 9999 -> is_ascii (str_of_Z y) = true.
Proof.
  intro Hy.
  destruct (year_digits y Hy) as (a & b & c & d & -> & Ha & Hb & Hc & Hd & _).
  assert (Hdigit : forall x, is_digit x = true -> (nat_of_ascii x <? 128)%nat = true).
  { intros x Hx. unfold is_digit in Hx. apply andb_true_iff in Hx as [_ Hhi].
    apply Nat.leb_le in Hhi. apply Nat.ltb_lt. lia. }
  cbn [is_ascii]. now rewrite (Hdigit a Ha), (Hdigit b Hb), (Hdigit c Hc), (Hdigit d Hd).
Qed.

Lemma two_digits_ascii (n : Z) : 1 <= n <= 31 -> is_ascii (two_digits n) = true.
Proof. revert n. apply (small_cases 31). repeat constructor. Qed.

Lemma month_abbr_ascii (m : Z) : 1 <= m <= 12 -> is_ascii (month_abbr m) = true.
Proof. revert m. apply (small_cases 12). repeat constructor. Qed.

(** What [strftime] prints for a storable date is ASCII. *)
Lemma strftime_is_ascii (dt : date) :
  storable dt ->
  is_ascii (strftime_iso rt dt) = true /\ is_ascii (strftime_d_b_Y rt dt) = true.
Proof.
  intros Hdt. pose proof Hdt as [Hvalid Hyear].
  destruct (valid_date_bounds dt Hvalid) as (Hy & Hm & Hd).
  assert (Hy' : 1000 <= year dt <= 9999) by lia.
  unfold strftime_iso, strftime_d_b_Y, strftime_d_b.
  rewrite (year_repr_storable dt Hdt), !is_ascii_app.
  change (zfill 2 (str_of_Z (month dt))) with (two_digits (month dt)).
  change (zfill 2 (str_of_Z (day dt))) with (two_digits (day dt)).
  rewrite (year_is_ascii _ Hy'), (two_digits_ascii (month dt)) by lia.
  rewrite (two_digits_ascii (day dt) Hd), (month_abbr_ascii _ Hm).
  split; reflexivity.
Qed.

(** The ISO text and the display text of a storable date parse back to it. *)
Lemma strptime_strftime (dt : date) :
  storable dt ->
  strptime (strftime_iso rt dt) ISO = Some dt
  /\ strptime (strftime_d_b_Y rt dt) DMonY = Some dt.
Proof.
  intros Hdt. pose proof Hdt as [Hvalid Hyear].
  destruct (valid_date_bounds dt Hvalid) as (Hy & Hm & Hd).
  assert (Hy' : 1000 <= year dt <= 9999) by lia.
  assert (Hfinish : finish (year dt) (month dt) (day dt) "" = Some dt).
  { unfold finish. destruct dt as [y m d]. cbn in *. now rewrite Hvalid. }
  split.
  - unfold strptime, strftime_iso. rewrite (year_repr_storable dt Hdt).
    rewrite (parse_Y_year _ _ Hy'). cbn [literal String.append Ascii.eqb Bool.eqb].
    change (zfill 2 (str_of_Z (month dt))) with (two_digits (month dt)).
    rewrite (parse_m_month _ _ Hm).
    cbn [literal String.append Ascii.eqb Bool.eqb].
    change (zfill 2 (str_of_Z (day dt))) with (two_digits (day dt)).
    rewrite <- (append_nil_r (two_digits (day dt))).
    rewrite (parse_d_day _ _ Hd). exact Hfinish.
  - unfold strptime, strftime_d_b_Y, strftime_d_b.
    rewrite (year_repr_storable dt Hdt), !append_assoc.
    change (zfill 2 (str_of_Z (day dt))) with (two_digits (day dt)).
    rewrite (parse_d_day _ _ Hd), (parse_blank_month _ _ Hm).
    rewrite (parse_b_month _ _ Hm).
    rewrite <- (append_nil_r (str_of_Z (year dt))).
    rewrite (parse_blank_year _ _ Hy'), (parse_Y_year _ _ Hy').
    exact Hfinish.
Qed.

(** Neither text is read by the other format. *)
Lemma formats_do_not_overlap (dt : date) :
  storable dt ->
  strptime (strftime_iso rt dt) DMonY = None
  /\ strptime (strftime_d_b_Y rt dt) ISO = None.
Proof.
  intros Hdt. pose proof Hdt as [Hvalid Hyear].
  destruct (valid_date_bounds dt Hvalid) as (Hy & Hm & Hd).
  assert (Hy' : 1000 <= year dt <= 9999) by lia.
  split.
  - unfold strptime, strftime_iso. rewrite (year_repr_storable dt Hdt).
    destruct (year_digits _ Hy') as (a & b & c & d & -> & Ha & Hb & Hc & _).
    cbn [String.append]. unfold parse_d.
    pose proof (digit_is_no_space b Hb) as Sb.
    pose proof (digit_is_no_space c Hc) as Sc.
    repeat match goal with
           | |- context [if ?x then _ else _] => destruct x
           end;
      cbn [parse_blank]; rewrite ?Sb, ?Sc; reflexivity.
  - unfold strptime, strftime_d_b_Y, strftime_d_b. rewrite !append_assoc.
    change (zfill 2 (str_of_Z (day dt))) with (two_digits (day dt)).
    generalize (month_abbr (month dt) +++ " " +++ year_repr rt (year dt)).
    intro s. revert s. generalize (day dt) Hd.
    apply (small_cases 31 (fun z => forall s, _ = None)).
    repeat (apply Forall_cons; [intros [ | c s]; reflexivity | ]).
    apply Forall_nil.
Qed.

(** The order of ISO texts is the order of days. *)
Lemma str_ltb_app (p q s t : string) :
  String.length p = String.length q ->
  str_ltb (p +++ s) (q +++ t)
  = str_ltb p q || (String.eqb p q && str_ltb s t).
Proof.
  revert q. induction p as [ | x p IH]; intros [ | y q] Hlen; try discriminate.
  - cbn. now destruct t.
  - cbn [String.append str_ltb String.eqb]. injection Hlen as Hlen.
    rewrite (IH q Hlen).
    destruct (nat_of_ascii x <? nat_of_ascii y)%nat, (Ascii.eqb x y),
      (str_ltb p q), (String.eqb p q); reflexivity.
Qed.

Lemma small_numbers_agree :
  forallb (fun mn => two_digits_agree (fst mn) (snd mn))
          (list_prod (up_to 31) (up_to 31)) = true.
Proof. vm_compute. reflexivity. Qed.

Lemma two_digits_order (m n : Z) :
  1 <= m <= 31 -> 1 <= n <= 31 ->
  str_ltb (two_digits m) (two_digits n) = (m <? n)
  /\ String.eqb (two_digits m) (two_digits n) = (m =? n)
  /\ String.length (two_digits m) = 2%nat.
Proof.
  intros Hm Hn.
  assert (H : two_digits_agree m n = true).
  { apply (proj1 (forallb_forall _ _) small_numbers_agree (m, n)).
    apply in_prod; now apply in_up_to. }
  unfold two_digits_agree in H.
  apply andb_true_iff in H as [H Hlen]. apply andb_true_iff in H as [Hlt Heq].
  apply Bool.eqb_prop in Hlt, Heq. apply Nat.eqb_eq in Hlen. auto.
Qed.

Lemma digit_code (a : ascii) :
  is_digit a = true ->
  (48 <= nat_of_ascii a <= 57)%nat
  /\ digit_val a = Z.of_nat (nat_of_ascii a) - 48.
Proof.
  unfold is_digit, digit_val. intro H. apply andb_true_iff in H as [Hlo Hhi].
  apply Nat.leb_le in Hlo, Hhi. auto.
Qed.

Lemma year_order (y z : Z) :
  1000 <= y <= 9999 -> 1000 <= z <= 9999 ->
  str_ltb (str_of_Z y) (str_of_Z z) = (y <? z)
  /\ String.eqb (str_of_Z y) (str_of_Z z) = (y =? z)
  /\ String.length (str_of_Z y) = String.length (str_of_Z z).
Proof.
  intros Hy Hz.
  destruct (year_digits y Hy) as (a & b & c & d & -> & Ha & Hb & Hc & Hd & Hyv).
  destruct (year_digits z Hz) as (a' & b' & c' & d' & -> & Ha' & Hb' & Hc' & Hd' & Hzv).
  apply digit_code in Ha as [Ha Va], Hb as [Hb Vb], Hc as [Hc Vc], Hd as [Hd Vd].
  apply digit_code in Ha' as [Ha' Va'], Hb' as [Hb' Vb'], Hc' as [Hc' Vc'],
                      Hd' as [Hd' Vd'].
  rewrite Va, Vb, Vc, Vd in Hyv. rewrite Va', Vb', Vc', Vd' in Hzv.
  cbn [str_ltb String.eqb String.length].
  rewrite !ascii_eqb_nat, ?andb_false_r, ?andb_true_r, ?orb_false_r.
  split; [ | split; [ | reflexivity]].
  - destruct (Nat.ltb_spec (nat_of_ascii a) (nat_of_ascii a')),
             (Nat.eqb_spec (nat_of_ascii a) (nat_of_ascii a')),
             (Nat.ltb_spec (nat_of_ascii b) (nat_of_ascii b')),
             (Nat.eqb_spec (nat_of_ascii b) (nat_of_ascii b')),
             (Nat.ltb_spec (nat_of_ascii c) (nat_of_ascii c')),
             (Nat.eqb_spec (nat_of_ascii c) (nat_of_ascii c')),
             (Nat.ltb_spec (nat_of_ascii d) (nat_of_ascii d'));
      cbn [orb andb]; symmetry;
      first [apply Z.ltb_lt; lia | apply Z.ltb_ge; lia].
  - destruct (Nat.eqb_spec (nat_of_ascii a) (nat_of_ascii a')),
             (Nat.eqb_spec (nat_of_ascii b) (nat_of_ascii b')),
             (Nat.eqb_spec (nat_of_ascii c) (nat_of_ascii c')),
             (Nat.eqb_spec (nat_of_ascii d) (nat_of_ascii d'));
      cbn [andb]; symmetry;
      first [apply Z.eqb_eq; lia | apply Z.eqb_neq; lia].
Qed.

Lemma string_eqb_app (p q s t : string) :
  String.length p = String.length q ->
  String.eqb (p +++ s) (q +++ t) = String.eqb p q && String.eqb s t.
Proof.
  revert q. induction p as [ | x p IH]; intros [ | y q] Hlen; try discriminate.
  - reflexivity.
  - cbn [String.append String.eqb]. injection Hlen as Hlen.
    rewrite (IH q Hlen). now destruct (Ascii.eqb x y).
Qed.

Lemma iso_order (a b : date) :
  storable a -> storable b ->
  str_ltb (strftime_iso rt a) (strftime_iso rt b) = date_ltb a b.
Proof.
  intros Ha Hb. unfold strftime_iso, date_ltb.
  rewrite (year_repr_storable a Ha), (year_repr_storable b Hb).
  destruct Ha as [Va Ya], Hb as [Vb Yb].
  destruct (valid_date_bounds a Va) as (Hya & Hma & Hda).
  destruct (valid_date_bounds b Vb) as (Hyb & Hmb & Hdb).
  destruct (year_order (year a) (year b)) as (Ylt & Yeq & Ylen); [lia | lia | ].
  destruct (two_digits_order (month a) (month b)) as (Mlt & Meq & Mlen);
    [lia | lia | ].
  destruct (two_digits_order (month b) (month a)) as (_ & _ & Mlen');
    [lia | lia | ].
  destruct (two_digits_order (day a) (day b)) as (Dlt & _ & _); [lia | lia | ].
  rewrite (str_ltb_app _ _ _ _ Ylen), Ylt, Yeq.
  cbn [String.append str_ltb Ascii.eqb Bool.eqb]. rewrite Nat.ltb_irrefl.
  cbn [orb andb].
  change (zfill 2 (str_of_Z (month a))) with (two_digits (month a)).
  change (zfill 2 (str_of_Z (month b))) with (two_digits (month b)).
  change (zfill 2 (str_of_Z (day a))) with (two_digits (day a)).
  change (zfill 2 (str_of_Z (day b))) with (two_digits (day b)).
  rewrite str_ltb_app by congruence. rewrite Mlt, Meq.
  cbn [str_ltb Ascii.eqb Bool.eqb]. rewrite Nat.ltb_irrefl. cbn [orb andb].
  now rewrite Dlt.
Qed.

Lemma iso_is_text (dt : date) :
  storable dt -> truthy (PStr (strftime_iso rt dt)) = true.
Proof.
  intro Hdt. unfold strftime_iso. rewrite (year_repr_storable dt Hdt).
  destruct Hdt as [Hv Hy]. destruct (valid_date_bounds dt Hv) as (Hb & _).
  destruct (year_digits (year dt)) as (a & b & c & d & -> & _); [lia | ].
  reflexivity.
Qed.

End Dates.

Section DatedExpenses.

Variable w : world.

Lemma stamp_iso (dt : date) :
  storable dt ->
  stamp w (PStr (strftime_iso (rt w) dt))
  = (PStr (strftime_iso (rt w) dt), PStr (strftime_d_b_Y (rt w) dt)).
Proof.
  intro Hdt. unfold stamp, py_strptime.
  rewrite (proj1 (strftime_is_ascii (rt w) dt Hdt)).
  now rewrite (proj1 (strptime_strftime (rt w) dt Hdt)).
Qed.

Lemma stamp_display (dt : date) :
  storable dt ->
  stamp w (PStr (strftime_d_b_Y (rt w) dt))
  = (PStr (strftime_iso (rt w) dt), PStr (strftime_d_b_Y (rt w) dt)).
Proof.
  intro Hdt. unfold stamp, py_strptime.
  rewrite (proj2 (strftime_is_ascii (rt w) dt Hdt)).
  rewrite (proj2 (formats_do_not_overlap (rt w) dt Hdt)).
  now rewrite (proj2 (strptime_strftime (rt w) dt Hdt)).
Qed.

(** X9: [add_expense] takes a day in either spelling: given the ISO text
    ([2024-03-01]) or the display text ([01 Mar 2024]) of the same day (year
    1000 or later), it stores the same record, with the ISO text as [ts] and
    the display text as [date]. *)
Theorem add_expense_accepts_both_spellings
    (d : disk) (old : list pyval) (title amount type : pyval) (f : float)
    (dt : date) (text : string) :
  storable dt ->
  text = strftime_iso (rt w) dt \/ text = strftime_d_b_Y (rt w) dt ->
  writable d = true ->
  load_expenses d = Ret (PList old) ->
  py_float (rt w) amount = Ret f ->
  let stored := stored_entry w (mkEntry title f type dt) in
  fst (add_expense w title amount type (PStr text) d) = Ret (expense_added stored)
  /\ load_expenses (snd (add_expense w title amount type (PStr text) d))
     = Ret (PList (old ++ [stored])).
Proof.
  intros Hdt Htext Hw Hload Hf stored.
  destruct (add_expense_appends w d old (mkAddition title amount type (PStr text))
              Hw Hload (ex_intro _ f Hf)) as (d' & Hrun & Hload' & _).
  cbn [a_title a_amount a_type a_date] in Hrun. rewrite Hrun. cbn [fst snd].
  assert (Hrec : recorded w (mkAddition title amount type (PStr text)) = stored).
  { unfold recorded. cbn [a_title a_amount a_type a_date]. rewrite Hf.
    destruct Htext as [-> | ->]; [rewrite (stamp_iso dt Hdt) | rewrite (stamp_display dt Hdt)];
      reflexivity. }
  rewrite Hrec in *. split; [reflexivity | exact Hload'].
Qed.

(** X10: the sort key of a record can be recovered from its date alone: a
    record with no [ts] (none, null or empty) whose [date] is the display
    text or the ISO text of a day gets the key its [ts] would have been, the
    ISO text of that day. *)
Theorem sort_key_recovers_ts (rec : dict) (dt : date) (text : string) :
  storable dt ->
  text = strftime_iso (rt w) dt \/ text = strftime_d_b_Y (rt w) dt ->
  truthy (match dict_get "ts" rec with Some v => v | None => PNone end) = false ->
  dict_get "date" rec = Some (PStr text) ->
  sort_key w (PDict rec) = Ret (PStr (strftime_iso (rt w) dt)).
Proof.
  intros Hdt Htext Hts Hdate. unfold sort_key. cbn [py_get bind].
  rewrite Hts, Hdate. unfold py_strptime.
  destruct Htext as [-> | ->].
  - rewrite (proj1 (strftime_is_ascii (rt w) dt Hdt)).
    rewrite (proj1 (formats_do_not_overlap (rt w) dt Hdt)).
    now rewrite (proj1 (strptime_strftime (rt w) dt Hdt)).
  - rewrite (proj2 (strftime_is_ascii (rt w) dt Hdt)).
    now rewrite (proj2 (strptime_strftime (rt w) dt Hdt)).
Qed.

Lemma key_of_stored_entry (e : entry) :
  storable (e_date e) ->
  sort_key w (stored_entry w e) = Ret (PStr (strftime_iso (rt w) (e_date e))).
Proof.
  intro Hdt. unfold sort_key, stored_entry, expense_record.
  cbn [py_get dict_get String.eqb Ascii.eqb Bool.eqb bind].
  now rewrite (iso_is_text (rt w) _ Hdt).
Qed.

Lemma sorted_through_map {A B : Type} (f : A -> B) (R : B -> B -> Prop)
    (R' : A -> A -> Prop) (l : list A) :
  (forall a b, In a l -> In b l -> R (f a) (f b) -> R' a b) ->
  StronglySorted R (map f l) -> StronglySorted R' l.
Proof.
  induction l as [ | x l IH]; intros Himp Hsorted; [constructor | ].
  cbn [map] in Hsorted. apply StronglySorted_inv in Hsorted as [Htail Hhead].
  constructor.
  - apply IH; [ | exact Htail]. intros a b Ha Hb. apply Himp; now right.
  - rewrite Forall_forall in *. intros b Hb.
    apply Himp; [now left | now right | ].
    apply Hhead. now apply in_map.
Qed.

(** X11: a ledger of records written from valid days (year 1000 or later)
    is listed in calendar order, latest day first: the listing holds the
    same entries, and no entry stands before one of a later day. *)
Theorem listing_is_chronological (d : disk) (items : list entry) :
  load_expenses d = Ret (PList (map (stored_entry w) items)) ->
  Forall (fun e => storable (e_date e)) items ->
  exists listed,
    get_expenses w d = Ret (PList (map (stored_entry w) listed))
    /\ Permutation items listed
    /\ StronglySorted not_earlier listed.
Proof.
  intros Hload Hdates.
  set (es := map (stored_entry w) items) in *.
  assert (Hkeyed : Forall (text_keyed w) es).
  { apply Forall_map. eapply Forall_impl; [ | exact Hdates].
    intros e He. eexists. exact (key_of_stored_entry e He). }
  set (out := map snd (sort_desc (map (with_key w) es))).
  assert (Hperm : Permutation es out).
  { unfold out. rewrite <- sort_desc_perm, map_map. cbn. now rewrite map_id. }
  destruct (Permutation_map_inv (stored_entry w) items (Permutation_sym Hperm))
    as (listed & Hout & Hlisted).
  exists listed. split; [ | split; [exact Hlisted | ]].
  - unfold get_expenses. rewrite Hload. cbn [bind py_iter].
    rewrite (sorted_reverse_text_keyed w es Hkeyed). fold out. now rewrite Hout.
  - assert (Hsorted : StronglySorted (newer_first w) out).
    { apply listing_sorted; [apply sort_desc_sorted | ].
      apply (Permutation_Forall (sort_desc_perm (map (with_key w) es))).
      apply Forall_map, Forall_forall. reflexivity. }
    rewrite Hout in Hsorted.
    apply (sorted_through_map (stored_entry w) (newer_first w)); [ | exact Hsorted].
    assert (Hall : Forall (fun e => storable (e_date e)) listed)
      by exact (Permutation_Forall Hlisted Hdates).
    rewrite Forall_forall in Hall.
    intros a b Ha Hb. unfold newer_first, not_below, not_earlier, key_of.
    rewrite (key_of_stored_entry a (Hall a Ha)), (key_of_stored_entry b (Hall b Hb)).
    now rewrite (iso_order (rt w) _ _ (Hall a Ha) (Hall b Hb)).
Qed.

End DatedExpenses.

(** ** Soil reports *)

Section Soil.



Lemma get_soil_report_picks (d : disk) (soil : dict) (field : string) :
  load_soil_data d = Ret (PDict soil) ->
  get_soil_report d field = Ret (pick_report soil field).
Proof.
  intro Hload. unfold get_soil_report, pick_report. rewrite Hload.
  cbn [bind py_in py_item]. unfold dict_has.
  destruct (dict_get field soil); [reflexivity | ]. cbn [bind].
  destruct (dict_get "default" soil); reflexivity.
Qed.

(** X12: on a soil map, [get_soil_report] returns the report of the field
    when the map has one, else the report of the field [default] when the
    map has one, else the record [{"error": "No soil data"}]; a missing or
    unreadable [soil.json] counts as the empty map. *)
Theorem get_soil_report_falls_back (d : disk) (soil : dict) (field : string) :
  load_soil_data d = Ret (PDict soil) ->
  get_soil_report d field = Ret (pick_report soil field)
  /\ (soil_json d = Missing \/ soil_json d = Unreadable ->
      get_soil_report d field = Ret no_soil_data).
Proof.
  intro Hload. split.
  - exact (get_soil_report_picks d soil field Hload).
  - intros [H | H]; unfold get_soil_report, load_soil_data; rewrite H; reflexivity.
Qed.

Variable w : world.


(** X14: [add_soil_report] raises only before anything is written (a number
    that [float()] refuses, or a soil document that takes no item), and the
    data directory is then as before. A save that fails does not raise: the
    call returns [{"error": "Failed to save soil data"}]. The soil file is
    then as before only if the failure came before the file was opened: a
    failure in [json.dump], after [open(path, "w")], leaves the file
    unreadable, and every later [get_soil_report] answers [No soil data]. *)
Theorem add_soil_report_outcomes
    (d : disk) (field : string)
    (ph nitrogen phosphorus potassium moisture soil_type : pyval) :
  let run := add_soil_report w field ph nitrogen phosphorus potassium moisture soil_type d in
  (exists report, fst run = Ret (soil_saved report) /\ writable d = true)
  \/ ((exists e, fst run = Raise e) /\ snd run = d)
  \/ (fst run = Ret (PDict [("error", PStr "Failed to save soil data")])
      /\ writable d = false
      /\ snd run = (if torn d then with_soil_file Unreadable d else d)
      /\ (torn d = true ->
          forall other, get_soil_report (snd run) other = Ret no_soil_data)).
Proof.
  intro run. subst run.
  unfold add_soil_report, io_bind, reading, pure, save_soil_data, with_soil_file.
  destruct (load_soil_data d) as [data | ];
    [ | right; left; cbn; split; [eexists; reflexivity | reflexivity]].
  repeat match goal with
         | |- context [py_float (rt w) ?x] =>
             destruct (py_float (rt w) x);
               [ | right; left; cbn; split; [eexists; reflexivity | reflexivity]]
         end.
  destruct (py_setitem data field _) as [data' | ];
    [ | right; left; cbn; split; [eexists; reflexivity | reflexivity]].
  destruct (writable d) eqn:Hw; cbn [fst snd].
  - left. eexists. split; reflexivity.
  - right. right. destruct (torn d); cbn [fst snd];
      (split; [reflexivity | ]); (split; [reflexivity | ]);
      (split; [reflexivity | ]).
    + intros _ other. reflexivity.
    + discriminate.
Qed.

End Soil.

(** ** What the lookups can return *)

Section Outcomes.

Variable w : world.

Lemma _find_local_weather_cached (d : disk) (city : string) (v : pyval) :
  _find_local_weather w d city = Some v ->
  exists rec, v = PDict rec /\ cached_weather d rec.
Proof.
  intro Hfind.
  destruct (_find_local_weather_dict w d city v Hfind) as [rec ->].
  exists rec. split; [reflexivity | ].
  unfold _find_local_weather in Hfind. unfold cached_weather.
  destruct (weather_json d) as [ | | cache]; cbn in Hfind; try discriminate.
  exists cache. destruct (py_iter cache) as [rs | ]; cbn [bind] in Hfind;
    [ | discriminate].
  exists rs. split; [reflexivity | ]. split; [reflexivity | ].
  repeat match type of Hfind with
         | context [bind (first_where ?t rs) _] =>
             let H := fresh "Hs" in
             destruct (first_where t rs) as [[r | ] | ] eqn:H; cbn [bind] in Hfind;
               [injection Hfind as ->; exact (proj1 (first_where_some _ _ _ H))
               | | discriminate]
         end.
  match type of Hfind with
  | context [first_where ?t rs] =>
      destruct (first_where t rs) as [[r | ] | ] eqn:H3; [ | discriminate | discriminate]
  end.
  injection Hfind as ->. exact (proj1 (first_where_some _ _ _ H3)).
Qed.

Lemma local_weather_or (d : disk) (city : string) (otherwise : dict) :
  exists rec,
    local_or (_find_local_weather w d city) (PDict otherwise) = PDict rec
    /\ ((rec <> [] /\ cached_weather d rec) \/ rec = otherwise).
Proof.
  destruct (_find_local_weather w d city) as [v | ] eqn:Hfind; cbn [local_or].
  - destruct (_find_local_weather_cached d city v Hfind) as (rec & -> & Hc).
    destruct rec as [ | kv rec]; cbn [truthy].
    + eauto.
    + exists (kv :: rec). split; [reflexivity | ]. left. split; [discriminate | exact Hc].
  - eauto.
Qed.

(** X15: whatever the credential, the network and the cache file,
    [get_weather] never raises and returns one of three records: the live
    record of the four keys [city], [temp], [humidity], [weather], whose
    city is the text asked for; a non-empty record taken as it is from the
    local cache; or a record holding only an [error]. A live record needs a
    credential. *)
Theorem get_weather_outcomes (d : disk) (city : string) :
  exists rec,
    get_weather w d city = Ret (PDict rec)
    /\ ((keys rec = live_weather_keys
         /\ dict_get "city" rec = Some (PStr city)
         /\ no_key (OPENWEATHER_KEY w) = false)
        \/ (rec <> [] /\ cached_weather d rec)
        \/ keys rec = ["error"]).
Proof.
  unfold get_weather.
  destruct (no_key (OPENWEATHER_KEY w)).
  - destruct (local_weather_or d city [("error", PStr "Missing OPENWEATHER_KEY in .env")])
      as (rec & -> & [Hc | ->]); eauto.
  - repeat match goal with
           | |- context [bind ?c _] => destruct c; cbn [bind]
           | |- context [if ?b then _ else _] => destruct b
           end;
      cbn [try_except];
      match goal with
      | |- exists rec, Ret (local_or _ (PDict ?o)) = _ /\ _ =>
          destruct (local_weather_or d city o) as (rec & -> & [Hc | ->]); eauto
      | |- _ => eexists; split; [reflexivity | left; auto]
      end.
Qed.

Lemma _find_local_price_shape (d : disk) (crop state : string) (v : pyval) :
  _find_local_price w d crop state = Some v ->
  exists rec,
    v = PDict rec
    /\ keys rec = price_keys ++ ["source"]
    /\ dict_get "source" rec = Some (PStr "local").
Proof.
  unfold _find_local_price.
  destruct (exists_ (prices_json d)); cbn [negb]; [ | discriminate].
  repeat match goal with
         | |- context [bind ?c _] => destruct c; cbn [bind]
         | |- context [match ?l with [] => _ | _ :: _ => _ end] => destruct l
         | |- context [if ?b then _ else _] => destruct b
         end;
    try discriminate;
    intros [= <-]; eexists; split; [reflexivity | split; reflexivity].
Qed.

Lemma local_price_or (d : disk) (crop state : string) (otherwise : dict) :
  exists rec,
    local_or (_find_local_price w d crop state) (PDict otherwise) = PDict rec
    /\ ((keys rec = price_keys ++ ["source"]
         /\ dict_get "source" rec = Some (PStr "local"))
        \/ rec = otherwise).
Proof.
  destruct (_find_local_price w d crop state) as [v | ] eqn:Hfind; cbn [local_or].
  - destruct (_find_local_price_shape d crop state v Hfind) as (rec & -> & Hk & Hs).
    destruct rec as [ | kv rec]; [discriminate Hk | ].
    cbn [truthy]. eauto.
  - eauto.
Qed.

(** X16: whatever the network and the cache file, [get_market_price] never
    raises and returns a record of one of four shapes: the live record (the
    nine price fields, then [history]); the cached record (the nine price
    fields, then [source], which is [local]); the error record [crop],
    [state], [error]; or, after an exception, [crop], [state],
    [modal_price], [error]. So [history] marks a live answer and [source] a
    cached one, and an error record has neither. *)
Theorem get_market_price_outcomes (d : disk) (commodity state : string) :
  exists rec,
    get_market_price w d commodity state = Ret (PDict rec)
    /\ (keys rec = price_keys ++ ["history"]
        \/ (keys rec = price_keys ++ ["source"]
            /\ dict_get "source" rec = Some (PStr "local"))
        \/ keys rec = ["crop"; "state"; "error"]
        \/ keys rec = ["crop"; "state"; "modal_price"; "error"]).
Proof.
  unfold get_market_price.
  repeat match goal with
         | |- context [bind ?c _] => destruct c; cbn [bind]
         | |- context [if ?b then _ else _] => destruct b
         end;
    cbn [try_except];
    match goal with
    | |- exists rec, Ret (local_or _ (PDict ?o)) = _ /\ _ =>
        destruct (local_price_or d commodity state o) as (rec & -> & [Hc | ->]);
          eexists; (split; [reflexivity | ]); cbn; auto
    | |- _ => eexists; split; [reflexivity | left; reflexivity]
    end.
Qed.

End Outcomes.

(** ** The local price cache, record by record *)

Section LocalPrices.

Variable w : world.








End LocalPrices.

(** ** The model client and the offline chatbot *)

Section Model.

Variable w : world.

(** X18: [ask_llm] never raises. Its answer is the canned sentence
    [_mock_response] picks for the prompt, unless there is a credential, the
    service replied with status 200 and a JSON document that has no [error]
    and has [choices], and the answer is the first choice's message
    content. *)
Theorem ask_llm_always_answers (prompt : string) :
  exists v,
    ask_llm w prompt = Ret v
    /\ (v = PStr (_mock_response prompt)
        \/ (no_key (OPENROUTER_API_KEY w) = false
            /\ exists resp r,
                 requests_post w llm_url prompt = Ret resp
                 /\ status_code resp = 200
                 /\ json resp = Ret r
                 /\ py_in "error" r = Ret false
                 /\ py_in "choices" r = Ret true
                 /\ model_content r = Ret v)).
Proof.
  unfold ask_llm, get_openrouter_headers, model_content.
  destruct (no_key (OPENROUTER_API_KEY w)) eqn:Hkey; cbn [truthy negb];
    [eexists; split; [reflexivity | now left] | ].
  destruct (requests_post w llm_url prompt) as [resp | e] eqn:Hpost; cbn [bind];
    [ | eexists; split; [reflexivity | now left]].
  destruct (Z.eqb_spec (status_code resp) 200) as [Hcode | _]; cbn [negb];
    [ | eexists; split; [reflexivity | now left]].
  destruct (json resp) as [r | e] eqn:Hjson; cbn [bind];
    [ | eexists; split; [reflexivity | now left]].
  destruct (py_in "error" r) as [[ | ] | e] eqn:Herr; cbn [bind];
    try (eexists; split; [reflexivity | now left]).
  destruct (py_in "choices" r) as [[ | ] | e] eqn:Hch; cbn [bind];
    try (eexists; split; [reflexivity | now left]).
  destruct (py_item r "choices") as [choices | e] eqn:Hitem; cbn [bind];
    [ | eexists; split; [reflexivity | now left]].
  destruct (py_len choices) as [n | e]; cbn [bind];
    [ | eexists; split; [reflexivity | now left]].
  cbn [negb orb]. destruct (n =? 0);
    [eexists; split; [reflexivity | now left] | ].
  destruct (py_first choices) as [choice | e] eqn:Hfirst; cbn [bind];
    [ | eexists; split; [reflexivity | now left]].
  destruct (py_item choice "message") as [message | e] eqn:Hmsg; cbn [bind];
    [ | eexists; split; [reflexivity | now left]].
  destruct (py_item message "content") as [content | e] eqn:Hcontent; cbn [try_except];
    [ | eexists; split; [reflexivity | now left]].
  exists content. split; [reflexivity | ]. right. split; [reflexivity | ].
  exists resp, r. repeat (split; [assumption || reflexivity | ]).
  rewrite Hitem. cbn [bind]. rewrite Hfirst. cbn [bind]. rewrite Hmsg. exact Hcontent.
Qed.

Hypothesis no_model_key : no_key (OPENROUTER_API_KEY w) = true.

Lemma _find_local_weather_reads (d d' : disk) (city : string) :
  weather_json d = weather_json d' ->
  _find_local_weather w d city = _find_local_weather w d' city.
Proof. intro H. unfold _find_local_weather. now rewrite H. Qed.

Lemma get_weather_reads (d d' : disk) (city : string) :
  weather_json d = weather_json d' -> get_weather w d city = get_weather w d' city.
Proof.
  intro H. unfold get_weather.
  now rewrite (_find_local_weather_reads d d' city H).
Qed.

Lemma offline_branch (d : disk) (question : string) :
  process_query w d question
  = (city <- extract_city w question ;;
     data <- get_weather w d city ;;
     error_or data (format_weather w city)).
Proof.
  unfold process_query.
  rewrite (detect_intent_mock w no_model_key). cbn [bind].
  replace (contains "weather" (lower (strip weather_mock))) with true
    by (vm_compute; reflexivity).
  reflexivity.
Qed.

(** X19: without a model credential every question is classified as a
    weather question, because the classification prompt itself lists the
    word [weather]: [process_query] extracts a city, looks the weather up
    and renders it, whatever was asked. So the answer never depends on the
    crops, the ledger, the soil file or the price cache. *)
Theorem offline_chatbot_only_reads_weather (d d' : disk) (question : string) :
  process_query w d question
  = (city <- extract_city w question ;;
     data <- get_weather w d city ;;
     error_or data (format_weather w city))
  /\ (weather_json d = weather_json d' ->
      process_query w d question = process_query w d' question).
Proof.
  split; [apply offline_branch | ].
  intro H. rewrite !offline_branch.
  destruct (extract_city w question) as [city | e]; cbn [bind]; [ | reflexivity].
  now rewrite (get_weather_reads d d' city H).
Qed.

Lemma generate_dashboard_insight_mock (weather prices : string) :
  generate_dashboard_insight w weather prices = Ret (PStr weather_mock).
Proof.
  unfold generate_dashboard_insight.
  rewrite (ask_llm_mock w no_model_key), mock_on_weather; [reflexivity | ].
  rewrite !lower_app. find_piece.
Qed.

Lemma get_weather_record_or_error (d : disk) (city : string) :
  exists rec, get_weather w d city = Ret (PDict rec).
Proof.
  unfold get_weather.
  destruct (no_key (OPENWEATHER_KEY w)).
  - destruct (local_weather_or w d city [("error", PStr "Missing OPENWEATHER_KEY in .env")])
      as (rec & -> & _); eauto.
  - repeat match goal with
           | |- context [bind ?c _] => destruct c; cbn [bind]
           | |- context [if ?b then _ else _] => destruct b
           end;
      cbn [try_except];
      match goal with
      | |- exists rec, Ret (local_or _ (PDict ?o)) = _ =>
          destruct (local_weather_or w d city o) as (rec & -> & _); eauto
      | |- _ => eexists; reflexivity
      end.
Qed.

Lemma get_market_price_record (d : disk) (commodity state : string) :
  exists rec, get_market_price w d commodity state = Ret (PDict rec).
Proof.
  unfold get_market_price.
  repeat match goal with
         | |- context [bind ?c _] => destruct c; cbn [bind]
         | |- context [if ?b then _ else _] => destruct b
         end;
    cbn [try_except];
    match goal with
    | |- exists rec, Ret (local_or _ (PDict ?o)) = _ =>
        destruct (local_price_or w d commodity state o) as (rec & -> & _); eauto
    | |- _ => eexists; reflexivity
    end.
Qed.

(** X20: without a model credential the dashboard insight is the same
    sentence for every city, crop and state of the data files: the prompt
    always carries the label [Weather:], so the canned answer is the weather
    one, and the route never fails. *)
Theorem offline_insight_is_constant (d : disk) (city crop : string) :
  (forall weather prices,
      generate_dashboard_insight w weather prices = Ret (PStr weather_mock))
  /\ api_dashboard_insight w d city crop
     = Ret (PDict [("insight", PStr weather_mock)]).
Proof.
  split; [apply generate_dashboard_insight_mock | ].
  unfold api_dashboard_insight.
  destruct (get_weather_record_or_error d city) as [wrec ->].
  destruct (get_market_price_record d crop "Maharashtra") as [prec ->].
  cbn [bind py_in py_get].
  destruct (dict_has "error" wrec); destruct (dict_has "error" prec);
    cbn [negb bind]; now rewrite generate_dashboard_insight_mock.
Qed.

End Model.

(** ** The HTTP routes *)

Section Routes.

Variable w : world.

Lemma get_summary_shape (d : disk) (es : list pyval) (fin : pyval) :
  load_expenses d = Ret (PList es) ->
  get_summary w d = Ret fin ->
  summable (rt w) es /\ exists i e p, fin = summary i e p.
Proof.
  intros Hload Hfin.
  assert (Hs : summable (rt w) es).
  { unfold get_summary in Hfin. rewrite Hload in Hfin. cbn [bind py_iter] in Hfin.
    destruct (totals w es (PInt 0) (PInt 0)) as [t | ] eqn:Ht; [ | discriminate].
    exact (totals_return w es _ _ _ Ht). }
  split; [exact Hs | ].
  pose proof (get_summary_sums w d es Hload Hs) as Hrun.
  rewrite Hrun in Hfin. injection Hfin as <-. eauto.
Qed.

(** X21: the dashboard answers exactly when the ledger is summable, so one
    stored entry with an unreadable amount takes the whole dashboard down,
    weather, price and crops included. When it answers, it carries the
    number of stored crops, the crops newest first, and under [financials]
    the very record [get_summary] returns: the defaults of 0 are never
    used. *)
Theorem dashboard_follows_the_ledger
    (d : disk) (city crop : string) (crops es : list pyval) :
  load_crops d = Ret (PList crops) ->
  load_expenses d = Ret (PList es) ->
  ((exists v, dashboard_data w d city crop = Ret v) <-> summable (rt w) es)
  /\ (forall v,
        dashboard_data w d city crop = Ret v ->
        exists weather price financials,
          get_weather w d city = Ret weather
          /\ get_market_price w d crop "Maharashtra" = Ret price
          /\ get_summary w d = Ret financials
          /\ v = PDict [("weather", weather); ("price", price);
                        ("crop_count", PInt (Z.of_nat (List.length crops)));
                        ("crops", PList (rev crops));
                        ("financials", financials)]).
Proof.
  intros Hcrops Hload.
  assert (Hrun : forall v,
             dashboard_data w d city crop = Ret v ->
             summable (rt w) es
             /\ exists weather price financials,
                 get_weather w d city = Ret weather
                 /\ get_market_price w d crop "Maharashtra" = Ret price
                 /\ get_summary w d = Ret financials
                 /\ v = PDict [("weather", weather); ("price", price);
                               ("crop_count", PInt (Z.of_nat (List.length crops)));
                               ("crops", PList (rev crops));
                               ("financials", financials)]).
  { intros v Hv. unfold dashboard_data in Hv.
    destruct (get_weather_record_or_error w d city) as [wrec Hw].
    destruct (get_market_price_record w d crop "Maharashtra") as [prec Hp].
    rewrite Hw, Hp, (get_crops_stored d crops Hcrops) in Hv. cbn [bind] in Hv.
    destruct (get_summary w d) as [fin | ] eqn:Hfin; cbn [bind] in Hv; [ | discriminate].
    destruct (get_summary_shape d es fin Hload Hfin) as (Hs & i & e & p & ->).
    split; [exact Hs | ].
    exists (PDict wrec), (PDict prec), (summary i e p).
    repeat (split; [reflexivity | ]).
    cbn in Hv. injection Hv as <-. now rewrite length_rev. }
  split; [split | ].
  - intros [v Hv]. exact (proj1 (Hrun v Hv)).
  - intro Hs. unfold dashboard_data.
    destruct (get_weather_record_or_error w d city) as [wrec ->].
    destruct (get_market_price_record w d crop "Maharashtra") as [prec ->].
    rewrite (get_crops_stored d crops Hcrops).
    rewrite (get_summary_sums w d es Hload Hs).
    cbn. eauto.
  - intros v Hv. exact (proj2 (Hrun v Hv)).
Qed.


End Routes.

(** ** The list files, whatever they hold *)

(** X23: the crop and expense loaders never raise and always give a list:
    the stored one when the file holds a JSON array, the empty list when
    the file is missing, unreadable or holds anything else. So the crop
    listing never fails either, and shows the stored crops newest first. *)
Theorem list_loaders_never_fail (d : disk) :
  let stored f := match f with Stored (PList l) => l | _ => [] end in
  load_crops d = Ret (PList (stored (crops_json d)))
  /\ load_expenses d = Ret (PList (stored (expenses_json d)))
  /\ get_crops d = Ret (PList (rev (stored (crops_json d)))).
Proof.
  cbv zeta.
  assert (Hc : load_crops d
               = Ret (PList match crops_json d with Stored (PList l) => l | _ => [] end)).
  { unfold load_crops. destruct (crops_json d) as [ | | [ | | | | | | ]]; reflexivity. }
  split; [exact Hc | split].
  - unfold load_expenses. destruct (expenses_json d) as [ | | [ | | | | | | ]]; reflexivity.
  - apply get_crops_stored. exact Hc.
Qed.

(** ** The properties above on sample data *)



Lemma delete_crop_removes_one_witness :
  let d' := snd (delete_crop 1 two_crops_disk) in
  fst (delete_crop 1 two_crops_disk) = Ret (crop_deleted (crop_record "Rice" "South"))
  /\ load_crops d' = Ret (PList ([crop_record "Wheat" "North"] ++ []))
  /\ (expenses_json d', soil_json d', weather_json d', prices_json d')
     = (expenses_json two_crops_disk, soil_json two_crops_disk,
        weather_json two_crops_disk, prices_json two_crops_disk).
Proof.
  apply (delete_crop_removes_one two_crops_disk [crop_record "Wheat" "North"] []
           (crop_record "Rice" "South")); reflexivity.
Defined.

Lemma add_then_delete_last_witness :
  let w := offline_world in
  let d1 := snd (add_crop w (PStr "Maize") (PStr "East") two_crops_disk) in
  fst (delete_crop 2 d1) = Ret (crop_deleted (new_crop w (PStr "Maize") (PStr "East")))
  /\ load_crops (snd (delete_crop 2 d1)) = Ret (PList wheat_and_rice).
Proof.
  apply (add_then_delete_last offline_world two_crops_disk wheat_and_rice
           (PStr "Maize") (PStr "East")); reflexivity.
Defined.

Lemma delete_index_counts_from_oldest_witness :
  exists x,
    nth_error (rev wheat_and_rice) (List.length wheat_and_rice - 1 - 0) = Some x
    /\ fst (delete_crop (Z.of_nat 0) two_crops_disk) = Ret (crop_deleted x).
Proof.
  apply (delete_index_counts_from_oldest two_crops_disk wheat_and_rice
           (rev wheat_and_rice) 0).
  - reflexivity.
  - reflexivity.
  - reflexivity.
  - cbn. lia.
Defined.

Lemma get_summary_returns_iff_summable_witness :
  (exists v, get_summary offline_world same_day_disk = Ret v)
  <-> summable plain_interp same_day_ledger.
Proof.
  apply (get_summary_returns_iff_summable offline_world same_day_disk same_day_ledger).
  reflexivity.
Defined.

Lemma equal_keys_keep_stored_order_witness :
  exists out,
    get_expenses offline_world same_day_disk = Ret (PList out)
    /\ (forall k, with_the_key offline_world k out
                  = with_the_key offline_world k same_day_ledger).
Proof.
  apply (equal_keys_keep_stored_order offline_world same_day_disk same_day_ledger).
  - reflexivity.
  - repeat constructor; eexists; vm_compute; reflexivity.
Defined.

Lemma add_expense_accepts_both_spellings_witness :
  let w := offline_world in
  let stored :=
    stored_entry w (mkEntry (PStr "Seeds") 40 (PStr "expense") (mkDate 2024 1 5)) in
  fst (add_expense w (PStr "Seeds") (PInt 40) (PStr "expense") (PStr "05 Jan 2024")
         empty_disk)
  = Ret (expense_added stored)
  /\ load_expenses
       (snd (add_expense w (PStr "Seeds") (PInt 40) (PStr "expense")
               (PStr "05 Jan 2024") empty_disk))
     = Ret (PList ([] ++ [stored])).
Proof.
  apply (add_expense_accepts_both_spellings offline_world empty_disk []
           (PStr "Seeds") (PInt 40) (PStr "expense") 40 (mkDate 2024 1 5)
           "05 Jan 2024").
  - split; [reflexivity | cbn; lia].
  - right. reflexivity.
  - reflexivity.
  - reflexivity.
  - reflexivity.
Defined.

Lemma sort_key_recovers_ts_witness :
  sort_key offline_world (PDict [("title", PStr "Seeds"); ("date", PStr "2024-01-05")])
  = Ret (PStr (strftime_iso plain_interp (mkDate 2024 1 5))).
Proof.
  apply (sort_key_recovers_ts offline_world
           [("title", PStr "Seeds"); ("date", PStr "2024-01-05")]
           (mkDate 2024 1 5) "2024-01-05").
  - split; [reflexivity | cbn; lia].
  - left. reflexivity.
  - reflexivity.
  - reflexivity.
Defined.

Lemma listing_is_chronological_witness :
  exists listed,
    get_expenses offline_world entries_disk
    = Ret (PList (map (stored_entry offline_world) listed))
    /\ Permutation [january; march; last_year] listed
    /\ StronglySorted not_earlier listed.
Proof.
  apply (listing_is_chronological offline_world entries_disk
           [january; march; last_year]).
  - reflexivity.
  - repeat (apply Forall_cons; [split; [reflexivity | cbn; lia] | ]).
    apply Forall_nil.
Defined.

Lemma get_soil_report_falls_back_witness :
  let soil := [("default", default_report); ("north", north_report)] in
  get_soil_report soil_disk "south" = Ret (pick_report soil "south")
  /\ (soil_json soil_disk = Missing \/ soil_json soil_disk = Unreadable ->
      get_soil_report soil_disk "south" = Ret no_soil_data).
Proof.
  apply (get_soil_report_falls_back soil_disk
           [("default", default_report); ("north", north_report)] "south").
  reflexivity.
Defined.



Lemma offline_chatbot_only_reads_weather_witness :
  let question := "What is the price of onion today?" in
  process_query offline_world weather_disk question
  = (city <- extract_city offline_world question ;;
     data <- get_weather offline_world weather_disk city ;;
     error_or data (format_weather offline_world city))
  /\ (weather_json weather_disk = weather_json full_disk ->
      process_query offline_world weather_disk question
      = process_query offline_world full_disk question).
Proof.
  apply (offline_chatbot_only_reads_weather offline_world eq_refl
           weather_disk full_disk "What is the price of onion today?").
Defined.

Lemma offline_insight_is_constant_witness :
  (forall weather prices,
      generate_dashboard_insight offline_world weather prices = Ret (PStr weather_mock))
  /\ api_dashboard_insight offline_world full_disk "Pune" "Tomato"
     = Ret (PDict [("insight", PStr weather_mock)]).
Proof.
  apply (offline_insight_is_constant offline_world eq_refl full_disk "Pune" "Tomato").
Defined.

Lemma dashboard_follows_the_ledger_witness :
  let w := offline_world in
  ((exists v, dashboard_data w full_disk "Pune" "Tomato" = Ret v)
   <-> summable (rt w) same_day_ledger)
  /\ (forall v,
        dashboard_data w full_disk "Pune" "Tomato" = Ret v ->
        exists weather price financials,
          get_weather w full_disk "Pune" = Ret weather
          /\ get_market_price w full_disk "Tomato" "Maharashtra" = Ret price
          /\ get_summary w full_disk = Ret financials
          /\ v = PDict [("weather", weather); ("price", price);
                        ("crop_count", PInt (Z.of_nat (List.length wheat_and_rice)));
                        ("crops", PList (rev wheat_and_rice));
                        ("financials", financials)]).
Proof.
  apply (dashboard_follows_the_ledger offline_world full_disk "Pune" "Tomato"
           wheat_and_rice same_day_ledger); reflexivity.
Defined.

